(** * ReviewMate REST API: a shallow embedding of [main.py]

    The Flask handlers of [main.py] are embedded as functions from a request
    and a store to a reply and a store.  The relational store is a pair of
    row lists (in the store's natural order, rows appended on insert) with
    their AUTO_INCREMENT counters; every SQL statement of the source is a
    function on these tables.  A handler body runs in a small state and
    exception monad over a connection, which keeps the committed store apart
    from the working copy of the open transaction, the way
    [with db.connect() as conn: ... conn.commit()] does.

    Scope of the model:
    - request bodies are JSON objects whose members are null, booleans,
      integers or strings (no fractional numbers, no nested members);
    - strings are byte strings, a VARCHAR(n) holds at most n of them;
    - integers are unbounded. *)

From Stdlib Require Import ZArith List String Ascii Bool Lia.
From Stdlib Require Import DecimalString.
Import ListNotations.
Local Open Scope string_scope.
Local Open Scope Z_scope.

Set Implicit Arguments.
Set Warnings "-register-all".

(** ** Python values *)

(** Scalars: what a member of a request body, a bound SQL parameter or a
    column of a fetched row can be. *)
Inductive atom : Type :=
| ANull
| ABool (b : bool)
| AInt (z : Z)
| AStr (s : string).

(** JSON documents sent back to the client. *)
Inductive json : Type :=
| JAtom (a : atom)
| JList (l : list json)
| JObj (m : list (string * json)).

(** Python exceptions the handlers can meet. *)
Inductive exn : Type :=
| KeyError
| ValueError
| TypeError
| MultipleResultsFound
| DatabaseError.

(** The result of a Python expression or statement: a value or a raised
    exception. *)
Definition result (A : Type) : Type := (exn + A)%type.

(** A Python [dict] with string keys, in insertion order. *)
Definition dict (V : Type) : Type := list (string * V).

(** [d.get(k)] *)
Fixpoint dict_get {V} (k : string) (d : dict V) : option V :=
  match d with
  | [] => None
  | (k', v) :: d' => if String.eqb k k' then Some v else dict_get k d'
  end.

(** [k in d] *)
Definition dict_mem {V} (k : string) (d : dict V) : bool :=
  match dict_get k d with Some _ => true | None => false end.

(** [d[k]], raising [KeyError] on a missing key. *)
Definition getitem {V} (d : dict V) (k : string) : result V :=
  match dict_get k d with Some v => inr v | None => inl KeyError end.

(** [d.get(k, default)] *)
Definition dict_get_default {V} (d : dict V) (k : string) (default : V) : V :=
  match dict_get k d with Some v => v | None => default end.

(** [d[k] = v]: overwrite in place, or append a new key. *)
Fixpoint dict_set {V} (k : string) (v : V) (d : dict V) : dict V :=
  match d with
  | [] => [(k, v)]
  | (k', v') :: d' =>
      if String.eqb k k' then (k, v) :: d' else (k', v') :: dict_set k v d'
  end.

(** A dict of scalars as a JSON object. *)
Definition obj (d : dict atom) : json :=
  JObj (map (fun kv => (fst kv, JAtom (snd kv))) d).

(** [str(n)] for an integer. *)
Definition str_of_Z (z : Z) : string := NilZero.string_of_int (Z.to_int z).

(** [str(v)], as an f-string formats a scalar. *)
Definition py_str (v : atom) : string :=
  match v with
  | ANull => "None"
  | ABool true => "True"
  | ABool false => "False"
  | AInt z => str_of_Z z
  | AStr s => s
  end.

(** *** [int(s)] on a string

    Surrounding white space is stripped, one sign is allowed, and the digits
    may be separated by single underscores.  Only ASCII is modelled: the
    digits and the white space of other scripts are left out, and so is the
    interpreter's limit on the number of digits of one conversion. *)
Definition is_space (c : ascii) : bool :=
  let n := nat_of_ascii c in
  ((9 <=? n) && (n <=? 13) || (28 <=? n) && (n <=? 32))%nat.

Definition digit_of (c : ascii) : option Z :=
  let n := nat_of_ascii c in
  if ((48 <=? n) && (n <=? 57))%nat then Some (Z.of_nat (n - 48)) else None.

Fixpoint lstrip (l : list ascii) : list ascii :=
  match l with
  | c :: l' => if is_space c then lstrip l' else l
  | [] => []
  end.

Definition strip (l : list ascii) : list ascii :=
  rev (lstrip (rev (lstrip l))).

Fixpoint digits (l : list ascii) (acc : Z) (after_digit : bool) : option Z :=
  match l with
  | [] => if after_digit then Some acc else None
  | c :: l' =>
      match digit_of c with
      | Some d => digits l' (10 * acc + d) true
      | None =>
          if Ascii.eqb c "_"%char
          then if after_digit then digits l' acc false else None
          else None
      end
  end.

Definition int_of_string (s : string) : option Z :=
  match strip (list_ascii_of_string s) with
  | c :: l =>
      if Ascii.eqb c "-"%char then option_map Z.opp (digits l 0 false)
      else if Ascii.eqb c "+"%char then digits l 0 false
      else digits (c :: l) 0 false
  | [] => None
  end.

(** [int(v)] *)
Definition py_int (v : atom) : result Z :=
  match v with
  | ANull => inl TypeError
  | ABool b => inr (Z.b2z b)
  | AInt z => inr z
  | AStr s =>
      match int_of_string s with Some z => inr z | None => inl ValueError end
  end.

(** Python slice [l[:n]]: a negative [n] counts from the end. *)
Definition slice_to {A} (l : list A) (n : Z) : list A :=
  if 0 <=? n then firstn (Z.to_nat n) l
  else firstn (List.length l - Z.to_nat (- n)) l.

(** [len(l)] *)
Definition len {A} (l : list A) : Z := Z.of_nat (List.length l).

(** ** The relational store *)

(** Rows of the two tables of [create_table].  The reference from
    reviews.business_id to businesses(id) needs no check of its own here:
    [post_review] looks the business up before it inserts, [delete_business]
    deletes the reviews before the business, and no statement changes a
    business_id or an id. *)
Record business : Type := Business {
  b_id : Z;                  (* id SERIAL PRIMARY KEY *)
  owner_id : Z;              (* owner_id INT NOT NULL *)
  name : string;             (* name VARCHAR(50) NOT NULL *)
  street_address : string;   (* street_address VARCHAR(100) NOT NULL *)
  city : string;             (* city VARCHAR(50) NOT NULL *)
  state : string;            (* state VARCHAR(2) NOT NULL *)
  zip_code : string          (* zip_code VARCHAR(5) NOT NULL *)
}.

Record review : Type := Review {
  r_id : Z;                      (* id SERIAL PRIMARY KEY *)
  user_id : Z;                   (* user_id INT NOT NULL *)
  business_id : Z;               (* business_id INT NOT NULL *)
  stars : option Z;              (* stars INT CHECK (stars BETWEEN 0 and 5) *)
  review_text : option string    (* review_text VARCHAR(1000) DEFAULT NULL *)
}.

Record db : Type := Db {
  businesses : list business;
  reviews : list review;
  businesses_seq : Z;    (* next value of businesses.id *)
  reviews_seq : Z        (* next value of reviews.id *)
}.

Definition empty_db : db := Db [] [] 1 1.

(** How the store reads a bound parameter.  The handlers bind members of the
    request body as they come, so what an INT or a VARCHAR(n) column makes of
    a parameter of another type is the store's business: it is an interface
    here, and the results below hold for every implementation of it.
    [None] is a rejected statement, [Some None] is NULL. *)
Class Engine : Type := {
  int_param : atom -> option (option Z);
  text_param : nat -> atom -> option (option string);
  (* [column = :param] on an INT column *)
  int_eq : Z -> atom -> bool
}.

(** A store whose comparison agrees with what it writes: the value an INT
    column receives from a parameter compares equal to that parameter. *)
Definition coherent (E : Engine) : Prop :=
  forall v z, int_param v = Some (Some z) -> int_eq z v = true.

(** NOT NULL *)
Definition not_null {A} (x : option (option A)) : option A :=
  match x with Some (Some a) => Some a | _ => None end.

(** CHECK (stars BETWEEN 0 and 5); a NULL passes a CHECK. *)
Definition stars_check (s : option Z) : bool :=
  match s with Some z => (0 <=? z) && (z <=? 5) | None => true end.

(** ** Connections *)

(** State and exception monad. *)
Definition M (S A : Type) : Type := S -> result A * S.

Definition ret {S A} (a : A) : M S A := fun s => (inr a, s).

Definition raise {S A} (e : exn) : M S A := fun s => (inl e, s).

Definition bind {S A B} (m : M S A) (k : A -> M S B) : M S B :=
  fun s => match m s with
           | (inr a, s') => k a s'
           | (inl e, s') => (inl e, s')
           end.

Definition lift {S A} (r : result A) : M S A := fun s => (r, s).

Notation "x <- m ;; k" := (bind m (fun x => k))
  (at level 61, m at next level, right associativity).
Notation "m ;;; k" := (bind m (fun _ => k))
  (at level 61, right associativity).

(** An open connection: the committed store, the working copy of the running
    transaction, and the id generated by the last INSERT. *)
Record conn : Type := Conn {
  committed : db;
  working : db;
  last_insert_id : Z
}.

(** [conn.commit()] *)
Definition commit : M conn unit :=
  fun c => (inr tt, Conn (working c) (working c) (last_insert_id c)).

(** [with db.connect() as conn: ...]: whatever way the block is left, what was
    not committed is rolled back. *)
Definition with_connection {A} (block : M conn A) : M db A :=
  fun d => let (r, c) := block (Conn d d 0) in (r, committed c).

(** A statement that reads the working copy. *)
Definition query {A} (f : db -> A) : M conn A :=
  fun c => (inr (f (working c)), c).

(** A statement that writes the working copy, or is rejected. *)
Definition statement {A} (f : db -> option (A * db)) : M conn A :=
  fun c => match f (working c) with
           | Some (a, w) => (inr a, Conn (committed c) w (last_insert_id c))
           | None => (inl DatabaseError, c)
           end.

(** [.one_or_none()] *)
Definition one_or_none {S A} (rows : list A) : M S (option A) :=
  match rows with
  | [] => ret None
  | [r] => ret (Some r)
  | _ => raise MultipleResultsFound
  end.

(** ** SQL statements of the source *)

Section Statements.
Context {E : Engine}.

(** UPDATE ... WHERE: [f] computes the new row, or rejects it. *)
Fixpoint update_where {A} (p : A -> bool) (f : A -> option A) (rows : list A)
  : option (list A) :=
  match rows with
  | [] => Some []
  | r :: rs =>
      match (if p r then f r else Some r), update_where p f rs with
      | Some r', Some rs' => Some (r' :: rs')
      | _, _ => None
      end
  end.

(** The row (:owner_id, :name, :street_address, :city, :state, :zip_code)
    with the given id, if the columns accept the parameters. *)
Definition business_row (id : Z) (o n s c st z : atom) : option business :=
  match not_null (int_param o), not_null (text_param 50 n),
        not_null (text_param 100 s), not_null (text_param 50 c),
        not_null (text_param 2 st), not_null (text_param 5 z) with
  | Some o', Some n', Some s', Some c', Some st', Some z' =>
      Some (Business id o' n' s' c' st' z')
  | _, _, _, _, _, _ => None
  end.

(** The row (:user_id, :business_id, :stars, :review_text) with the given
    id, if the columns accept the parameters. *)
Definition review_row (id : Z) (u b s t : atom) : option review :=
  match not_null (int_param u), not_null (int_param b),
        int_param s, text_param 1000 t with
  | Some u', Some b', Some s', Some t' =>
      if stars_check s' then Some (Review id u' b' s' t') else None
  | _, _, _, _ => None
  end.

(** INSERT INTO businesses(owner_id, name, street_address, city, state,
    zip_code) VALUES (...) *)
Definition INSERT_businesses (o n s c st z : atom) : M conn unit :=
  fun k =>
    let w := working k in
    let id := businesses_seq w in
    match business_row id o n s c st z with
    | Some b =>
        (inr tt,
         Conn (committed k)
              (Db (businesses w ++ [b]) (reviews w) (id + 1) (reviews_seq w))
              id)
    | None => (inl DatabaseError, k)
    end.

(** INSERT INTO reviews (user_id, business_id, stars, review_text)
    VALUES (...) *)
Definition INSERT_reviews (u b s t : atom) : M conn unit :=
  fun k =>
    let w := working k in
    let id := reviews_seq w in
    match review_row id u b s t with
    | Some r =>
        (inr tt,
         Conn (committed k)
              (Db (businesses w) (reviews w ++ [r]) (businesses_seq w) (id + 1))
              id)
    | None => (inl DatabaseError, k)
    end.

(** SELECT last_insert_id(), [.scalar()] *)
Definition SELECT_last_insert_id : M conn Z :=
  fun k => (inr (last_insert_id k), k).

(** SELECT * FROM businesses WHERE id=:id *)
Definition SELECT_businesses_by_id (id : Z) : M conn (list business) :=
  query (fun w => filter (fun b => b_id b =? id) (businesses w)).

(** SELECT * FROM businesses WHERE owner_id = :owner_id *)
Definition SELECT_businesses_by_owner (id : Z) : M conn (list business) :=
  query (fun w => filter (fun b => owner_id b =? id) (businesses w)).

(** SELECT * FROM reviews WHERE id=:id *)
Definition SELECT_reviews_by_id (id : Z) : M conn (list review) :=
  query (fun w => filter (fun r => r_id r =? id) (reviews w)).

(** SELECT * FROM reviews WHERE user_id = :user_id *)
Definition SELECT_reviews_by_user (id : Z) : M conn (list review) :=
  query (fun w => filter (fun r => user_id r =? id) (reviews w)).

(** SELECT 1 FROM businesses WHERE id = :business_id, [.scalar()] as a truth
    value *)
Definition SELECT_1_business (v : atom) : M conn bool :=
  query (fun w => existsb (fun b => int_eq (b_id b) v) (businesses w)).

(** SELECT 1 FROM reviews WHERE user_id = :user_id AND
    business_id = :business_id, [.fetchone()] as a truth value *)
Definition SELECT_1_review_of (u b : atom) : M conn bool :=
  query (fun w =>
    existsb (fun r => int_eq (user_id r) u && int_eq (business_id r) b)
            (reviews w)).

(** SELECT 1 FROM reviews WHERE id = :id, [.scalar()] as a truth value *)
Definition SELECT_1_review (id : Z) : M conn bool :=
  query (fun w => existsb (fun r => r_id r =? id) (reviews w)).

(** SELECT * FROM t LIMIT :limit OFFSET :offset, [.fetchall()].  The store
    rejects a negative LIMIT or OFFSET. *)
Definition window {A} (limit offset : Z) (rows : list A) : list A :=
  firstn (Z.to_nat limit) (skipn (Z.to_nat offset) rows).

Definition LIMIT_OFFSET {A} (rows : list A) (limit offset : Z)
  : result (list A) :=
  if (limit <? 0) || (offset <? 0) then inl DatabaseError
  else inr (window limit offset rows).

Definition SELECT_businesses_page (limit offset : Z) : M conn (list business) :=
  fun k => (LIMIT_OFFSET (businesses (working k)) limit offset, k).

Definition SELECT_reviews_page (limit offset : Z) : M conn (list review) :=
  fun k => (LIMIT_OFFSET (reviews (working k)) limit offset, k).

(** UPDATE businesses SET owner_id = :owner_id, ..., zip_code = :zip_code
    WHERE id = :id *)
Definition UPDATE_businesses (o n s c st z : atom) (id : Z) : M conn unit :=
  statement (fun w =>
    match update_where (fun b => b_id b =? id)
                       (fun b => business_row (b_id b) o n s c st z)
                       (businesses w) with
    | Some bs => Some (tt, Db bs (reviews w) (businesses_seq w) (reviews_seq w))
    | None => None
    end).

(** One assignment of the SET clause that [put_review] assembles. *)
Definition assign (params : dict atom) (part : string) (r : review)
  : option review :=
  if String.eqb part "stars = :stars" then
    match dict_get "stars" params with
    | Some v =>
        match int_param v with
        | Some s =>
            if stars_check s
            then Some (Review (r_id r) (user_id r) (business_id r) s
                              (review_text r))
            else None
        | None => None
        end
    | None => None
    end
  else if String.eqb part "review_text = :review_text" then
    match dict_get "review_text" params with
    | Some v =>
        match text_param 1000 v with
        | Some t =>
            Some (Review (r_id r) (user_id r) (business_id r) (stars r) t)
        | None => None
        end
    | None => None
    end
  else None.

Fixpoint assign_all (params : dict atom) (parts : list string) (r : review)
  : option review :=
  match parts with
  | [] => Some r
  | p :: ps =>
      match assign params p r with
      | Some r' => assign_all params ps r'
      | None => None
      end
  end.

(** 'UPDATE reviews SET ' + ', '.join(update_parts) + ' WHERE id = :id'.
    An empty SET clause is not SQL. *)
Definition UPDATE_reviews (update_parts : list string) (params : dict atom)
  : M conn unit :=
  statement (fun w =>
    match update_parts, dict_get "id" params with
    | _ :: _, Some (AInt id) =>
        match update_where (fun r => r_id r =? id)
                           (assign_all params update_parts) (reviews w) with
        | Some rs =>
            Some (tt, Db (businesses w) rs (businesses_seq w) (reviews_seq w))
        | None => None
        end
    | _, _ => None
    end).

(** DELETE FROM reviews WHERE business_id=:id; the value is [rowcount]. *)
Definition DELETE_reviews_of_business (id : Z) : M conn Z :=
  statement (fun w =>
    Some (len (filter (fun r => business_id r =? id) (reviews w)),
          Db (businesses w)
             (filter (fun r => negb (business_id r =? id)) (reviews w))
             (businesses_seq w) (reviews_seq w))).

(** DELETE FROM businesses WHERE id=:id *)
Definition DELETE_businesses (id : Z) : M conn Z :=
  statement (fun w =>
    Some (len (filter (fun b => b_id b =? id) (businesses w)),
          Db (filter (fun b => negb (b_id b =? id)) (businesses w))
             (reviews w) (businesses_seq w) (reviews_seq w))).

(** DELETE FROM reviews WHERE id=:id *)
Definition DELETE_reviews (id : Z) : M conn Z :=
  statement (fun w =>
    Some (len (filter (fun r => r_id r =? id) (reviews w)),
          Db (businesses w)
             (filter (fun r => negb (r_id r =? id)) (reviews w))
             (businesses_seq w) (reviews_seq w))).

End Statements.

(** ** Requests and replies *)

(** What a handler reads of the Flask [request]: three forms of its URL, the
    query string and the parsed JSON body. *)
Record request : Type := Request {
  url_root : string;
  host_url : string;
  base_url : string;
  args : dict string;
  get_json : dict atom
}.

(** What a handler answers: a body with a status, or an exception that
    nothing caught. *)
Inductive reply : Type :=
| Reply (body : json) (status : Z)
| Unhandled (e : exn).

Infix "+++" := String.append (at level 60, right associativity).

Definition ERROR_NOT_FOUND : json :=
  obj [("Error", AStr "No business with this business_id exists")].
Definition ERROR_REVIEW_NOT_FOUND : json :=
  obj [("Error", AStr "No review with this review_id exists")].
Definition ERROR_BAD_REQUEST : json :=
  obj [("Error", AStr "The request body is missing at least one of the required attributes")].
Definition ERROR_CONFLICT : json :=
  obj [("Error", AStr "You have already submitted a review for this business. You can update your previous review, or delete it and submit a new review")].

(** [request.args.get(k, default=default, type=int)] *)
Definition args_get_int (a : dict string) (k : string) (default : Z) : Z :=
  match dict_get k a with
  | Some s => match int_of_string s with Some z => z | None => default end
  | None => default
  end.

(** [row._asdict()] *)
Definition business_asdict (row : business) : dict atom :=
  [("id", AInt (b_id row)); ("owner_id", AInt (owner_id row));
   ("name", AStr (name row)); ("street_address", AStr (street_address row));
   ("city", AStr (city row)); ("state", AStr (state row));
   ("zip_code", AStr (zip_code row))].

Definition nullable {A} (f : A -> atom) (x : option A) : atom :=
  match x with Some a => f a | None => ANull end.

Definition review_asdict (row : review) : dict atom :=
  [("id", AInt (r_id row)); ("user_id", AInt (user_id row));
   ("business_id", AInt (business_id row));
   ("stars", nullable AInt (stars row));
   ("review_text", nullable AStr (review_text row))].

(** A [for] loop that collects one value per row. *)
Fixpoint for_each {S A B} (f : A -> M S B) (l : list A) : M S (list B) :=
  match l with
  | [] => ret []
  | a :: l' => b <- f a ;; bs <- for_each f l' ;; ret (b :: bs)
  end.

(** A handler without [try]: an exception reaches the framework. *)
Definition unguarded (m : M db reply) (d : db) : reply * db :=
  match m d with
  | (inr r, d') => (r, d')
  | (inl e, d') => (Unhandled e, d')
  end.

(** [try: ... except KeyError: ... except Exception: ...] *)
Definition try_except (m : M db reply) (on_key_error on_exception : reply)
  (d : db) : reply * db :=
  match m d with
  | (inr r, d') => (r, d')
  | (inl KeyError, d') => (on_key_error, d')
  | (inl _, d') => (on_exception, d')
  end.

(** ** The handlers *)

Section Handlers.
Context {E : Engine}.
Variable request : request.

Definition index (d : db) : reply * db :=
  (Reply (JAtom (AStr "Please navigate to /businesses to use this API")) 200, d).

(** POST /businesses *)
Definition post_businesses : db -> reply * db :=
  let content := get_json request in
  try_except
    (business_id <- with_connection
       (o <- lift (getitem content "owner_id") ;;
        n <- lift (getitem content "name") ;;
        s <- lift (getitem content "street_address") ;;
        c <- lift (getitem content "city") ;;
        st <- lift (getitem content "state") ;;
        z <- lift (getitem content "zip_code") ;;
        INSERT_businesses o n s c st z ;;;
        business_id <- SELECT_last_insert_id ;;
        commit ;;;
        ret business_id) ;;
     let complete_url := base_url request +++ "/" +++ str_of_Z business_id in
     o <- lift (getitem content "owner_id") ;;
     n <- lift (getitem content "name") ;;
     s <- lift (getitem content "street_address") ;;
     c <- lift (getitem content "city") ;;
     st <- lift (getitem content "state") ;;
     z <- lift (getitem content "zip_code") ;;
     ret (Reply (obj [("id", AInt business_id); ("owner_id", o); ("name", n);
                      ("street_address", s); ("city", c); ("state", st);
                      ("zip_code", z); ("self", AStr complete_url)]) 201))
    (Reply ERROR_BAD_REQUEST 400)
    (Reply (obj [("Error", AStr "Unable to create business")]) 500).

(** GET /businesses/<int:id> *)
Definition get_business (id : Z) : db -> reply * db :=
  unguarded (with_connection
    (rows <- SELECT_businesses_by_id id ;;
     row <- one_or_none rows ;;
     match row with
     | None => ret (Reply ERROR_NOT_FOUND 404)
     | Some row =>
         let business := business_asdict row in
         zip <- lift (getitem business "zip_code") ;;
         z <- lift (py_int zip) ;;
         let business := dict_set "zip_code" (AInt z) business in
         let root_url := url_root request in
         let complete_url := root_url +++ "businesses/" +++ str_of_Z id in
         let business := dict_set "self" (AStr complete_url) business in
         ret (Reply (obj business) 200)
     end)).

(** PUT /businesses/<int:id> *)
Definition put_business (id : Z) : db -> reply * db :=
  try_except
    (with_connection
       (rows <- SELECT_businesses_by_id id ;;
        row <- one_or_none rows ;;
        match row with
        | None => ret (Reply ERROR_NOT_FOUND 404)
        | Some _ =>
            let content := get_json request in
            o <- lift (getitem content "owner_id") ;;
            n <- lift (getitem content "name") ;;
            s <- lift (getitem content "street_address") ;;
            c <- lift (getitem content "city") ;;
            st <- lift (getitem content "state") ;;
            z <- lift (getitem content "zip_code") ;;
            UPDATE_businesses o n s c st z id ;;;
            commit ;;;
            let root_url := url_root request in
            let complete_url := root_url +++ "businesses/" +++ str_of_Z id in
            o <- lift (getitem content "owner_id") ;;
            n <- lift (getitem content "name") ;;
            s <- lift (getitem content "street_address") ;;
            c <- lift (getitem content "city") ;;
            st <- lift (getitem content "state") ;;
            z <- lift (getitem content "zip_code") ;;
            ret (Reply (obj [("id", AInt id); ("owner_id", o); ("name", n);
                             ("street_address", s); ("city", c);
                             ("state", st); ("zip_code", z);
                             ("self", AStr complete_url)]) 200)
        end))
    (Reply ERROR_BAD_REQUEST 400)
    (Reply (obj [("Error", AStr "Unable to create business")]) 500).

(** DELETE /businesses/<int:id> *)
Definition delete_business (id : Z) : db -> reply * db :=
  unguarded (with_connection
    (DELETE_reviews_of_business id ;;;
     rowcount <- DELETE_businesses id ;;
     commit ;;;
     if rowcount =? 1 then ret (Reply (JAtom (AStr "")) 204)
     else ret (Reply ERROR_NOT_FOUND 404))).

(** The body of the loop of [get_businesses]. *)
Definition business_entry (row : business) : M conn (dict atom) :=
  let business := business_asdict row in
  zip <- lift (getitem business "zip_code") ;;
  z <- lift (py_int zip) ;;
  let business := dict_set "zip_code" (AInt z) business in
  let root_url := url_root request in
  id <- lift (getitem business "id") ;;
  ret (dict_set "self" (AStr (root_url +++ "businesses/" +++ py_str id))
                business).

(** The page that both listings assemble from the fetched rows. *)
Definition page (entries : list (dict atom)) (fetched offset limit : Z)
  : json :=
  let response_data := [("entries", JList (map obj entries))] in
  let response_data :=
    if fetched >? limit then
      let next_offset := offset + limit in
      let next_url := base_url request +++ "?offset=" +++ str_of_Z next_offset
                      +++ "&limit=" +++ str_of_Z limit in
      dict_set "next" (JAtom (AStr next_url)) response_data
    else response_data in
  JObj response_data.

(** GET /businesses *)
Definition get_businesses : db -> reply * db :=
  unguarded (with_connection
    (let offset := args_get_int (args request) "offset" 0 in
     let limit := args_get_int (args request) "limit" 3 in
     rows <- SELECT_businesses_page (limit + 1) offset ;;
     businesses <- for_each business_entry (slice_to rows limit) ;;
     ret (Reply (page businesses (len rows) offset limit) 200))).

(** GET /owners/<int:id>/businesses *)
Definition get_bussiness_by_owner (id : Z) : db -> reply * db :=
  unguarded (with_connection
    (rows <- SELECT_businesses_by_owner id ;;
     commit ;;;
     businesses <- for_each
       (fun row =>
          let business := business_asdict row in
          i <- lift (getitem business "id") ;;
          ret (dict_set "self"
                 (AStr (url_root request +++ "businesses/" +++ py_str i))
                 business))
       rows ;;
     ret (Reply (JList (map obj businesses)) 200))).

(** The shape [get_review], [put_review] and [get_review_by_user] give a
    fetched review: a ["business"] URL in place of the business id. *)
Definition review_response (review : dict atom) (business_url review_url : string)
  : M conn (dict atom) :=
  i <- lift (getitem review "id") ;;
  u <- lift (getitem review "user_id") ;;
  s <- lift (getitem review "stars") ;;
  t <- lift (getitem review "review_text") ;;
  ret [("id", i); ("user_id", u); ("business", AStr business_url);
       ("stars", s); ("review_text", t); ("self", AStr review_url)].

(** POST /reviews *)
Definition post_review : db -> reply * db :=
  let content := get_json request in
  let required_fields := ["user_id"; "business_id"; "stars"] in
  let missing_fields :=
    filter (fun field => negb (dict_mem field content)) required_fields in
  match missing_fields with
  | _ :: _ => fun d => (Reply ERROR_BAD_REQUEST 400, d)
  | [] =>
      try_except
        (returned <- with_connection
           (b <- lift (getitem content "business_id") ;;
            found <- SELECT_1_business b ;;
            if negb found then ret (inl (Reply ERROR_NOT_FOUND 404))
            else
              u <- lift (getitem content "user_id") ;;
              b <- lift (getitem content "business_id") ;;
              existing_review <- SELECT_1_review_of u b ;;
              if existing_review then ret (inl (Reply ERROR_CONFLICT 409))
              else
                u <- lift (getitem content "user_id") ;;
                b <- lift (getitem content "business_id") ;;
                s <- lift (getitem content "stars") ;;
                let t := dict_get_default content "review_text" (AStr "") in
                INSERT_reviews u b s t ;;;
                review_id <- SELECT_last_insert_id ;;
                commit ;;;
                ret (inr review_id)) ;;
         match returned with
         | inl r => ret r
         | inr review_id =>
             let complete_url :=
               base_url request +++ "/" +++ str_of_Z review_id in
             b <- lift (getitem content "business_id") ;;
             let business_url := host_url request +++ "businesses/" +++ py_str b in
             u <- lift (getitem content "user_id") ;;
             s <- lift (getitem content "stars") ;;
             let t := dict_get_default content "review_text" (AStr "") in
             ret (Reply (obj [("id", AInt review_id); ("user_id", u);
                              ("business", AStr business_url); ("stars", s);
                              ("review_text", t);
                              ("self", AStr complete_url)]) 201)
         end)
        (Reply ERROR_BAD_REQUEST 400)
        (Reply (obj [("Error", AStr "Unable to create review")]) 500)
  end.

(** GET /reviews/<int:id> *)
Definition get_review (id : Z) : db -> reply * db :=
  unguarded (with_connection
    (rows <- SELECT_reviews_by_id id ;;
     row <- one_or_none rows ;;
     match row with
     | None => ret (Reply ERROR_REVIEW_NOT_FOUND 404)
     | Some row =>
         let review := review_asdict row in
         b <- lift (getitem review "business_id") ;;
         let business_url := host_url request +++ "businesses/" +++ py_str b in
         let review_url := host_url request +++ "reviews/" +++ str_of_Z id in
         review_response <- review_response review business_url review_url ;;
         ret (Reply (obj review_response) 200)
     end)).

(** The SET clause and the parameters [put_review] collects from the body. *)
Definition update_fields (content : dict atom) : list string * dict atom :=
  let update_parts : list string := [] in
  let update_params : dict atom := [] in
  let '(update_parts, update_params) :=
    match dict_get "stars" content with
    | Some v => ((update_parts ++ ["stars = :stars"])%list,
                 dict_set "stars" v update_params)
    | None => (update_parts, update_params)
    end in
  match dict_get "review_text" content with
  | Some v => ((update_parts ++ ["review_text = :review_text"])%list,
               dict_set "review_text" v update_params)
  | None => (update_parts, update_params)
  end.

(** PUT /reviews/<int:id> *)
Definition put_review (id : Z) : db -> reply * db :=
  let content := get_json request in
  if negb (dict_mem "stars" content)
  then fun d => (Reply ERROR_BAD_REQUEST 400, d)
  else
    let '(update_parts, update_params) := update_fields content in
    match update_parts with
    | [] => fun d =>
        (Reply (obj [("Error", AStr "No valid fields provided to update")]) 400,
         d)
    | _ :: _ =>
        let update_params := dict_set "id" (AInt id) update_params in
        unguarded (with_connection
          (exists_ <- SELECT_1_review id ;;
           if negb exists_ then ret (Reply ERROR_REVIEW_NOT_FOUND 404)
           else
             UPDATE_reviews update_parts update_params ;;;
             commit ;;;
             rows <- SELECT_reviews_by_id id ;;
             row <- one_or_none rows ;;
             match row with
             | None => ret (Reply ERROR_REVIEW_NOT_FOUND 404)
             | Some row =>
                 let review := review_asdict row in
                 b <- lift (getitem review "business_id") ;;
                 let business_url :=
                   host_url request +++ "businesses/" +++ py_str b in
                 let review_url :=
                   host_url request +++ "reviews/" +++ str_of_Z id in
                 i <- lift (getitem review "id") ;;
                 u <- lift (getitem review "user_id") ;;
                 s <- lift (getitem review "stars") ;;
                 let t := dict_get_default review "review_text" (AStr "") in
                 ret (Reply (obj [("id", i); ("user_id", u);
                                  ("business", AStr business_url);
                                  ("stars", s); ("review_text", t);
                                  ("self", AStr review_url)]) 200)
             end))
    end.

(** DELETE /reviews/<int:id> *)
Definition delete_review (id : Z) : db -> reply * db :=
  unguarded (with_connection
    (rowcount <- DELETE_reviews id ;;
     commit ;;;
     if rowcount =? 1 then ret (Reply (JAtom (AStr "")) 204)
     else ret (Reply ERROR_REVIEW_NOT_FOUND 404))).

(** GET /users/<int:id>/reviews *)
Definition get_review_by_user (id : Z) : db -> reply * db :=
  unguarded (with_connection
    (rows <- SELECT_reviews_by_user id ;;
     commit ;;;
     reviews <- for_each
       (fun row =>
          let review := review_asdict row in
          i <- lift (getitem review "id") ;;
          let review :=
            dict_set "self" (AStr (url_root request +++ "reviews/" +++ py_str i))
                     review in
          b <- lift (getitem review "business_id") ;;
          let business_url := url_root request +++ "businesses/" +++ py_str b in
          self <- lift (getitem review "self") ;;
          review_response review business_url (py_str self))
       rows ;;
     ret (Reply (JList (map obj reviews)) 200))).

(** The body of the loop of [get_reviews]. *)
Definition review_entry (row : review) : M conn (dict atom) :=
  let review := review_asdict row in
  let root_url := url_root request in
  id <- lift (getitem review "id") ;;
  ret (dict_set "self" (AStr (root_url +++ "reviews/" +++ py_str id)) review).

(** GET /reviews *)
Definition get_reviews : db -> reply * db :=
  unguarded (with_connection
    (let offset := args_get_int (args request) "offset" 0 in
     let limit := args_get_int (args request) "limit" 3 in
     rows <- SELECT_reviews_page (limit + 1) offset ;;
     reviews <- for_each review_entry (slice_to rows limit) ;;
     ret (Reply (page reviews (len rows) offset limit) 200))).

End Handlers.

(** ** The API as a transition system *)

(** The routes of the application. *)
Inductive route : Type :=
| GET_index
| POST_businesses
| GET_business (id : Z)
| PUT_business (id : Z)
| DELETE_business (id : Z)
| GET_businesses
| GET_owner_businesses (id : Z)
| POST_reviews
| GET_review (id : Z)
| PUT_review (id : Z)
| DELETE_review (id : Z)
| GET_user_reviews (id : Z)
| GET_reviews.

Section Api.
Context {E : Engine}.

(** Flask's dispatch. *)
Definition handle (r : route) (rq : request) : db -> reply * db :=
  match r with
  | GET_index => index
  | POST_businesses => post_businesses rq
  | GET_business id => get_business rq id
  | PUT_business id => put_business rq id
  | DELETE_business id => delete_business id
  | GET_businesses => get_businesses rq
  | GET_owner_businesses id => get_bussiness_by_owner rq id
  | POST_reviews => post_review rq
  | GET_review id => get_review rq id
  | PUT_review id => put_review rq id
  | DELETE_review id => delete_review id
  | GET_user_reviews id => get_review_by_user rq id
  | GET_reviews => get_reviews rq
  end.

(** The stores a sequential run of requests reaches from empty tables. *)
Inductive reachable : db -> Prop :=
| reachable_empty : reachable empty_db
| reachable_step r rq d : reachable d -> reachable (snd (handle r rq d)).

(** A run of requests, with the replies it got. *)
Fixpoint run (l : list (route * request)) (d : db) : list reply * db :=
  match l with
  | [] => ([], d)
  | (r, rq) :: l' =>
      let (a, d') := handle r rq d in
      let (rs, d'') := run l' d' in
      (a :: rs, d'')
  end.

End Api.

(** ** Predicates on stores and replies *)

(** The primary keys of a table: distinct ids, below the counter. *)
Definition table_ok (ids : list Z) (seq : Z) : Prop :=
  NoDup ids /\ Forall (fun i => i < seq) ids.

Definition primary_keys (d : db) : Prop :=
  table_ok (map b_id (businesses d)) (businesses_seq d)
  /\ table_ok (map r_id (reviews d)) (reviews_seq d).

(** At most one review per (user_id, business_id) pair. *)
Definition pair (r : review) : Z * Z := (user_id r, business_id r).

Definition one_review_per_pair (d : db) : Prop :=
  NoDup (map pair (reviews d)).

(** A member of a JSON object. *)
Definition member (k : string) (j : json) : option json :=
  match j with JObj m => dict_get k m | _ => None end.

(** The ["entries"] of a page. *)
Definition entries_of (j : json) : list json :=
  match member "entries" j with Some (JList l) => l | _ => [] end.

Definition is_int (j : option json) : bool :=
  match j with Some (JAtom (AInt _)) => true | _ => false end.

Definition is_str (j : option json) : bool :=
  match j with Some (JAtom (AStr _)) => true | _ => false end.

Definition body_of (r : reply) : json :=
  match r with Reply b _ => b | Unhandled _ => JAtom ANull end.

Definition status_of (r : reply) : option Z :=
  match r with Reply _ s => Some s | Unhandled _ => None end.

(** ** A reference store

    A store that accepts a parameter of the column's own type: an integer or
    NULL for an INT column, a string that fits or NULL for a VARCHAR(n)
    column, and an integer written in decimal where a string is expected. *)
Definition fits (n : nat) (s : string) : option (option string) :=
  if (String.length s <=? n)%nat then Some (Some s) else None.

Definition plain_engine : Engine := {|
  int_param v :=
    match v with
    | ANull => Some None
    | AInt z => Some (Some z)
    | _ => None
    end;
  text_param n v :=
    match v with
    | ANull => Some None
    | AStr s => fits n s
    | AInt z => fits n (str_of_Z z)
    | _ => None
    end;
  int_eq z v := match v with AInt z' => z =? z' | _ => false end
|}.

(** The characters of [s] before its first point. *)
Fixpoint before_point (s : string) : string :=
  match s with
  | EmptyString => EmptyString
  | String c s' =>
      if Ascii.eqb c "."%char then EmptyString else String c (before_point s')
  end.

(** A store that also takes a decimal string for an INT column: it writes
    the integer before the point, and it compares the column with the string
    as a number, so that "1.4" is written as 1 and is equal to no integer. *)
Definition truncating_engine : Engine := {|
  int_param v :=
    match v with
    | ANull => Some None
    | AInt z => Some (Some z)
    | AStr s => option_map Some (int_of_string (before_point s))
    | ABool _ => None
    end;
  text_param n v :=
    match v with
    | ANull => Some None
    | AStr s => fits n s
    | AInt z => fits n (str_of_Z z)
    | _ => None
    end;
  int_eq z v :=
    match v with
    | AInt z' => z =? z'
    | AStr s =>
        match int_of_string s with Some z' => z =? z' | None => false end
    | _ => false
    end
|}.

(** Sample requests and stores. *)
Definition sample_request (a : dict string) (content : dict atom) : request :=
  Request "http://localhost:8080/" "http://localhost:8080/"
          "http://localhost:8080/businesses" a content.

Definition sample_business (zip : atom) : dict atom :=
  [("owner_id", AInt 7); ("name", AStr "Cafe"); ("street_address", AStr "1 Main St");
   ("city", AStr "Corvallis"); ("state", AStr "OR"); ("zip_code", zip)].

Definition sample_review (u b s : atom) : dict atom :=
  [("user_id", u); ("business_id", b); ("stars", s)].

Definition one_business (zip : string) : db :=
  Db [Business 1 7 "Cafe" "1 Main St" "Corvallis" "OR" zip] [] 2 1.

Definition reviewed_business : db :=
  Db [Business 1 7 "Cafe" "1 Main St" "Corvallis" "OR" "97330"]
     [Review 1 5 1 (Some 3) (Some "Good")] 2 2.

(** A business is created, then one review of it is posted twice. *)
Definition same_review_twice : list (route * request) :=
  [(POST_businesses, sample_request [] (sample_business (AInt 97330)));
   (POST_reviews, sample_request [] (sample_review (AInt 5) (AInt 1) (AInt 4)));
   (POST_reviews, sample_request [] (sample_review (AInt 5) (AInt 1) (AInt 4)))].

(** A business is created, then one review of it is posted twice by the
    user "1.4". *)
Definition fractional_user_twice : list (route * request) :=
  [(POST_businesses, sample_request [] (sample_business (AInt 97330)));
   (POST_reviews,
    sample_request [] (sample_review (AStr "1.4") (AInt 1) (AInt 4)));
   (POST_reviews,
    sample_request [] (sample_review (AStr "1.4") (AInt 1) (AInt 4)))].

(** A review with a null user_id. *)
Definition null_user_review : request :=
  sample_request [] (sample_review ANull (AInt 1) (AInt 4)).

(** A business with its zip code sent as a string. *)
Definition string_zip_business : request :=
  sample_request [] (sample_business (AStr "97330")).

(** Five businesses. *)
Definition five_businesses : db :=
  Db (map (fun i => Business i 7 "Cafe" "1 Main St" "Corvallis" "OR" "97330")
          [1; 2; 3; 4; 5]) [] 6 1.

(** ** Expected shapes of the replies *)

(** An entry of GET /reviews: the row and a ["self"] URL. *)
Definition review_entry_json (rq : request) (r : review) : json :=
  obj [("id", AInt (r_id r)); ("user_id", AInt (user_id r));
       ("business_id", AInt (business_id r));
       ("stars", nullable AInt (stars r));
       ("review_text", nullable AStr (review_text r));
       ("self", AStr (url_root rq +++ "reviews/" +++ str_of_Z (r_id r)))].

(** A business with a given ["zip_code"] member and a ["self"] URL. *)
Definition business_json (rq : request) (b : business) (zip : atom) : json :=
  obj [("id", AInt (b_id b)); ("owner_id", AInt (owner_id b));
       ("name", AStr (name b)); ("street_address", AStr (street_address b));
       ("city", AStr (city b)); ("state", AStr (state b));
       ("zip_code", zip);
       ("self", AStr (url_root rq +++ "businesses/" +++ str_of_Z (b_id b)))].

(** The integer a stored zip code reads as. *)
Definition zip_int (b : business) : Z :=
  match int_of_string (zip_code b) with Some z => z | None => 0 end.

Definition zip_is_int (b : business) : Prop :=
  int_of_string (zip_code b) <> None.

(** An entry of GET /businesses. *)
Definition business_entry_json (rq : request) (b : business) : json :=
  business_json rq b (AInt (zip_int b)).

(** A fetched review as [get_review] and [put_review] return it. *)
Definition review_json (rq : request) (r : review) : json :=
  obj [("id", AInt (r_id r)); ("user_id", AInt (user_id r));
       ("business",
        AStr (host_url rq +++ "businesses/" +++ str_of_Z (business_id r)));
       ("stars", nullable AInt (stars r));
       ("review_text", nullable AStr (review_text r));
       ("self", AStr (host_url rq +++ "reviews/" +++ str_of_Z (r_id r)))].

(** The continuation URL of a page. *)
Definition next_url (rq : request) (offset limit : Z) : string :=
  base_url rq +++ "?offset=" +++ str_of_Z offset
  +++ "&limit=" +++ str_of_Z limit.

(** The ["next"] member of a page that fetched [fetched] rows, if any. *)
Definition next_link (rq : request) (offset limit fetched : Z) : dict json :=
  if fetched >? limit
  then [("next", JAtom (AStr (next_url rq (offset + limit) limit)))]
  else [].

(** The reply to a PUT /reviews/{id} that found and updated row [r]. *)
Definition updated_review_json (rq : request) (id : Z) (r : review) : json :=
  obj [("id", AInt (r_id r)); ("user_id", AInt (user_id r));
       ("business",
        AStr (host_url rq +++ "businesses/" +++ str_of_Z (business_id r)));
       ("stars", nullable AInt (stars r));
       ("review_text", nullable AStr (review_text r));
       ("self", AStr (host_url rq +++ "reviews/" +++ str_of_Z id))].

(** The row [r] with its stars replaced. *)
Definition set_stars (s : option Z) (r : review) : review :=
  Review (r_id r) (user_id r) (business_id r) s (review_text r).

(** The reply to a POST /reviews that inserted a row with id [id]. *)
Definition created_review_json (rq : request) (id : Z) (u b s t : atom) : json :=
  obj [("id", AInt id); ("user_id", u);
       ("business", AStr (host_url rq +++ "businesses/" +++ py_str b));
       ("stars", s); ("review_text", t);
       ("self", AStr (base_url rq +++ "/" +++ str_of_Z id))].

(** The store after a review row was appended. *)
Definition with_review (d : db) (r : review) : db :=
  Db (businesses d) (reviews d ++ [r]) (businesses_seq d) (reviews_seq d + 1).

(** A business as POST and PUT /businesses return it: the members of the
    request body. *)
Definition echoed_business_json (id : Z) (o n s c st z : atom) (url : string)
  : json :=
  obj [("id", AInt id); ("owner_id", o); ("name", n); ("street_address", s);
       ("city", c); ("state", st); ("zip_code", z); ("self", AStr url)].

(** ** Invariants of computations *)

(** A computation keeps an invariant of its state. *)
Definition keeps {S A} (I : S -> Prop) (m : M S A) : Prop :=
  forall s, I s -> I (snd (m s)).

(** An invariant of the store, on both stores of a connection. *)
Definition on_conn (P : db -> Prop) (c : conn) : Prop :=
  P (committed c) /\ P (working c).

(** ** More predicates on routes, replies and stores *)

(** The routes that only read. *)
Definition reads_only (r : route) : bool :=
  match r with
  | GET_index | GET_business _ | GET_businesses | GET_owner_businesses _
  | GET_review _ | GET_user_reviews _ | GET_reviews => true
  | _ => false
  end.

(** A reply with a 2xx status. *)
Definition succeeded (a : reply) : bool :=
  match a with
  | Reply _ s => (200 <=? s) && (s <? 300)
  | Unhandled _ => false
  end.

(** Every review is of a business of the store. *)
Definition references_ok (d : db) : Prop :=
  forall r, In r (reviews d) -> In (business_id r) (map b_id (businesses d)).

(** The stars of every review pass the CHECK of the column. *)
Definition stars_ok (d : db) : Prop :=
  forall r, In r (reviews d) -> stars_check (stars r) = true.

(** A store whose comparison of an INT column with a parameter is true only
    for the value it would write for that parameter. *)
Definition exact (E : Engine) : Prop :=
  forall v z z', int_param v = Some (Some z') -> int_eq z v = true -> z = z'.

(** The row [r] with its stars and its text replaced. *)
Definition set_stars_text (s : option Z) (t : option string) (r : review)
  : review :=
  Review (r_id r) (user_id r) (business_id r) s t.

(** A fetched review as [get_review_by_user] returns it: both URLs start
    from [url_root]. *)
Definition user_review_json (rq : request) (r : review) : json :=
  obj [("id", AInt (r_id r)); ("user_id", AInt (user_id r));
       ("business",
        AStr (url_root rq +++ "businesses/" +++ str_of_Z (business_id r)));
       ("stars", nullable AInt (stars r));
       ("review_text", nullable AStr (review_text r));
       ("self", AStr (url_root rq +++ "reviews/" +++ str_of_Z (r_id r)))].

(** * Properties *)

(** ** Python values *)

Example int_of_string_zip : int_of_string "97330" = Some 97330.
Proof. reflexivity. Qed.

Example int_of_string_spaces : int_of_string " -1_0 " = Some (-10).
Proof. reflexivity. Qed.

Example int_of_string_letters : int_of_string "ABCDE" = None.
Proof. reflexivity. Qed.

Example str_of_Z_examples :
  str_of_Z 0 = "0" /\ str_of_Z 42 = "42" /\ str_of_Z (-7) = "-7".
Proof. repeat split; reflexivity. Qed.

Example slice_to_examples :
  slice_to [1; 2; 3] 2 = [1; 2] /\ slice_to [1; 2; 3] (-1) = [1; 2]
  /\ slice_to [1; 2; 3] (-5) = [] /\ slice_to [1; 2; 3] 7 = [1; 2; 3].
Proof. repeat split; reflexivity. Qed.

(** ** The monad and the loops *)

Lemma for_each_total {S A B} (f : A -> M S B) (g : A -> B) (l : list A) (s : S) :
  (forall a s', In a l -> f a s' = (inr (g a), s')) ->
  for_each f l s = (inr (map g l), s).
Proof.
  induction l as [|a l IH]; intros Hf; simpl.
  - reflexivity.
  - unfold bind. rewrite Hf by (left; reflexivity).
    rewrite IH by (intros; apply Hf; right; assumption).
    reflexivity.
Qed.

Lemma review_entry_ok (rq : request) (r : review) (c : conn) :
  review_entry rq r c
  = (inr [("id", AInt (r_id r)); ("user_id", AInt (user_id r));
          ("business_id", AInt (business_id r));
          ("stars", nullable AInt (stars r));
          ("review_text", nullable AStr (review_text r));
          ("self", AStr (url_root rq +++ "reviews/" +++ str_of_Z (r_id r)))],
     c).
Proof. reflexivity. Qed.

Lemma business_entry_ok (rq : request) (b : business) (c : conn) :
  zip_is_int b ->
  business_entry rq b c
  = (inr [("id", AInt (b_id b)); ("owner_id", AInt (owner_id b));
          ("name", AStr (name b)); ("street_address", AStr (street_address b));
          ("city", AStr (city b)); ("state", AStr (state b));
          ("zip_code", AInt (zip_int b));
          ("self", AStr (url_root rq +++ "businesses/" +++ str_of_Z (b_id b)))],
     c).
Proof.
  unfold zip_is_int, zip_int, business_entry, bind, lift, getitem. cbn.
  destruct (int_of_string (zip_code b)); [reflexivity | congruence].
Qed.

Lemma business_entry_raises (rq : request) (b : business) (c : conn) :
  int_of_string (zip_code b) = None ->
  business_entry rq b c = (inl ValueError, c).
Proof.
  intros H. unfold business_entry, bind, lift, getitem. cbn. rewrite H.
  reflexivity.
Qed.

Lemma slice_to_nonneg {A} (l : list A) (n : Z) :
  0 <= n -> slice_to l n = firstn (Z.to_nat n) l.
Proof.
  intros H. unfold slice_to. destruct (0 <=? n) eqn:Hn; [reflexivity | lia].
Qed.

Lemma LIMIT_OFFSET_nonneg {A} (rows : list A) (limit offset : Z) :
  0 <= limit -> 0 <= offset ->
  LIMIT_OFFSET rows limit offset = inr (window limit offset rows).
Proof.
  intros Hl Ho. unfold LIMIT_OFFSET.
  destruct (limit <? 0) eqn:H1; [lia|].
  destruct (offset <? 0) eqn:H2; [lia|]. reflexivity.
Qed.

Lemma page_eq (rq : request) (entries : list (dict atom)) (fetched offset limit : Z) :
  page rq entries fetched offset limit
  = JObj (("entries", JList (map obj entries))
          :: next_link rq offset limit fetched).
Proof.
  unfold page, next_link. destruct (fetched >? limit); reflexivity.
Qed.

(** ** Pagination *)

Lemma get_reviews_page (rq : request) (d : db) (offset limit : Z) :
  args_get_int (args rq) "offset" 0 = offset ->
  args_get_int (args rq) "limit" 3 = limit ->
  0 <= offset -> 0 <= limit + 1 ->
  let rows := window (limit + 1) offset (reviews d) in
  get_reviews rq d
  = (Reply (JObj (("entries",
                   JList (map (review_entry_json rq) (slice_to rows limit)))
                  :: next_link rq offset limit (len rows))) 200, d).
Proof.
  intros Ho Hl Hoff Hlim rows.
  unfold get_reviews, unguarded, with_connection, bind, SELECT_reviews_page.
  rewrite Ho, Hl. cbn [working committed].
  rewrite LIMIT_OFFSET_nonneg by assumption. fold rows.
  rewrite for_each_total
    with (g := fun r =>
                 [("id", AInt (r_id r)); ("user_id", AInt (user_id r));
                  ("business_id", AInt (business_id r));
                  ("stars", nullable AInt (stars r));
                  ("review_text", nullable AStr (review_text r));
                  ("self", AStr (url_root rq +++ "reviews/" +++ str_of_Z (r_id r)))])
    by (intros; apply review_entry_ok).
  unfold ret. cbn [committed]. rewrite page_eq, map_map. reflexivity.
Qed.

Lemma get_businesses_page (rq : request) (d : db) (offset limit : Z) :
  args_get_int (args rq) "offset" 0 = offset ->
  args_get_int (args rq) "limit" 3 = limit ->
  0 <= offset -> 0 <= limit + 1 ->
  let rows := window (limit + 1) offset (businesses d) in
  Forall zip_is_int (slice_to rows limit) ->
  get_businesses rq d
  = (Reply (JObj (("entries",
                   JList (map (business_entry_json rq) (slice_to rows limit)))
                  :: next_link rq offset limit (len rows))) 200, d).
Proof.
  intros Ho Hl Hoff Hlim rows Hzip.
  unfold get_businesses, unguarded, with_connection, bind,
    SELECT_businesses_page.
  rewrite Ho, Hl. cbn [working committed].
  rewrite LIMIT_OFFSET_nonneg by assumption. fold rows.
  rewrite for_each_total
    with (g := fun b =>
                 [("id", AInt (b_id b)); ("owner_id", AInt (owner_id b));
                  ("name", AStr (name b));
                  ("street_address", AStr (street_address b));
                  ("city", AStr (city b)); ("state", AStr (state b));
                  ("zip_code", AInt (zip_int b));
                  ("self", AStr (url_root rq +++ "businesses/" +++ str_of_Z (b_id b)))]).
  - unfold ret. cbn [committed]. rewrite page_eq, map_map. reflexivity.
  - intros b c Hb. apply business_entry_ok.
    rewrite Forall_forall in Hzip. apply Hzip, Hb.
Qed.

(** C1 (as amended): for non-negative offset and limit, both listings fetch
    limit + 1 rows at the offset, return the first limit of them as entries
    (at most limit), and add a next URL with offset + limit and the same
    limit exactly when more than limit rows were fetched; for GET /businesses
    this holds when the zip codes of the returned rows read as integers. *)
Theorem listing_page (rq : request) (d : db) :
  let offset := args_get_int (args rq) "offset" 0 in
  let limit := args_get_int (args rq) "limit" 3 in
  0 <= offset -> 0 <= limit ->
  let fetched_r := window (limit + 1) offset (reviews d) in
  let fetched_b := window (limit + 1) offset (businesses d) in
  let page_r := firstn (Z.to_nat limit) fetched_r in
  let page_b := firstn (Z.to_nat limit) fetched_b in
  get_reviews rq d
  = (Reply (JObj (("entries", JList (map (review_entry_json rq) page_r))
                  :: next_link rq offset limit (len fetched_r))) 200, d)
  /\ (Forall zip_is_int page_b ->
      get_businesses rq d
      = (Reply (JObj (("entries", JList (map (business_entry_json rq) page_b))
                      :: next_link rq offset limit (len fetched_b))) 200, d))
  /\ len page_r <= limit /\ len page_b <= limit
  /\ (forall n, next_link rq offset limit n <> [] <-> n > limit)
  /\ (forall n, n > limit ->
      next_link rq offset limit n
      = [("next", JAtom (AStr (base_url rq +++ "?offset="
                               +++ str_of_Z (offset + limit)
                               +++ "&limit=" +++ str_of_Z limit)))]).
Proof.
  intros offset limit Ho Hl fetched_r fetched_b page_r page_b.
  split; [|split; [|split; [|split; [|split]]]].
  - rewrite (@get_reviews_page rq d offset limit) by (auto; lia).
    rewrite slice_to_nonneg by assumption. reflexivity.
  - intros Hz.
    rewrite (@get_businesses_page rq d offset limit)
      by (auto; try lia; rewrite slice_to_nonneg by assumption; exact Hz).
    rewrite slice_to_nonneg by assumption. reflexivity.
  - unfold len, page_r. rewrite length_firstn. lia.
  - unfold len, page_b. rewrite length_firstn. lia.
  - intros n. unfold next_link.
    destruct (n >? limit) eqn:Hn; split; intros H;
      try lia; try discriminate; congruence.
  - intros n Hn. unfold next_link, next_url.
    destruct (n >? limit) eqn:Hn'; [reflexivity | lia].
Qed.

Lemma listing_page_witness :
  get_businesses (sample_request [("limit", "2")] []) five_businesses
  = (Reply (JObj [("entries",
                   JList (map (business_entry_json (sample_request [] []))
                              (firstn 2 (businesses five_businesses))));
                  ("next",
                   JAtom (AStr "http://localhost:8080/businesses?offset=2&limit=2"))])
           200, five_businesses).
Proof.
  pose proof (@listing_page (sample_request [("limit", "2")] []) five_businesses)
    as H.
  cbv zeta in H.
  destruct H as (_ & H & _); [vm_compute; discriminate ..|].
  rewrite H.
  - reflexivity.
  - repeat constructor; vm_compute; discriminate.
Defined.

(** C1 as stated fails: a business whose stored zip code is not a number,
    which POST /businesses accepts, makes GET /businesses raise. *)
Lemma listing_page_counterexample :
  snd (post_businesses (E := plain_engine)
         (sample_request [] (sample_business (AStr "ABCDE"))) empty_db)
  = one_business "ABCDE"
  /\ get_businesses (sample_request [("offset", "0"); ("limit", "3")] [])
                    (one_business "ABCDE")
     = (Unhandled ValueError, one_business "ABCDE").
Proof. split; reflexivity. Qed.

(** C10, amended: with limit = -1 and an offset that is not negative both
    listings query with LIMIT 0, so whatever the store holds the entries are
    empty, and a next URL is there, with offset - 1. *)
Theorem listing_limit_minus_one (rq : request) (d : db) :
  let offset := args_get_int (args rq) "offset" 0 in
  args_get_int (args rq) "limit" 3 = -1 ->
  0 <= offset ->
  let body :=
    JObj [("entries", JList []);
          ("next", JAtom (AStr (base_url rq +++ "?offset="
                                +++ str_of_Z (offset - 1) +++ "&limit=-1")))] in
  get_businesses rq d = (Reply body 200, d)
  /\ get_reviews rq d = (Reply body 200, d)
  /\ LIMIT_OFFSET (businesses d) (-1 + 1) offset = inr []
  /\ LIMIT_OFFSET (reviews d) (-1 + 1) offset = inr [].
Proof.
  intros offset Hl Ho body.
  assert (Hw : forall A (rows : list A), window (-1 + 1) offset rows = [])
    by reflexivity.
  repeat split.
  - rewrite (@get_businesses_page rq d offset (-1))
      by (auto; try lia; rewrite Hw; constructor).
    rewrite Hw. reflexivity.
  - rewrite (@get_reviews_page rq d offset (-1)) by (auto; lia).
    rewrite Hw. reflexivity.
  - rewrite LIMIT_OFFSET_nonneg by lia. rewrite Hw. reflexivity.
  - rewrite LIMIT_OFFSET_nonneg by lia. rewrite Hw. reflexivity.
Qed.

(** An offset below zero never gets that far: the store rejects the query
    and neither listing has a [try]. *)
Lemma listing_negative_offset (rq : request) (d : db) :
  args_get_int (args rq) "offset" 0 < 0 ->
  get_businesses rq d = (Unhandled DatabaseError, d)
  /\ get_reviews rq d = (Unhandled DatabaseError, d).
Proof.
  intros Ho.
  unfold get_businesses, get_reviews, unguarded, with_connection, bind,
    SELECT_businesses_page, SELECT_reviews_page, LIMIT_OFFSET.
  destruct (args_get_int (args rq) "offset" 0 <? 0) eqn:Hneg; [|lia].
  rewrite orb_true_r. split; reflexivity.
Qed.

(** C10 as first worded, for every request with limit = -1: with offset = -1
    as well (the very next URL of the page at offset 0) the store rejects
    the query, and neither listing returns entries or a next URL. *)
Lemma listing_limit_minus_one_counterexample :
  args_get_int
    (args (sample_request [("offset", "-1"); ("limit", "-1")] [])) "limit" 3
  = -1
  /\ get_businesses (sample_request [("offset", "-1"); ("limit", "-1")] [])
                    five_businesses
     = (Unhandled DatabaseError, five_businesses)
  /\ get_reviews (sample_request [("offset", "-1"); ("limit", "-1")] [])
                 reviewed_business
     = (Unhandled DatabaseError, reviewed_business)
  /\ next_url (sample_request [("offset", "0"); ("limit", "-1")] [])
              (0 + -1) (-1)
     = "http://localhost:8080/businesses?offset=-1&limit=-1".
Proof. repeat split. Qed.

Lemma listing_limit_minus_one_witness :
  get_businesses (sample_request [("offset", "4"); ("limit", "-1")] [])
                 five_businesses
  = (Reply (JObj [("entries", JList []);
                  ("next",
                   JAtom (AStr "http://localhost:8080/businesses?offset=3&limit=-1"))])
           200, five_businesses).
Proof.
  apply (@listing_limit_minus_one
           (sample_request [("offset", "4"); ("limit", "-1")] [])
           five_businesses).
  - reflexivity.
  - vm_compute; discriminate.
Defined.

(** ** Fetching one row *)

Lemma NoDup_map_eq {A B} (f : A -> B) (l : list A) (x y : A) :
  NoDup (map f l) -> In x l -> In y l -> f x = f y -> x = y.
Proof.
  induction l as [|a l IH]; simpl; intros Hnd Hx Hy Hf; [contradiction|].
  inversion Hnd as [|? ? Hnotin Hnd']; subst.
  destruct Hx as [Hx | Hx], Hy as [Hy | Hy]; subst.
  - reflexivity.
  - exfalso. apply Hnotin. rewrite Hf. apply in_map, Hy.
  - exfalso. apply Hnotin. rewrite <- Hf. apply in_map, Hx.
  - apply IH; assumption.
Qed.

Lemma filter_nil {A} (p : A -> bool) (l : list A) :
  (forall x, In x l -> p x = false) -> filter p l = [].
Proof.
  induction l as [|a l IH]; simpl; intros H; [reflexivity|].
  rewrite H by (left; reflexivity). apply IH. intros; apply H; right; assumption.
Qed.

(** A key that identifies a row of the list selects just that row. *)
Lemma filter_key {A} (key : A -> Z) (l : list A) (r : A) :
  NoDup (map key l) -> In r l ->
  filter (fun x => key x =? key r) l = [r].
Proof.
  induction l as [|a l IH]; simpl; intros Hnd Hin; [contradiction|].
  inversion Hnd as [|? ? Hnotin Hnd']; subst.
  destruct Hin as [-> | Hin].
  - rewrite Z.eqb_refl. f_equal. apply filter_nil.
    intros x Hx. apply Z.eqb_neq. intros Heq.
    apply Hnotin. rewrite <- Heq. apply in_map, Hx.
  - destruct (key a =? key r) eqn:Heq.
    + exfalso. apply Z.eqb_eq in Heq. apply Hnotin. rewrite Heq.
      apply in_map, Hin.
    + apply IH; assumption.
Qed.

Lemma get_review_missing (rq : request) (id : Z) (d : db) :
  filter (fun r => r_id r =? id) (reviews d) = [] ->
  get_review rq id d = (Reply ERROR_REVIEW_NOT_FOUND 404, d).
Proof.
  intros H.
  unfold get_review, unguarded, with_connection, bind, SELECT_reviews_by_id,
    query.
  cbn [working]. rewrite H. reflexivity.
Qed.

Lemma get_review_found (rq : request) (d : db) (r : review) :
  filter (fun x => r_id x =? r_id r) (reviews d) = [r] ->
  get_review rq (r_id r) d = (Reply (review_json rq r) 200, d).
Proof.
  intros H.
  unfold get_review, unguarded, with_connection, bind, SELECT_reviews_by_id,
    query.
  cbn [working]. rewrite H. reflexivity.
Qed.

(** ** Deleting a business *)

Lemma delete_business_eq (id : Z) (d : db) :
  delete_business id d
  = ((if len (filter (fun b => b_id b =? id) (businesses d)) =? 1
      then Reply (JAtom (AStr "")) 204
      else Reply ERROR_NOT_FOUND 404),
     Db (filter (fun b => negb (b_id b =? id)) (businesses d))
        (filter (fun r => negb (business_id r =? id)) (reviews d))
        (businesses_seq d) (reviews_seq d)).
Proof.
  unfold delete_business, unguarded, with_connection, bind,
    DELETE_reviews_of_business, DELETE_businesses, statement, commit.
  cbn.
  destruct (len (filter (fun b => b_id b =? id) (businesses d)) =? 1);
    reflexivity.
Qed.

(** C2: DELETE /businesses/{id} removes the reviews of the business, then
    the business; it answers 204 if exactly one business row went and 404
    otherwise; the reviews are gone in the committed store in both cases, and
    fetching any of them answers review-not-found. *)
Theorem delete_business_cascade (rq : request) (id : Z) (d : db) :
  NoDup (map r_id (reviews d)) ->
  let removed := len (filter (fun b => b_id b =? id) (businesses d)) in
  let d' := snd (delete_business id d) in
  fst (delete_business id d)
  = (if removed =? 1 then Reply (JAtom (AStr "")) 204
     else Reply ERROR_NOT_FOUND 404)
  /\ businesses d' = filter (fun b => negb (b_id b =? id)) (businesses d)
  /\ reviews d' = filter (fun r => negb (business_id r =? id)) (reviews d)
  /\ (forall r, In r (reviews d') -> business_id r <> id)
  /\ (forall r, In r (reviews d) -> business_id r = id ->
      get_review rq (r_id r) d' = (Reply ERROR_REVIEW_NOT_FOUND 404, d')).
Proof.
  intros Hnd removed d'. subst removed d'.
  rewrite delete_business_eq. cbn [fst snd businesses reviews].
  repeat split.
  - intros r Hr Hid. apply filter_In in Hr. destruct Hr as [_ Hr].
    apply negb_true_iff, Z.eqb_neq in Hr. contradiction.
  - intros r Hr Hid. apply get_review_missing. cbn [reviews].
    apply filter_nil. intros x Hx.
    apply filter_In in Hx. destruct Hx as [Hx Hb].
    apply Z.eqb_neq. intros Heq.
    assert (x = r) by (eapply NoDup_map_eq; eauto). subst x.
    rewrite Hid, Z.eqb_refl in Hb. discriminate.
Qed.

Lemma delete_business_cascade_witness :
  fst (delete_business 1 reviewed_business) = Reply (JAtom (AStr "")) 204
  /\ get_review (sample_request [] []) 1 (snd (delete_business 1 reviewed_business))
     = (Reply ERROR_REVIEW_NOT_FOUND 404, Db [] [] 2 2).
Proof.
  assert (Hnd : NoDup (map r_id (reviews reviewed_business)))
    by (repeat constructor; simpl; tauto).
  destruct (@delete_business_cascade (sample_request [] []) 1 reviewed_business Hnd)
    as (H1 & _ & _ & _ & H5).
  split.
  - exact H1.
  - apply (H5 (Review 1 5 1 (Some 3) (Some "Good"))).
    + left; reflexivity.
    + reflexivity.
Defined.

(** ** Updating a business *)

Lemma put_business_missing {E : Engine} (rq : request) (id : Z) (d : db) :
  filter (fun b => b_id b =? id) (businesses d) = [] ->
  put_business rq id d = (Reply ERROR_NOT_FOUND 404, d).
Proof.
  intros H.
  unfold put_business, try_except, with_connection, bind,
    SELECT_businesses_by_id, query.
  cbn [working]. rewrite H. reflexivity.
Qed.

(** C8: PUT /businesses/{id} looks the business up before it reads the body:
    without a row for the id the answer is 404 business-not-found whatever
    the body holds, so a 400 means the business exists. *)
Theorem put_business_existence_first {E : Engine} (rq : request) (id : Z) (d : db) :
  ((forall b, In b (businesses d) -> b_id b <> id) ->
   put_business rq id d = (Reply ERROR_NOT_FOUND 404, d))
  /\ (status_of (fst (put_business rq id d)) = Some 400 ->
      exists b, In b (businesses d) /\ b_id b = id).
Proof.
  split.
  - intros H. apply put_business_missing. apply filter_nil.
    intros b Hb. apply Z.eqb_neq. apply H, Hb.
  - intros H.
    destruct (filter (fun b => b_id b =? id) (businesses d)) as [|b l] eqn:Hf.
    + rewrite put_business_missing in H by assumption. discriminate.
    + assert (Hb : In b (filter (fun b => b_id b =? id) (businesses d)))
        by (rewrite Hf; left; reflexivity).
      apply filter_In in Hb. destruct Hb as [Hb Hid].
      exists b. split; [assumption | apply Z.eqb_eq, Hid].
Qed.

Lemma put_business_existence_first_witness :
  put_business (E := plain_engine) (sample_request [] [("name", AStr "Cafe")]) 3
               reviewed_business
  = (Reply ERROR_NOT_FOUND 404, reviewed_business)
  /\ exists b, In b (businesses reviewed_business) /\ b_id b = 1.
Proof.
  split.
  - apply (@put_business_existence_first plain_engine).
    intros b [<- | []]. discriminate.
  - apply (@put_business_existence_first plain_engine
             (sample_request [] [("name", AStr "Cafe")]) 1 reviewed_business).
    reflexivity.
Defined.

(** ** Updating a review *)

Lemma update_fields_stars (content : dict atom) :
  dict_mem "stars" content = true -> fst (update_fields content) <> [].
Proof.
  unfold dict_mem, update_fields.
  destruct (dict_get "stars" content); [|discriminate].
  intros _. destruct (dict_get "review_text" content); discriminate.
Qed.

Lemma dict_get_set {V} (k : string) (v : V) (d : dict V) :
  dict_get k (dict_set k v d) = Some v.
Proof.
  induction d as [|[k' v'] d IH]; simpl.
  - rewrite String.eqb_refl. reflexivity.
  - destruct (String.eqb k k') eqn:Hk; simpl.
    + rewrite String.eqb_refl. reflexivity.
    + rewrite Hk. exact IH.
Qed.

(** [put_review] with stars in the body, statement by statement. *)
Lemma put_review_run {E : Engine} (rq : request) (id : Z) (d : db) :
  dict_mem "stars" (get_json rq) = true ->
  put_review rq id d
  = if existsb (fun r => r_id r =? id) (reviews d) then
      match update_where (fun r => r_id r =? id)
              (assign_all (dict_set "id" (AInt id)
                                    (snd (update_fields (get_json rq))))
                          (fst (update_fields (get_json rq))))
              (reviews d) with
      | Some rs =>
          let d' := Db (businesses d) rs (businesses_seq d) (reviews_seq d) in
          match filter (fun r => r_id r =? id) rs with
          | [] => (Reply ERROR_REVIEW_NOT_FOUND 404, d')
          | [r] => (Reply (updated_review_json rq id r) 200, d')
          | _ :: _ :: _ => (Unhandled MultipleResultsFound, d')
          end
      | None => (Unhandled DatabaseError, d)
      end
    else (Reply ERROR_REVIEW_NOT_FOUND 404, d).
Proof.
  intros Hs. unfold put_review. rewrite Hs. cbn [negb].
  pose proof (update_fields_stars _ Hs) as Hne.
  destruct (update_fields (get_json rq)) as [parts params].
  cbn [fst snd] in *. destruct parts as [|p ps]; [congruence|].
  unfold unguarded, with_connection, bind, SELECT_1_review,
    SELECT_reviews_by_id, UPDATE_reviews, statement, query, commit.
  cbn [working committed last_insert_id].
  rewrite dict_get_set.
  destruct (existsb (fun r => r_id r =? id) (reviews d)); [|reflexivity].
  cbn [negb working committed last_insert_id].
  destruct (update_where _ _ (reviews d)) as [rs|]; [|reflexivity].
  cbn [working committed last_insert_id reviews].
  destruct (filter (fun r => r_id r =? id) rs) as [|r [|r' l]]; reflexivity.
Qed.

(** A 400 from [put_review] is the missing-attribute answer. *)
Lemma put_review_400 {E : Engine} (rq : request) (id : Z) (d : db) :
  status_of (fst (put_review rq id d)) = Some 400 ->
  dict_mem "stars" (get_json rq) = false
  /\ put_review rq id d = (Reply ERROR_BAD_REQUEST 400, d).
Proof.
  destruct (dict_mem "stars" (get_json rq)) eqn:Hs.
  - rewrite put_review_run by assumption.
    destruct (existsb _ (reviews d)); [|discriminate].
    destruct (update_where _ _ (reviews d)) as [rs|]; [|discriminate].
    cbv zeta.
    destruct (filter (fun r => r_id r =? id) rs) as [|r [|r' l]]; discriminate.
  - intros _. split; [reflexivity|].
    unfold put_review. rewrite Hs. reflexivity.
Qed.

(** C9: PUT /reviews/{id} never answers "No valid fields provided to
    update": without stars it has already answered the missing-attribute
    error, and with stars the SET clause is not empty. *)
Theorem put_review_no_valid_fields_unreachable {E : Engine}
  (rq : request) (id : Z) (d : db) :
  fst (put_review rq id d)
  <> Reply (obj [("Error", AStr "No valid fields provided to update")]) 400
  /\ (dict_mem "stars" (get_json rq) = false ->
      put_review rq id d = (Reply ERROR_BAD_REQUEST 400, d))
  /\ (dict_mem "stars" (get_json rq) = true ->
      fst (update_fields (get_json rq)) <> []).
Proof.
  repeat split.
  - intros H.
    assert (H4 : status_of (fst (put_review rq id d)) = Some 400)
      by (rewrite H; reflexivity).
    apply put_review_400 in H4. destruct H4 as [_ H4].
    rewrite H4 in H. discriminate.
  - intros H. unfold put_review. rewrite H. reflexivity.
  - apply update_fields_stars.
Qed.

Lemma put_review_no_valid_fields_unreachable_witness :
  put_review (E := plain_engine) (sample_request [] [("review_text", AStr "Fine")])
             1 reviewed_business
  = (Reply ERROR_BAD_REQUEST 400, reviewed_business)
  /\ fst (update_fields [("stars", AInt 4)]) <> [].
Proof.
  split.
  - apply (@put_review_no_valid_fields_unreachable plain_engine). reflexivity.
  - apply (@put_review_no_valid_fields_unreachable plain_engine
             (sample_request [] [("stars", AInt 4)]) 1 reviewed_business).
    reflexivity.
Defined.

Lemma update_where_total {A} (p : A -> bool) (f : A -> option A) (g : A -> A)
  (l : list A) :
  (forall x, In x l -> p x = true -> f x = Some (g x)) ->
  update_where p f l = Some (map (fun x => if p x then g x else x) l).
Proof.
  induction l as [|a l IH]; simpl; intros H; [reflexivity|].
  rewrite IH by (intros; apply H; auto).
  destruct (p a) eqn:Hp; [|reflexivity].
  rewrite H by auto. reflexivity.
Qed.

Lemma update_where_rejected {A} (p : A -> bool) (f : A -> option A)
  (l : list A) (r : A) :
  In r l -> p r = true -> f r = None -> update_where p f l = None.
Proof.
  induction l as [|a l IH]; simpl; intros Hin Hp Hf; [contradiction|].
  destruct Hin as [-> | Hin].
  - rewrite Hp, Hf. reflexivity.
  - rewrite (IH Hin Hp Hf). destruct (if p a then f a else Some a); reflexivity.
Qed.

Lemma filter_map_key {A} (key : A -> Z) (h : A -> A) (id : Z) (l : list A) :
  (forall x, key (h x) = key x) ->
  filter (fun x => key x =? id) (map h l)
  = map h (filter (fun x => key x =? id) l).
Proof.
  intros Hk. induction l as [|a l IH]; simpl; [reflexivity|].
  rewrite Hk. destruct (key a =? id); simpl; rewrite IH; reflexivity.
Qed.

Lemma update_fields_stars_only (content : dict atom) (v : atom) :
  dict_get "stars" content = Some v ->
  dict_get "review_text" content = None ->
  update_fields content = (["stars = :stars"], [("stars", v)]).
Proof. intros H1 H2. unfold update_fields. rewrite H1, H2. reflexivity. Qed.

(** C6 (as amended): on an existing review, a PUT whose body has stars, with
    a value the stars column accepts, and no review_text replaces the stars
    alone: text, user, business and id stay, the other reviews stay, and the
    reply shows the new stars with the stored text.  Without stars in the
    body the answer is 400 and the store is untouched. *)
Theorem put_review_stars_only {E : Engine} (rq : request) (id : Z) (d : db) :
  (dict_mem "stars" (get_json rq) = false ->
   put_review rq id d = (Reply ERROR_BAD_REQUEST 400, d))
  /\ (forall v s r,
      dict_get "stars" (get_json rq) = Some v ->
      dict_get "review_text" (get_json rq) = None ->
      NoDup (map r_id (reviews d)) -> In r (reviews d) -> r_id r = id ->
      int_param v = Some s -> stars_check s = true ->
      let r' := set_stars s r in
      let d' := snd (put_review rq id d) in
      fst (put_review rq id d) = Reply (review_json rq r') 200
      /\ businesses d' = businesses d
      /\ reviews d'
         = map (fun x => if r_id x =? id then set_stars s x else x) (reviews d)
      /\ In r' (reviews d')
      /\ stars r' = s /\ review_text r' = review_text r
      /\ user_id r' = user_id r /\ business_id r' = business_id r
      /\ r_id r' = r_id r
      /\ (forall x, In x (reviews d) -> r_id x <> id -> In x (reviews d'))).
Proof.
  split.
  - intros H. unfold put_review. rewrite H. reflexivity.
  - intros v s r Hv Ht Hnd Hin Hid Hs Hc r' d'. subst r' d'.
    assert (Hmem : dict_mem "stars" (get_json rq) = true)
      by (unfold dict_mem; rewrite Hv; reflexivity).
    rewrite (put_review_run rq id d Hmem).
    rewrite (update_fields_stars_only _ Hv Ht). cbn [fst snd].
    assert (Hex : existsb (fun x => r_id x =? id) (reviews d) = true).
    { apply existsb_exists. exists r. split; [assumption | apply Z.eqb_eq, Hid]. }
    rewrite Hex.
    rewrite (@update_where_total _ _ _ (set_stars s)).
    2:{ intros x _ _. cbn. rewrite Hs, Hc. reflexivity. }
    cbv zeta.
    rewrite (@filter_map_key _ r_id
               (fun x => if r_id x =? id then set_stars s x else x))
      by (intros x; destruct (r_id x =? id); reflexivity).
    assert (Hf : filter (fun x => r_id x =? id) (reviews d) = [r])
      by (rewrite <- Hid; apply filter_key; assumption).
    rewrite Hf.
    cbn [map fst snd businesses reviews]. rewrite Hid, Z.eqb_refl.
    repeat split.
    + unfold updated_review_json, review_json. cbn [r_id set_stars].
      rewrite Hid. reflexivity.
    + apply in_map_iff. exists r. rewrite Hid, Z.eqb_refl. auto.
    + exact Hid.
    + intros x Hx Hne. apply in_map_iff. exists x.
      apply Z.eqb_neq in Hne. rewrite Hne. auto.
Qed.

Lemma put_review_stars_only_witness :
  fst (put_review (E := plain_engine) (sample_request [] [("stars", AInt 4)]) 1
                  reviewed_business)
  = Reply (review_json (sample_request [] [])
                       (Review 1 5 1 (Some 4) (Some "Good"))) 200
  /\ reviews (snd (put_review (E := plain_engine)
                              (sample_request [] [("stars", AInt 4)]) 1
                              reviewed_business))
     = [Review 1 5 1 (Some 4) (Some "Good")].
Proof.
  destruct (@put_review_stars_only plain_engine
              (sample_request [] [("stars", AInt 4)]) 1 reviewed_business)
    as [_ H].
  assert (Hnd : NoDup (map r_id (reviews reviewed_business)))
    by (repeat constructor; simpl; tauto).
  assert (Hin : In (Review 1 5 1 (Some 3) (Some "Good"))
                   (reviews reviewed_business))
    by (left; reflexivity).
  destruct (H (AInt 4) (Some 4) (Review 1 5 1 (Some 3) (Some "Good"))
              eq_refl eq_refl Hnd Hin eq_refl eq_refl eq_refl)
    as (H1 & H2 & H3 & _).
  split; [exact H1 | exact H3].
Defined.

(** C6 as stated fails: stars = 9 is in the body, the CHECK on the column
    rejects the UPDATE, and the handler, which has no [try], answers with no
    representation at all. *)
Lemma put_review_stars_only_counterexample :
  dict_get "stars" [("stars", AInt 9)] = Some (AInt 9)
  /\ dict_get "review_text" [("stars", AInt 9)] = None
  /\ put_review (E := plain_engine) (sample_request [] [("stars", AInt 9)]) 1
                reviewed_business
     = (Unhandled DatabaseError, reviewed_business).
Proof. repeat split; reflexivity. Qed.

(** ** Creating a review *)

Lemma post_review_missing {E : Engine} (rq : request) (d : db) :
  dict_mem "user_id" (get_json rq) = false
  \/ dict_mem "business_id" (get_json rq) = false
  \/ dict_mem "stars" (get_json rq) = false ->
  post_review rq d = (Reply ERROR_BAD_REQUEST 400, d).
Proof.
  intros H. unfold post_review. cbn [filter].
  destruct (dict_mem "user_id" (get_json rq)),
           (dict_mem "business_id" (get_json rq)),
           (dict_mem "stars" (get_json rq));
    cbn [negb]; try reflexivity.
  destruct H as [H | [H | H]]; discriminate.
Qed.

(** [post_review] with the three required members, statement by
    statement. *)
Lemma post_review_run {E : Engine} (rq : request) (d : db) (u b s : atom) :
  dict_get "user_id" (get_json rq) = Some u ->
  dict_get "business_id" (get_json rq) = Some b ->
  dict_get "stars" (get_json rq) = Some s ->
  let t := dict_get_default (get_json rq) "review_text" (AStr "") in
  post_review rq d
  = if existsb (fun x => int_eq (b_id x) b) (businesses d) then
      if existsb (fun r => int_eq (user_id r) u && int_eq (business_id r) b)
                 (reviews d)
      then (Reply ERROR_CONFLICT 409, d)
      else
        match review_row (reviews_seq d) u b s t with
        | Some r =>
            (Reply (created_review_json rq (reviews_seq d) u b s t) 201,
             with_review d r)
        | None => (Reply (obj [("Error", AStr "Unable to create review")]) 500, d)
        end
    else (Reply ERROR_NOT_FOUND 404, d).
Proof.
  intros Hu Hb Hs t. unfold post_review, dict_mem. cbn [filter].
  rewrite Hu, Hb, Hs. cbn [negb].
  unfold try_except, with_connection, bind, lift, getitem, SELECT_1_business,
    SELECT_1_review_of, INSERT_reviews, SELECT_last_insert_id, query, commit.
  rewrite Hu, Hb, Hs. cbn [working committed last_insert_id].
  destruct (existsb (fun x => int_eq (b_id x) b) (businesses d));
    [|reflexivity].
  cbn [negb working committed last_insert_id].
  destruct (existsb _ (reviews d)); [reflexivity|].
  cbn [working committed last_insert_id]. fold t.
  destruct (review_row (reviews_seq d) u b s t); reflexivity.
Qed.

(** C4 (as amended): POST /reviews answers 400 if user_id, business_id or
    stars is missing; else 404 if no business matches business_id; else 409
    if a review of the pair exists; else, if the store accepts the row, it
    inserts it and answers 201 with a business URL and no business_id, a self
    URL and the review_text, empty when absent; a row the store rejects gives
    500 and no insert. *)
Theorem post_review_classification {E : Engine} (rq : request) (d : db) :
  let content := get_json rq in
  (dict_mem "user_id" content = false \/ dict_mem "business_id" content = false
   \/ dict_mem "stars" content = false ->
   post_review rq d = (Reply ERROR_BAD_REQUEST 400, d))
  /\ (forall u b s,
      dict_get "user_id" content = Some u ->
      dict_get "business_id" content = Some b ->
      dict_get "stars" content = Some s ->
      let business_exists :=
        existsb (fun x => int_eq (b_id x) b) (businesses d) in
      let review_exists :=
        existsb (fun r => int_eq (user_id r) u && int_eq (business_id r) b)
                (reviews d) in
      let t := match dict_get "review_text" content with
               | Some t => t
               | None => AStr ""
               end in
      (business_exists = false ->
       post_review rq d = (Reply ERROR_NOT_FOUND 404, d))
      /\ (business_exists = true -> review_exists = true ->
          post_review rq d = (Reply ERROR_CONFLICT 409, d))
      /\ (business_exists = true -> review_exists = false ->
          forall r, review_row (reviews_seq d) u b s t = Some r ->
          let body :=
            obj [("id", AInt (reviews_seq d)); ("user_id", u);
                 ("business", AStr (host_url rq +++ "businesses/" +++ py_str b));
                 ("stars", s); ("review_text", t);
                 ("self", AStr (base_url rq +++ "/" +++ str_of_Z (reviews_seq d)))] in
          post_review rq d
          = (Reply body 201,
             Db (businesses d) (reviews d ++ [r]) (businesses_seq d)
                (reviews_seq d + 1))
          /\ member "business_id" body = None)
      /\ (business_exists = true -> review_exists = false ->
          review_row (reviews_seq d) u b s t = None ->
          post_review rq d
          = (Reply (obj [("Error", AStr "Unable to create review")]) 500, d))).
Proof.
  intros content. split; [apply post_review_missing|].
  intros u b s Hu Hb Hs business_exists review_exists t.
  pose proof (post_review_run rq d Hu Hb Hs) as H. cbv zeta in H.
  fold content in H. unfold dict_get_default in H.
  fold t business_exists review_exists in H.
  split; [|split; [|split]].
  - intros Hbe. rewrite H, Hbe. reflexivity.
  - intros Hbe Hre. rewrite H, Hbe, Hre. reflexivity.
  - intros Hbe Hre r Hrow body. rewrite H, Hbe, Hre, Hrow.
    split; reflexivity.
  - intros Hbe Hre Hrow. rewrite H, Hbe, Hre, Hrow. reflexivity.
Qed.

Lemma post_review_classification_witness :
  post_review (E := plain_engine)
    (sample_request [] (sample_review (AInt 5) (AInt 1) (AInt 4)))
    (one_business "97330")
  = (Reply (obj [("id", AInt 1); ("user_id", AInt 5);
                 ("business", AStr "http://localhost:8080/businesses/1");
                 ("stars", AInt 4); ("review_text", AStr "");
                 ("self", AStr "http://localhost:8080/businesses/1")]) 201,
     Db (businesses (one_business "97330")) [Review 1 5 1 (Some 4) (Some "")] 2 2).
Proof.
  destruct (@post_review_classification plain_engine
              (sample_request [] (sample_review (AInt 5) (AInt 1) (AInt 4)))
              (one_business "97330")) as [_ H].
  destruct (H (AInt 5) (AInt 1) (AInt 4) eq_refl eq_refl eq_refl)
    as (_ & _ & H3 & _).
  destruct (H3 eq_refl eq_refl (Review 1 5 1 (Some 4) (Some "")) eq_refl)
    as [H4 _].
  exact H4.
Defined.

(** C4 as stated fails: a null user_id is a member of the body, the business
    exists and no review of the pair does, yet the NOT NULL column rejects
    the row and the answer is 500, not 201. *)
Lemma post_review_classification_counterexample :
  filter (fun field => negb (dict_mem field (get_json null_user_review)))
         ["user_id"; "business_id"; "stars"] = []
  /\ existsb (fun x => int_eq (Engine := plain_engine) (b_id x) (AInt 1))
             (businesses (one_business "97330")) = true
  /\ reviews (one_business "97330") = []
  /\ post_review (E := plain_engine) null_user_review (one_business "97330")
     = (Reply (obj [("Error", AStr "Unable to create review")]) 500,
        one_business "97330").
Proof. repeat split; reflexivity. Qed.

(** ** Businesses in replies *)

(** [post_businesses], statement by statement. *)
Lemma post_businesses_run {E : Engine} (rq : request) (d : db) :
  let content := get_json rq in
  post_businesses rq d
  = match dict_get "owner_id" content, dict_get "name" content,
          dict_get "street_address" content, dict_get "city" content,
          dict_get "state" content, dict_get "zip_code" content with
    | Some o, Some n, Some s, Some c, Some st, Some z =>
        match business_row (businesses_seq d) o n s c st z with
        | Some b =>
            (Reply (echoed_business_json (businesses_seq d) o n s c st z
                      (base_url rq +++ "/" +++ str_of_Z (businesses_seq d)))
                   201,
             Db (businesses d ++ [b]) (reviews d) (businesses_seq d + 1)
                (reviews_seq d))
        | None => (Reply (obj [("Error", AStr "Unable to create business")]) 500, d)
        end
    | _, _, _, _, _, _ => (Reply ERROR_BAD_REQUEST 400, d)
    end.
Proof.
  intros content.
  unfold post_businesses, try_except, with_connection, bind, lift, getitem,
    INSERT_businesses, SELECT_last_insert_id, commit.
  fold content.
  destruct (dict_get "owner_id" content) as [o|]; [|reflexivity].
  destruct (dict_get "name" content) as [n|]; [|reflexivity].
  destruct (dict_get "street_address" content) as [s|]; [|reflexivity].
  destruct (dict_get "city" content) as [c|]; [|reflexivity].
  destruct (dict_get "state" content) as [st|]; [|reflexivity].
  destruct (dict_get "zip_code" content) as [z|]; [|reflexivity].
  cbn [working committed last_insert_id].
  destruct (business_row (businesses_seq d) o n s c st z); reflexivity.
Qed.

(** [put_business], statement by statement. *)
Lemma put_business_run {E : Engine} (rq : request) (id : Z) (d : db) :
  let content := get_json rq in
  put_business rq id d
  = match filter (fun b => b_id b =? id) (businesses d) with
    | [] => (Reply ERROR_NOT_FOUND 404, d)
    | [_] =>
        match dict_get "owner_id" content, dict_get "name" content,
              dict_get "street_address" content, dict_get "city" content,
              dict_get "state" content, dict_get "zip_code" content with
        | Some o, Some n, Some s, Some c, Some st, Some z =>
            match update_where (fun b => b_id b =? id)
                    (fun b => business_row (b_id b) o n s c st z)
                    (businesses d) with
            | Some bs =>
                (Reply (echoed_business_json id o n s c st z
                          (url_root rq +++ "businesses/" +++ str_of_Z id))
                       200,
                 Db bs (reviews d) (businesses_seq d) (reviews_seq d))
            | None =>
                (Reply (obj [("Error", AStr "Unable to create business")]) 500, d)
            end
        | _, _, _, _, _, _ => (Reply ERROR_BAD_REQUEST 400, d)
        end
    | _ :: _ :: _ =>
        (Reply (obj [("Error", AStr "Unable to create business")]) 500, d)
    end.
Proof.
  intros content.
  unfold put_business, try_except, with_connection, bind, lift, getitem,
    SELECT_businesses_by_id, UPDATE_businesses, statement, query, commit.
  fold content. cbn [working committed last_insert_id].
  destruct (filter (fun b => b_id b =? id) (businesses d)) as [|b0 [|b1 l]];
    try reflexivity.
  cbn [one_or_none ret working committed last_insert_id].
  destruct (dict_get "owner_id" content) as [o|]; [|reflexivity].
  destruct (dict_get "name" content) as [n|]; [|reflexivity].
  destruct (dict_get "street_address" content) as [s|]; [|reflexivity].
  destruct (dict_get "city" content) as [c|]; [|reflexivity].
  destruct (dict_get "state" content) as [st|]; [|reflexivity].
  destruct (dict_get "zip_code" content) as [z|]; [|reflexivity].
  cbn [working committed last_insert_id].
  destruct (update_where _ _ (businesses d)); reflexivity.
Qed.

(** [get_business], statement by statement. *)
Lemma get_business_run (rq : request) (id : Z) (d : db) :
  get_business rq id d
  = match filter (fun b => b_id b =? id) (businesses d) with
    | [] => (Reply ERROR_NOT_FOUND 404, d)
    | [b] =>
        match int_of_string (zip_code b) with
        | Some z =>
            (Reply (obj [("id", AInt (b_id b)); ("owner_id", AInt (owner_id b));
                         ("name", AStr (name b));
                         ("street_address", AStr (street_address b));
                         ("city", AStr (city b)); ("state", AStr (state b));
                         ("zip_code", AInt z);
                         ("self", AStr (url_root rq +++ "businesses/"
                                        +++ str_of_Z id))]) 200, d)
        | None => (Unhandled ValueError, d)
        end
    | _ :: _ :: _ => (Unhandled MultipleResultsFound, d)
    end.
Proof.
  unfold get_business, unguarded, with_connection, bind, lift,
    SELECT_businesses_by_id, query.
  cbn [working committed].
  destruct (filter (fun b => b_id b =? id) (businesses d)) as [|b0 [|b1 l]];
    try reflexivity.
  cbn. destruct (int_of_string (zip_code b0)); reflexivity.
Qed.

(** [get_bussiness_by_owner]: the rows of the owner as stored, each with a
    self URL. *)
Lemma get_bussiness_by_owner_run (rq : request) (id : Z) (d : db) :
  get_bussiness_by_owner rq id d
  = (Reply (JList (map (fun b => business_json rq b (AStr (zip_code b)))
                       (filter (fun b => owner_id b =? id) (businesses d))))
           200, d).
Proof.
  unfold get_bussiness_by_owner, unguarded, with_connection, bind,
    SELECT_businesses_by_owner, query, commit.
  cbn [working committed last_insert_id].
  rewrite for_each_total
    with (g := fun b =>
                 [("id", AInt (b_id b)); ("owner_id", AInt (owner_id b));
                  ("name", AStr (name b));
                  ("street_address", AStr (street_address b));
                  ("city", AStr (city b)); ("state", AStr (state b));
                  ("zip_code", AStr (zip_code b));
                  ("self", AStr (url_root rq +++ "businesses/" +++ str_of_Z (b_id b)))])
    by reflexivity.
  unfold ret. cbn [committed]. rewrite map_map. reflexivity.
Qed.

Lemma for_each_business_entry (rq : request) (l : list business) (c : conn) :
  Forall zip_is_int l
  \/ for_each (business_entry rq) l c = (inl ValueError, c).
Proof.
  induction l as [|b l IH].
  - left. constructor.
  - destruct (int_of_string (zip_code b)) as [z|] eqn:Hz.
    + destruct IH as [IH | IH].
      * left. constructor; [unfold zip_is_int; congruence | exact IH].
      * right. cbn [for_each]. unfold bind.
        rewrite business_entry_ok by (unfold zip_is_int; congruence).
        rewrite IH. reflexivity.
    + right. cbn [for_each]. unfold bind.
      rewrite business_entry_raises by assumption. reflexivity.
Qed.

(** When GET /businesses answers at all, the store took the window and the
    zip codes of the page read as integers. *)
Lemma get_businesses_reply (rq : request) (d : db) (body : json) (st : Z) (d' : db) :
  get_businesses rq d = (Reply body st, d') ->
  let offset := args_get_int (args rq) "offset" 0 in
  let limit := args_get_int (args rq) "limit" 3 in
  0 <= offset /\ 0 <= limit + 1
  /\ Forall zip_is_int (slice_to (window (limit + 1) offset (businesses d)) limit).
Proof.
  intros H offset limit. revert H.
  unfold get_businesses, unguarded, with_connection, bind,
    SELECT_businesses_page, LIMIT_OFFSET.
  fold offset limit. cbn [working committed].
  destruct (limit + 1 <? 0) eqn:Hl; [discriminate|].
  destruct (offset <? 0) eqn:Ho; [discriminate|].
  cbn [orb].
  destruct (for_each_business_entry rq
              (slice_to (window (limit + 1) offset (businesses d)) limit)
              (Conn d d 0)) as [Hz | Hz].
  - intros _. repeat split; [lia | lia | exact Hz].
  - rewrite Hz. discriminate.
Qed.

(** When GET /reviews answers at all, the store took the window. *)
Lemma get_reviews_reply (rq : request) (d : db) (body : json) (st : Z) (d' : db) :
  get_reviews rq d = (Reply body st, d') ->
  0 <= args_get_int (args rq) "offset" 0
  /\ 0 <= args_get_int (args rq) "limit" 3 + 1.
Proof.
  unfold get_reviews, unguarded, with_connection, bind,
    SELECT_reviews_page, LIMIT_OFFSET.
  cbn [working committed].
  destruct (args_get_int (args rq) "limit" 3 + 1 <? 0) eqn:Hl; [discriminate|].
  destruct (args_get_int (args rq) "offset" 0 <? 0) eqn:Ho; [discriminate|].
  intros _. lia.
Qed.

(** A prefix and a suffix of a list hold rows of the list. *)
Lemma prefix_rows {A} (l : list A) :
  forall n, incl (firstn n l) l.
Proof.
  induction l as [|a l IH]; intros [|n] x Hx; simpl in Hx;
    try contradiction.
  destruct Hx as [Hx | Hx]; [left | right; apply (IH n)]; exact Hx.
Qed.

Lemma suffix_rows {A} (l : list A) :
  forall n, incl (skipn n l) l.
Proof.
  induction l as [|a l IH]; intros [|n] x Hx; simpl in Hx;
    try contradiction; try exact Hx.
  right. apply (IH n), Hx.
Qed.

Lemma slice_to_incl {A} (l : list A) (n : Z) (x : A) :
  In x (slice_to l n) -> In x l.
Proof.
  unfold slice_to. destruct (0 <=? n); apply prefix_rows.
Qed.

Lemma window_incl {A} (limit offset : Z) (l : list A) (x : A) :
  In x (window limit offset l) -> In x l.
Proof.
  unfold window. intros H.
  apply (suffix_rows l (Z.to_nat offset)), (prefix_rows _ _ _ H).
Qed.

(** The entries of a page whose zip codes read as integers: row by row, the
    row with the integer its stored zip code reads as. *)
Lemma entries_read_zip_codes (rq : request) (l : list business) :
  Forall zip_is_int l ->
  Forall2 (fun b e =>
             exists z, int_of_string (zip_code b) = Some z
                       /\ e = business_json rq b (AInt z)
                       /\ member "zip_code" e = Some (JAtom (AInt z)))
          l (map (business_entry_json rq) l).
Proof.
  induction 1 as [|b l Hb _ IH]; cbn [map]; constructor; [|exact IH].
  unfold zip_is_int in Hb. unfold business_entry_json, zip_int.
  destruct (int_of_string (zip_code b)) as [z|]; [|congruence].
  exists z. repeat split.
Qed.

(** C5, amended: when GET /businesses/{id} or GET /businesses return a
    business, its zip_code is the integer the stored string reads as, and
    when a stored zip code they meet does not read as an integer they raise
    ValueError; POST /businesses and PUT /businesses/{id} return the zip_code
    member of the request body as it was sent. *)
Theorem zip_code_in_replies {E : Engine} (rq : request) (d : db) :
  let offset := args_get_int (args rq) "offset" 0 in
  let limit := args_get_int (args rq) "limit" 3 in
  let fetched := window (limit + 1) offset (businesses d) in
  (forall id body d',
      get_business rq id d = (Reply body 200, d') ->
      exists b z,
        In b (businesses d) /\ b_id b = id
        /\ int_of_string (zip_code b) = Some z
        /\ body = business_json rq b (AInt z)
        /\ member "zip_code" body = Some (JAtom (AInt z)))
  /\ (forall b,
      NoDup (map b_id (businesses d)) -> In b (businesses d) ->
      (forall z, int_of_string (zip_code b) = Some z ->
         get_business rq (b_id b) d
         = (Reply (business_json rq b (AInt z)) 200, d))
      /\ (int_of_string (zip_code b) = None ->
          get_business rq (b_id b) d = (Unhandled ValueError, d)))
  /\ (forall body st d',
      get_businesses rq d = (Reply body st, d') ->
      Forall2 (fun b e =>
                 exists z, int_of_string (zip_code b) = Some z
                           /\ e = business_json rq b (AInt z)
                           /\ member "zip_code" e = Some (JAtom (AInt z)))
              (slice_to fetched limit) (entries_of body))
  /\ (0 <= offset -> 0 <= limit + 1 ->
      (Forall zip_is_int (slice_to fetched limit) ->
       get_businesses rq d
       = (Reply (JObj (("entries",
                        JList (map (business_entry_json rq)
                                   (slice_to fetched limit)))
                       :: next_link rq offset limit (len fetched))) 200, d))
      /\ (~ Forall zip_is_int (slice_to fetched limit) ->
          get_businesses rq d = (Unhandled ValueError, d)))
  /\ (forall body d',
      post_businesses rq d = (Reply body 201, d') ->
      exists z, dict_get "zip_code" (get_json rq) = Some z
                /\ member "zip_code" body = Some (JAtom z))
  /\ (forall id body d',
      put_business rq id d = (Reply body 200, d') ->
      exists z, dict_get "zip_code" (get_json rq) = Some z
                /\ member "zip_code" body = Some (JAtom z)).
Proof.
  intros offset limit fetched.
  split; [|split; [|split; [|split; [|split]]]].
  - intros id body d'. rewrite get_business_run.
    destruct (filter _ (businesses d)) as [|b0 [|b1 l]] eqn:Hf;
      try discriminate.
    assert (Hb0 : In b0 (businesses d) /\ (b_id b0 =? id) = true)
      by (apply (proj1 (filter_In (fun b => b_id b =? id) b0 (businesses d)));
          rewrite Hf; left; reflexivity).
    destruct Hb0 as (Hin & Hid). apply Z.eqb_eq in Hid.
    destruct (int_of_string (zip_code b0)) as [z|] eqn:Hz; [|discriminate].
    intros H. injection H as Hb _. subst body.
    exists b0, z. unfold business_json. rewrite Hid.
    split; [exact Hin|]. split; [reflexivity|]. split; [exact Hz|].
    split; reflexivity.
  - intros b Hnd Hin. split.
    + intros z Hz. rewrite get_business_run.
      rewrite (filter_key b_id _ _ Hnd Hin), Hz. reflexivity.
    + intros Hz. rewrite get_business_run.
      rewrite (filter_key b_id _ _ Hnd Hin), Hz. reflexivity.
  - intros body st d' H.
    destruct (get_businesses_reply _ _ H) as (Ho & Hl & Hz).
    rewrite (@get_businesses_page rq d _ _ eq_refl eq_refl Ho Hl Hz) in H.
    injection H as Hb _ _. subst body.
    unfold entries_of. cbn [member dict_get].
    change (String.eqb "entries" "entries") with true. cbv iota.
    apply entries_read_zip_codes, Hz.
  - intros Ho Hl. split.
    + intros Hz.
      apply (@get_businesses_page rq d offset limit eq_refl eq_refl Ho Hl Hz).
    + intros Hz.
      unfold get_businesses, unguarded, with_connection, bind,
        SELECT_businesses_page.
      fold offset limit. cbn [working committed].
      rewrite LIMIT_OFFSET_nonneg by assumption. fold fetched.
      destruct (for_each_business_entry rq (slice_to fetched limit)
                  (Conn d d 0)) as [Hall | Hraise];
        [contradiction|].
      rewrite Hraise. reflexivity.
  - intros body d'. rewrite post_businesses_run. cbv zeta.
    destruct (dict_get "owner_id" (get_json rq)) as [o|]; [|discriminate].
    destruct (dict_get "name" (get_json rq)) as [n|]; [|discriminate].
    destruct (dict_get "street_address" (get_json rq)) as [s|]; [|discriminate].
    destruct (dict_get "city" (get_json rq)) as [c|]; [|discriminate].
    destruct (dict_get "state" (get_json rq)) as [st|]; [|discriminate].
    destruct (dict_get "zip_code" (get_json rq)) as [z|]; [|discriminate].
    destruct (business_row _ o n s c st z); [|discriminate].
    intros H. inversion H. exists z. split; reflexivity.
  - intros id body d'. rewrite put_business_run. cbv zeta.
    destruct (filter _ (businesses d)) as [|b0 [|b1 l]]; try discriminate.
    destruct (dict_get "owner_id" (get_json rq)) as [o|]; [|discriminate].
    destruct (dict_get "name" (get_json rq)) as [n|]; [|discriminate].
    destruct (dict_get "street_address" (get_json rq)) as [s|]; [|discriminate].
    destruct (dict_get "city" (get_json rq)) as [c|]; [|discriminate].
    destruct (dict_get "state" (get_json rq)) as [st|]; [|discriminate].
    destruct (dict_get "zip_code" (get_json rq)) as [z|]; [|discriminate].
    destruct (update_where _ _ (businesses d)); [|discriminate].
    intros H. inversion H. exists z. split; reflexivity.
Qed.

(** The business of the sample store fetched by its id and in the listing,
    with zip_code 97330 as an integer, a listing that raises on the zip code
    "ABCDE", and a business created with an integer zip code. *)
Lemma zip_code_in_replies_witness :
  get_business (sample_request [] []) 1 reviewed_business
  = (Reply (business_json (sample_request [] [])
              (Business 1 7 "Cafe" "1 Main St" "Corvallis" "OR" "97330")
              (AInt 97330)) 200, reviewed_business)
  /\ get_businesses (sample_request [] []) reviewed_business
     = (Reply (JObj [("entries",
                      JList [business_json (sample_request [] [])
                               (Business 1 7 "Cafe" "1 Main St" "Corvallis"
                                         "OR" "97330")
                               (AInt 97330)])]) 200, reviewed_business)
  /\ get_businesses (sample_request [] []) (one_business "ABCDE")
     = (Unhandled ValueError, one_business "ABCDE")
  /\ exists z,
      dict_get "zip_code" (sample_business (AInt 97330)) = Some z
      /\ member "zip_code"
           (body_of (fst (post_businesses (E := plain_engine)
                            (sample_request [] (sample_business (AInt 97330)))
                            empty_db)))
         = Some (JAtom z).
Proof.
  split; [|split; [|split]].
  - destruct (@zip_code_in_replies plain_engine (sample_request [] [])
                reviewed_business) as (_ & H & _).
    apply (H (Business 1 7 "Cafe" "1 Main St" "Corvallis" "OR" "97330")).
    + repeat constructor; simpl; tauto.
    + left; reflexivity.
    + reflexivity.
  - destruct (@zip_code_in_replies plain_engine (sample_request [] [])
                reviewed_business) as (_ & _ & _ & H & _).
    apply H.
    + vm_compute; discriminate.
    + vm_compute; discriminate.
    + repeat constructor; vm_compute; discriminate.
  - destruct (@zip_code_in_replies plain_engine (sample_request [] [])
                (one_business "ABCDE")) as (_ & _ & _ & H & _).
    apply H.
    + vm_compute; discriminate.
    + vm_compute; discriminate.
    + intros Hall. inversion Hall as [|b l Hb _]. apply Hb. reflexivity.
  - destruct (@zip_code_in_replies plain_engine
                (sample_request [] (sample_business (AInt 97330))) empty_db)
      as (_ & _ & _ & _ & H & _).
    eapply H. reflexivity.
Defined.

(** C5 as stated fails: POST /businesses with the zip code sent as a string
    answers with that string. *)
Lemma zip_code_in_replies_counterexample :
  post_businesses (E := plain_engine) string_zip_business empty_db
  = (Reply (echoed_business_json 1 (AInt 7) (AStr "Cafe") (AStr "1 Main St")
              (AStr "Corvallis") (AStr "OR") (AStr "97330")
              "http://localhost:8080/businesses/1") 201,
     one_business "97330")
  /\ is_int (member "zip_code"
               (body_of (fst (post_businesses (E := plain_engine)
                                string_zip_business empty_db)))) = false.
Proof. split; reflexivity. Qed.

(** GET /owners/{id}/businesses returns every zip code as the stored string:
    unlike the two other readers it does not convert it. *)
Lemma get_bussiness_by_owner_zip_code (rq : request) (id : Z) (d : db) :
  exists l,
    get_bussiness_by_owner rq id d = (Reply (JList l) 200, d)
    /\ Forall (fun e => is_str (member "zip_code" e) = true) l.
Proof.
  rewrite get_bussiness_by_owner_run. eexists. split; [reflexivity|].
  apply Forall_forall. intros e He. apply in_map_iff in He.
  destruct He as (b & <- & _). reflexivity.
Qed.

Example get_bussiness_by_owner_zip_code_97330 :
  get_bussiness_by_owner (sample_request [] []) 7 (one_business "97330")
  = (Reply (JList [business_json (sample_request [] [])
                     (Business 1 7 "Cafe" "1 Main St" "Corvallis" "OR" "97330")
                     (AStr "97330")]) 200, one_business "97330").
Proof. reflexivity. Qed.

(** ** Reviews in replies *)

(** C7: GET /reviews returns, for the rows of its page and in their order,
    the stored row with its raw business_id and a self URL, without a
    business member (and no reply at all when the store rejects the window);
    GET /reviews/{id} returns the review with a business URL and no
    business_id. *)
Theorem review_shapes (rq : request) (d : db) :
  let offset := args_get_int (args rq) "offset" 0 in
  let limit := args_get_int (args rq) "limit" 3 in
  let fetched := window (limit + 1) offset (reviews d) in
  get_reviews rq d
  = (if (limit + 1 <? 0) || (offset <? 0)
     then (Unhandled DatabaseError, d)
     else (Reply (JObj (("entries",
                         JList (map (review_entry_json rq)
                                    (slice_to fetched limit)))
                        :: next_link rq offset limit (len fetched))) 200, d))
  /\ (forall r,
      review_entry_json rq r
      = obj [("id", AInt (r_id r)); ("user_id", AInt (user_id r));
             ("business_id", AInt (business_id r));
             ("stars", nullable AInt (stars r));
             ("review_text", nullable AStr (review_text r));
             ("self", AStr (url_root rq +++ "reviews/" +++ str_of_Z (r_id r)))]
      /\ member "business_id" (review_entry_json rq r)
         = Some (JAtom (AInt (business_id r)))
      /\ member "business" (review_entry_json rq r) = None
      /\ member "self" (review_entry_json rq r)
         = Some (JAtom (AStr (url_root rq +++ "reviews/"
                              +++ str_of_Z (r_id r)))))
  /\ (forall body st d',
      get_reviews rq d = (Reply body st, d') ->
      entries_of body = map (review_entry_json rq) (slice_to fetched limit)
      /\ Forall (fun e =>
                   exists r, In r (reviews d)
                     /\ e = review_entry_json rq r
                     /\ member "business_id" e
                        = Some (JAtom (AInt (business_id r)))
                     /\ member "business" e = None
                     /\ member "self" e
                        = Some (JAtom (AStr (url_root rq +++ "reviews/"
                                             +++ str_of_Z (r_id r)))))
                (entries_of body))
  /\ (forall r,
      NoDup (map r_id (reviews d)) -> In r (reviews d) ->
      let body := body_of (fst (get_review rq (r_id r) d)) in
      get_review rq (r_id r) d = (Reply (review_json rq r) 200, d)
      /\ member "business" body
         = Some (JAtom (AStr (host_url rq +++ "businesses/"
                              +++ str_of_Z (business_id r))))
      /\ member "business_id" body = None).
Proof.
  intros offset limit fetched.
  split; [|split; [|split]].
  - destruct ((limit + 1 <? 0) || (offset <? 0)) eqn:Hw.
    + unfold get_reviews, unguarded, with_connection, bind,
        SELECT_reviews_page, LIMIT_OFFSET.
      fold offset limit. cbn [working committed]. rewrite Hw. reflexivity.
    + apply orb_false_iff in Hw. destruct Hw as [Hl Ho].
      apply (@get_reviews_page rq d offset limit eq_refl eq_refl); lia.
  - intros r. repeat split.
  - intros body st d' H.
    destruct (get_reviews_reply _ _ H) as (Ho & Hl).
    rewrite (@get_reviews_page rq d _ _ eq_refl eq_refl Ho Hl) in H.
    injection H as Hb _ _. subst body.
    unfold entries_of. cbn [member dict_get].
    change (String.eqb "entries" "entries") with true. cbv iota.
    split; [reflexivity|].
    apply Forall_forall. intros e He. apply in_map_iff in He.
    destruct He as (r & <- & Hr). exists r.
    apply slice_to_incl, window_incl in Hr.
    repeat split. exact Hr.
  - intros r Hnd Hin body. subst body.
    rewrite (@get_review_found rq d r) by (apply filter_key; assumption).
    repeat split.
Qed.

(** The one review of the sample store, in the listing and fetched by its
    id. *)
Lemma review_shapes_witness :
  get_reviews (sample_request [] []) reviewed_business
  = (Reply (JObj [("entries",
                   JList [obj [("id", AInt 1); ("user_id", AInt 5);
                               ("business_id", AInt 1);
                               ("stars", AInt 3); ("review_text", AStr "Good");
                               ("self",
                                AStr "http://localhost:8080/reviews/1")]])])
           200, reviewed_business)
  /\ get_review (sample_request [] []) 1 reviewed_business
     = (Reply (obj [("id", AInt 1); ("user_id", AInt 5);
                    ("business", AStr "http://localhost:8080/businesses/1");
                    ("stars", AInt 3); ("review_text", AStr "Good");
                    ("self", AStr "http://localhost:8080/reviews/1")]) 200,
        reviewed_business).
Proof.
  destruct (@review_shapes (sample_request [] []) reviewed_business)
    as (H0 & _ & _ & H2).
  split.
  - exact H0.
  - apply (H2 (Review 1 5 1 (Some 3) (Some "Good"))).
    + repeat constructor; simpl; tauto.
    + left; reflexivity.
Defined.

(** ** Invariants of the store *)

Section Keeps.
Context {S : Type} (I : S -> Prop).

Lemma keeps_ret {A} (a : A) : keeps I (ret a).
Proof. intros s H. exact H. Qed.

Lemma keeps_raise {A} (e : exn) : keeps I (raise (A := A) e).
Proof. intros s H. exact H. Qed.

Lemma keeps_lift {A} (r : result A) : keeps I (lift r).
Proof. intros s H. exact H. Qed.

Lemma keeps_bind {A B} (m : M S A) (k : A -> M S B) :
  keeps I m -> (forall a, keeps I (k a)) -> keeps I (bind m k).
Proof.
  intros Hm Hk s Hs. unfold bind. specialize (Hm s Hs).
  destruct (m s) as [[e | a] s']; cbn [snd] in *.
  - exact Hm.
  - apply Hk, Hm.
Qed.

Lemma keeps_one_or_none {A} (rows : list A) : keeps I (one_or_none rows).
Proof. destruct rows as [|r [|r' l]]; intros s H; exact H. Qed.

Lemma keeps_for_each {A B} (f : A -> M S B) (l : list A) :
  (forall a, keeps I (f a)) -> keeps I (for_each f l).
Proof.
  intros Hf. induction l as [|a l IH]; cbn [for_each].
  - apply keeps_ret.
  - apply keeps_bind; [apply Hf|]. intros b.
    apply keeps_bind; [apply IH|]. intros bs. apply keeps_ret.
Qed.

End Keeps.

Section KeepsConn.
Variable P : db -> Prop.

Lemma keeps_with_connection {A} (block : M conn A) :
  keeps (on_conn P) block -> keeps P (with_connection block).
Proof.
  intros H d Hd. unfold with_connection.
  specialize (H (Conn d d 0) (conj Hd Hd)).
  destruct (block (Conn d d 0)) as [r c]. exact (proj1 H).
Qed.

Lemma keeps_query {A} (f : db -> A) : keeps (on_conn P) (query f).
Proof. intros c H. exact H. Qed.

Lemma keeps_commit : keeps (on_conn P) commit.
Proof. intros c [_ H]. split; exact H. Qed.

Lemma keeps_SELECT_last_insert_id : keeps (on_conn P) SELECT_last_insert_id.
Proof. intros c H. exact H. Qed.

Lemma keeps_SELECT_businesses_page (limit offset : Z) :
  keeps (on_conn P) (SELECT_businesses_page limit offset).
Proof. intros c H. exact H. Qed.

Lemma keeps_SELECT_reviews_page (limit offset : Z) :
  keeps (on_conn P) (SELECT_reviews_page limit offset).
Proof. intros c H. exact H. Qed.

Lemma keeps_statement {A} (f : db -> option (A * db)) :
  (forall w a w', f w = Some (a, w') -> P w -> P w') ->
  keeps (on_conn P) (statement f).
Proof.
  intros Hf c [Hc Hw]. unfold statement.
  destruct (f (working c)) as [[a w]|] eqn:E; cbn [snd].
  - split; [exact Hc | exact (Hf _ _ _ E Hw)].
  - split; assumption.
Qed.

Lemma keeps_unguarded (m : M db reply) (d : db) :
  keeps P m -> P d -> P (snd (unguarded m d)).
Proof.
  intros H Hd. unfold unguarded. specialize (H d Hd).
  destruct (m d) as [[e | r] d']; exact H.
Qed.

Lemma keeps_try_except (m : M db reply) (a b : reply) (d : db) :
  keeps P m -> P d -> P (snd (try_except m a b d)).
Proof.
  intros H Hd. unfold try_except. specialize (H d Hd).
  destruct (m d) as [[[]|r] d']; exact H.
Qed.

End KeepsConn.

(** One step of the proof that a handler body keeps an invariant. *)
Ltac keeps_step :=
  match goal with
  | |- keeps _ (bind _ _) => apply keeps_bind; [|intro]
  | |- keeps _ (ret _) => apply keeps_ret
  | |- keeps _ (raise _) => apply keeps_raise
  | |- keeps _ (lift _) => apply keeps_lift
  | |- keeps _ (one_or_none _) => apply keeps_one_or_none
  | |- keeps _ (for_each _ _) => apply keeps_for_each; intro
  | |- keeps _ (with_connection _) => apply keeps_with_connection
  | |- keeps _ (query _) => apply keeps_query
  | |- keeps _ commit => apply keeps_commit
  | |- keeps _ SELECT_last_insert_id => apply keeps_SELECT_last_insert_id
  | |- keeps _ (SELECT_businesses_page _ _) =>
      apply keeps_SELECT_businesses_page
  | |- keeps _ (SELECT_reviews_page _ _) => apply keeps_SELECT_reviews_page
  | |- keeps _ (match ?x with _ => _ end) => destruct x
  end.

Ltac keeps_body :=
  unfold SELECT_businesses_by_id, SELECT_businesses_by_owner,
    SELECT_reviews_by_id, SELECT_reviews_by_user, SELECT_1_business,
    SELECT_1_review_of, SELECT_1_review, business_entry, review_entry,
    review_response;
  cbv zeta;
  repeat keeps_step.

Create HintDb statements.

(** *** Keys of the rows *)

Lemma NoDup_map_filter {A B} (key : A -> B) (rows : list A)
  (Hnd : NoDup (map key rows)) (p : A -> bool) :
  NoDup (map key (filter p rows)).
Proof.
  induction rows as [|a rows IH]; simpl; [constructor|].
  simpl in Hnd. apply NoDup_cons_iff in Hnd. destruct Hnd as [Hnotin Hnd].
  destruct (p a); [|apply IH, Hnd].
  simpl. apply NoDup_cons; [|apply IH, Hnd].
  intros Hin. apply Hnotin. apply in_map_iff in Hin.
  destruct Hin as (x & Hx & Hin). apply filter_In in Hin.
  rewrite <- Hx. apply in_map, Hin.
Qed.

Lemma table_ok_filter {A} (key : A -> Z) (p : A -> bool) (l : list A) (seq : Z) :
  table_ok (map key l) seq -> table_ok (map key (filter p l)) seq.
Proof.
  intros [Hnd Hlt]. split; [apply NoDup_map_filter, Hnd|].
  rewrite Forall_forall in *. intros i Hi. apply Hlt.
  apply in_map_iff in Hi. destruct Hi as (x & <- & Hx).
  apply filter_In in Hx. apply in_map, Hx.
Qed.

Lemma table_ok_insert {A} (key : A -> Z) (l : list A) (r : A) (seq : Z) :
  key r = seq ->
  table_ok (map key l) seq -> table_ok (map key (l ++ [r])) (seq + 1).
Proof.
  intros Hk [Hnd Hlt]. rewrite map_app. cbn [map]. split.
  - apply NoDup_app; [exact Hnd | repeat constructor; simpl; tauto |].
    intros i Hi [<- | []].
    rewrite Forall_forall in Hlt. specialize (Hlt _ Hi). lia.
  - apply Forall_app. split.
    + eapply Forall_impl; [|exact Hlt]. cbv beta. intros; lia.
    + repeat constructor. lia.
Qed.

Lemma update_where_keys {A B} (key : A -> B) (p : A -> bool)
  (f : A -> option A) (l l' : list A) :
  (forall x y, f x = Some y -> key y = key x) ->
  update_where p f l = Some l' -> map key l' = map key l.
Proof.
  intros Hf. revert l'. induction l as [|a l IH]; simpl; intros l' H.
  - inversion H. reflexivity.
  - destruct (if p a then f a else Some a) as [a'|] eqn:Ea; [|discriminate].
    destruct (update_where p f l) as [rs|]; [|discriminate].
    inversion H; subst. simpl. rewrite (IH rs eq_refl). f_equal.
    destruct (p a); [apply Hf, Ea | inversion Ea; reflexivity].
Qed.

Section Rows.
Context {E : Engine}.

Lemma business_row_id (id : Z) (o n s c st z : atom) (b : business) :
  business_row id o n s c st z = Some b -> b_id b = id.
Proof.
  unfold business_row.
  destruct (not_null (int_param o)), (not_null (text_param 50 n)),
    (not_null (text_param 100 s)), (not_null (text_param 50 c)),
    (not_null (text_param 2 st)), (not_null (text_param 5 z));
    try discriminate.
  intros H. inversion H. reflexivity.
Qed.

Lemma not_null_Some {A} (x : option (option A)) (a : A) :
  not_null x = Some a -> x = Some (Some a).
Proof. destruct x as [[a'|]|]; simpl; congruence. Qed.

Lemma review_row_Some (id : Z) (u b s t : atom) (r : review) :
  review_row id u b s t = Some r ->
  r_id r = id
  /\ int_param u = Some (Some (user_id r))
  /\ int_param b = Some (Some (business_id r))
  /\ int_param s = Some (stars r) /\ stars_check (stars r) = true
  /\ text_param 1000 t = Some (review_text r).
Proof.
  unfold review_row.
  destruct (not_null (int_param u)) as [u'|] eqn:Hu; [|discriminate].
  destruct (not_null (int_param b)) as [b'|] eqn:Hb; [|discriminate].
  destruct (int_param s) as [s'|]; [|discriminate].
  destruct (text_param 1000 t) as [t'|]; [|discriminate].
  destruct (stars_check s') eqn:Hc; [|discriminate].
  intros H. inversion H; subst. cbn.
  apply not_null_Some in Hu, Hb. repeat split; assumption.
Qed.

Lemma assign_keys (params : dict atom) (part : string) (r r' : review) :
  assign params part r = Some r' ->
  r_id r' = r_id r /\ pair r' = pair r.
Proof.
  unfold assign.
  destruct (String.eqb part "stars = :stars").
  - destruct (dict_get "stars" params) as [v|]; [|discriminate].
    destruct (int_param v) as [s|]; [|discriminate].
    destruct (stars_check s); [|discriminate].
    intros H. inversion H. split; reflexivity.
  - destruct (String.eqb part "review_text = :review_text"); [|discriminate].
    destruct (dict_get "review_text" params) as [v|]; [|discriminate].
    destruct (text_param 1000 v) as [t|]; [|discriminate].
    intros H. inversion H. split; reflexivity.
Qed.

Lemma assign_all_keys (params : dict atom) (parts : list string) (r r' : review) :
  assign_all params parts r = Some r' ->
  r_id r' = r_id r /\ pair r' = pair r.
Proof.
  revert r. induction parts as [|p ps IH]; simpl; intros r H.
  - inversion H. split; reflexivity.
  - destruct (assign params p r) as [r1|] eqn:E1; [|discriminate].
    apply assign_keys in E1. apply IH in H.
    destruct E1 as [? ?], H as [? ?]. split; congruence.
Qed.

End Rows.

(** *** The primary keys are kept by every statement *)

Section PrimaryKeys.
Context {E : Engine}.

Lemma pk_INSERT_businesses (o n s c st z : atom) :
  keeps (on_conn primary_keys) (INSERT_businesses o n s c st z).
Proof.
  intros k [Hc [Hb Hr]]. unfold INSERT_businesses.
  destruct (business_row _ o n s c st z) as [b|] eqn:Eb; cbn [snd].
  - split; [exact Hc|]. split; cbn.
    + apply table_ok_insert; [eapply business_row_id; eauto | exact Hb].
    + exact Hr.
  - split; [exact Hc | split; assumption].
Qed.

Lemma pk_INSERT_reviews (u b s t : atom) :
  keeps (on_conn primary_keys) (INSERT_reviews u b s t).
Proof.
  intros k [Hc [Hb Hr]]. unfold INSERT_reviews.
  destruct (review_row _ u b s t) as [r|] eqn:Er; cbn [snd].
  - split; [exact Hc|]. split; cbn.
    + exact Hb.
    + apply table_ok_insert; [apply (review_row_Some _ _ _ _ _ Er) | exact Hr].
  - split; [exact Hc | split; assumption].
Qed.

Lemma pk_UPDATE_businesses (o n s c st z : atom) (id : Z) :
  keeps (on_conn primary_keys) (UPDATE_businesses o n s c st z id).
Proof.
  apply keeps_statement. intros w a w' H [Hb Hr].
  destruct (update_where _ _ (businesses w)) as [bs|] eqn:Eu; [|discriminate].
  inversion H; subst. split; cbn; [|exact Hr].
  assert (Hk : map b_id bs = map b_id (businesses w)).
  { eapply update_where_keys; [|exact Eu].
    intros x y Hy. eapply business_row_id, Hy. }
  rewrite Hk. exact Hb.
Qed.

Lemma pk_UPDATE_reviews (parts : list string) (params : dict atom) :
  keeps (on_conn primary_keys) (UPDATE_reviews parts params).
Proof.
  apply keeps_statement. intros w a w' H [Hb Hr].
  destruct parts as [|p ps]; [discriminate|].
  destruct (dict_get "id" params) as [[| |id|]|]; try discriminate.
  destruct (update_where _ _ (reviews w)) as [rs|] eqn:Eu; [|discriminate].
  inversion H; subst. split; cbn; [exact Hb|].
  assert (Hk : map r_id rs = map r_id (reviews w)).
  { eapply update_where_keys; [|exact Eu].
    intros x y Hy. eapply assign_all_keys, Hy. }
  rewrite Hk. exact Hr.
Qed.

Lemma pk_DELETE_reviews_of_business (id : Z) :
  keeps (on_conn primary_keys) (DELETE_reviews_of_business id).
Proof.
  apply keeps_statement. intros w a w' H [Hb Hr]. inversion H; subst.
  split; cbn; [exact Hb | apply table_ok_filter, Hr].
Qed.

Lemma pk_DELETE_businesses (id : Z) :
  keeps (on_conn primary_keys) (DELETE_businesses id).
Proof.
  apply keeps_statement. intros w a w' H [Hb Hr]. inversion H; subst.
  split; cbn; [apply table_ok_filter, Hb | exact Hr].
Qed.

Lemma pk_DELETE_reviews (id : Z) :
  keeps (on_conn primary_keys) (DELETE_reviews id).
Proof.
  apply keeps_statement. intros w a w' H [Hb Hr]. inversion H; subst.
  split; cbn; [exact Hb | apply table_ok_filter, Hr].
Qed.

End PrimaryKeys.

#[local] Hint Resolve pk_INSERT_businesses pk_INSERT_reviews
  pk_UPDATE_businesses pk_UPDATE_reviews pk_DELETE_reviews_of_business
  pk_DELETE_businesses pk_DELETE_reviews : statements.

(** *** One review per pair is kept by all statements but the INSERT *)

Section Pairs.
Context {E : Engine}.

Lemma pairs_INSERT_businesses (o n s c st z : atom) :
  keeps (on_conn one_review_per_pair) (INSERT_businesses o n s c st z).
Proof.
  intros k [Hc Hw]. unfold INSERT_businesses.
  destruct (business_row _ o n s c st z); cbn [snd]; split; assumption.
Qed.

Lemma pairs_UPDATE_businesses (o n s c st z : atom) (id : Z) :
  keeps (on_conn one_review_per_pair) (UPDATE_businesses o n s c st z id).
Proof.
  apply keeps_statement. intros w a w' H Hw.
  destruct (update_where _ _ (businesses w)); [|discriminate].
  inversion H; subst. exact Hw.
Qed.

Lemma pairs_UPDATE_reviews (parts : list string) (params : dict atom) :
  keeps (on_conn one_review_per_pair) (UPDATE_reviews parts params).
Proof.
  apply keeps_statement. intros w a w' H Hw.
  destruct parts as [|p ps]; [discriminate|].
  destruct (dict_get "id" params) as [[| |id|]|]; try discriminate.
  destruct (update_where _ _ (reviews w)) as [rs|] eqn:Eu; [|discriminate].
  inversion H; subst. unfold one_review_per_pair. cbn.
  assert (Hk : map pair rs = map pair (reviews w)).
  { eapply update_where_keys; [|exact Eu].
    intros x y Hy. eapply assign_all_keys, Hy. }
  rewrite Hk. exact Hw.
Qed.

Lemma pairs_DELETE_reviews_of_business (id : Z) :
  keeps (on_conn one_review_per_pair) (DELETE_reviews_of_business id).
Proof.
  apply keeps_statement. intros w a w' H Hw. inversion H; subst.
  apply NoDup_map_filter, Hw.
Qed.

Lemma pairs_DELETE_businesses (id : Z) :
  keeps (on_conn one_review_per_pair) (DELETE_businesses id).
Proof.
  apply keeps_statement. intros w a w' H Hw. inversion H; subst. exact Hw.
Qed.

Lemma pairs_DELETE_reviews (id : Z) :
  keeps (on_conn one_review_per_pair) (DELETE_reviews id).
Proof.
  apply keeps_statement. intros w a w' H Hw. inversion H; subst.
  apply NoDup_map_filter, Hw.
Qed.

End Pairs.

#[local] Hint Resolve pairs_INSERT_businesses pairs_UPDATE_businesses
  pairs_UPDATE_reviews pairs_DELETE_reviews_of_business pairs_DELETE_businesses
  pairs_DELETE_reviews : statements.

(** A handler whose body is made of statements that keep [P] keeps [P]. *)
Ltac handler_keeps :=
  first [apply keeps_unguarded | apply keeps_try_except];
  [keeps_body; cbv beta; repeat (keeps_body; cbv beta);
   auto with statements
  | assumption].

Lemma primary_keys_handle {E : Engine} (r : route) (rq : request) (d : db) :
  primary_keys d -> primary_keys (snd (handle r rq d)).
Proof.
  intros H. destruct r; cbn [handle].
  - exact H.
  - unfold post_businesses. handler_keeps.
  - unfold get_business. handler_keeps.
  - unfold put_business. handler_keeps.
  - unfold delete_business. handler_keeps.
  - unfold get_businesses. handler_keeps.
  - unfold get_bussiness_by_owner. handler_keeps.
  - unfold post_review. cbv zeta.
    destruct (filter _ _); [|exact H]. handler_keeps.
  - unfold get_review. handler_keeps.
  - unfold put_review. cbv zeta.
    destruct (negb _); [exact H|].
    destruct (update_fields _) as [[|p ps] params]; [exact H|].
    handler_keeps.
  - unfold delete_review. handler_keeps.
  - unfold get_review_by_user. handler_keeps.
  - unfold get_reviews. handler_keeps.
Qed.

(** The ids of a reachable store are primary keys. *)
Lemma reachable_primary_keys {E : Engine} (d : db) :
  reachable d -> primary_keys d.
Proof.
  induction 1 as [|r rq d _ IH].
  - repeat split; constructor.
  - apply primary_keys_handle, IH.
Qed.

(** ** One review per user and business *)

Section OneReview.
Context {E : Engine}.
Hypothesis E_coherent : coherent E.

(** Every reply of [post_review]. *)
Lemma post_review_cases (rq : request) (d : db) :
  post_review rq d = (Reply ERROR_BAD_REQUEST 400, d)
  \/ exists u b s,
      dict_get "user_id" (get_json rq) = Some u
      /\ dict_get "business_id" (get_json rq) = Some b
      /\ dict_get "stars" (get_json rq) = Some s
      /\ post_review rq d
         = if existsb (fun x => int_eq (b_id x) b) (businesses d) then
             if existsb (fun r => int_eq (user_id r) u
                                  && int_eq (business_id r) b) (reviews d)
             then (Reply ERROR_CONFLICT 409, d)
             else
               match review_row (reviews_seq d) u b s
                       (dict_get_default (get_json rq) "review_text" (AStr ""))
               with
               | Some r =>
                   (Reply (created_review_json rq (reviews_seq d) u b s
                             (dict_get_default (get_json rq) "review_text"
                                               (AStr ""))) 201,
                    with_review d r)
               | None =>
                   (Reply (obj [("Error", AStr "Unable to create review")]) 500, d)
               end
           else (Reply ERROR_NOT_FOUND 404, d).
Proof.
  destruct (dict_get "user_id" (get_json rq)) as [u|] eqn:Hu.
  2:{ left. apply post_review_missing. left. unfold dict_mem. rewrite Hu.
      reflexivity. }
  destruct (dict_get "business_id" (get_json rq)) as [b|] eqn:Hb.
  2:{ left. apply post_review_missing. right. left. unfold dict_mem.
      rewrite Hb. reflexivity. }
  destruct (dict_get "stars" (get_json rq)) as [s|] eqn:Hs.
  2:{ left. apply post_review_missing. right. right. unfold dict_mem.
      rewrite Hs. reflexivity. }
  right. exists u, b, s. repeat split.
  apply (post_review_run rq d Hu Hb Hs).
Qed.

(** A row the INSERT of [post_review] adds was looked for, and not found,
    by the SELECT before it. *)
Lemma inserted_pair_is_new (d : db) (u b : atom) (r : review) :
  int_param u = Some (Some (user_id r)) ->
  int_param b = Some (Some (business_id r)) ->
  existsb (fun x => int_eq (user_id x) u && int_eq (business_id x) b)
          (reviews d) = false ->
  forall r0, In r0 (reviews d) -> pair r0 <> pair r.
Proof.
  intros Hu Hb Hex r0 Hin Heq.
  assert (Ht : existsb (fun x => int_eq (user_id x) u && int_eq (business_id x) b)
                       (reviews d) = true).
  { apply existsb_exists. exists r0. split; [exact Hin|].
    unfold pair in Heq. inversion Heq as [[H1 H2]].
    rewrite H1, H2.
    rewrite (E_coherent _ Hu), (E_coherent _ Hb). reflexivity. }
  congruence.
Qed.

(** What a 201 from [post_review] means. *)
Lemma post_review_201 (rq : request) (d : db) (body : json) (d' : db) :
  post_review rq d = (Reply body 201, d') ->
  exists u b s r,
    dict_get "user_id" (get_json rq) = Some u
    /\ dict_get "business_id" (get_json rq) = Some b
    /\ dict_get "stars" (get_json rq) = Some s
    /\ existsb (fun x => int_eq (b_id x) b) (businesses d) = true
    /\ existsb (fun x => int_eq (user_id x) u && int_eq (business_id x) b)
               (reviews d) = false
    /\ int_param u = Some (Some (user_id r))
    /\ int_param b = Some (Some (business_id r))
    /\ d' = with_review d r.
Proof.
  intros H.
  destruct (post_review_cases rq d) as [H400 | (u & b & s & Hu & Hb & Hs & Hrun)].
  - rewrite H400 in H. discriminate.
  - rewrite Hrun in H. exists u, b, s.
    destruct (existsb _ (businesses d)) eqn:Hbe; [|discriminate].
    destruct (existsb _ (reviews d)) eqn:Hre; [discriminate|].
    destruct (review_row _ u b s _) as [r|] eqn:Hrow; [|discriminate].
    exists r. apply review_row_Some in Hrow.
    destruct Hrow as (_ & Hu' & Hb' & _).
    inversion H. repeat split; assumption.
Qed.

Lemma pairs_post_review (rq : request) (d : db) :
  one_review_per_pair d -> one_review_per_pair (snd (post_review rq d)).
Proof.
  intros H.
  destruct (post_review_cases rq d) as [H400 | (u & b & s & Hu & Hb & Hs & Hrun)].
  - rewrite H400. exact H.
  - rewrite Hrun.
    destruct (existsb _ (businesses d)); [|exact H].
    destruct (existsb _ (reviews d)) eqn:Hre; [exact H|].
    destruct (review_row _ u b s _) as [r|] eqn:Hrow; [|exact H].
    apply review_row_Some in Hrow. destruct Hrow as (_ & Hu' & Hb' & _).
    unfold one_review_per_pair, with_review. cbn [snd reviews].
    rewrite map_app. cbn [map].
    apply NoDup_app; [exact H | repeat constructor; simpl; tauto |].
    intros p Hp [<- | []].
    apply in_map_iff in Hp. destruct Hp as (r0 & Heq & Hin).
    eapply inserted_pair_is_new; eauto.
Qed.

Lemma pairs_handle (r : route) (rq : request) (d : db) :
  one_review_per_pair d -> one_review_per_pair (snd (handle r rq d)).
Proof.
  intros H. destruct r; cbn [handle].
  - exact H.
  - unfold post_businesses. handler_keeps.
  - unfold get_business. handler_keeps.
  - unfold put_business. handler_keeps.
  - unfold delete_business. handler_keeps.
  - unfold get_businesses. handler_keeps.
  - unfold get_bussiness_by_owner. handler_keeps.
  - apply pairs_post_review, H.
  - unfold get_review. handler_keeps.
  - unfold put_review. cbv zeta.
    destruct (negb _); [exact H|].
    destruct (update_fields _) as [[|p ps] params]; [exact H|].
    handler_keeps.
  - unfold delete_review. handler_keeps.
  - unfold get_review_by_user. handler_keeps.
  - unfold get_reviews. handler_keeps.
Qed.

Lemma second_post_review_conflicts (rq rq' : request) (d : db) (body : json)
  (d' : db) :
  post_review rq d = (Reply body 201, d') ->
  dict_get "user_id" (get_json rq') = dict_get "user_id" (get_json rq) ->
  dict_get "business_id" (get_json rq') = dict_get "business_id" (get_json rq) ->
  dict_mem "stars" (get_json rq') = true ->
  post_review rq' d' = (Reply ERROR_CONFLICT 409, d').
Proof.
  intros H Hu' Hb' Hs'.
  apply post_review_201 in H.
  destruct H as (u & b & s & r & Hu & Hb & Hs & Hbe & Hre & Hpu & Hpb & ->).
  rewrite Hu in Hu'. rewrite Hb in Hb'.
  unfold dict_mem in Hs'.
  destruct (dict_get "stars" (get_json rq')) as [s'|] eqn:Es; [|discriminate].
  rewrite (post_review_run rq' (with_review d r) Hu' Hb' Es).
  cbn [with_review businesses reviews]. rewrite Hbe.
  rewrite existsb_app. cbn [existsb].
  rewrite (E_coherent _ Hpu), (E_coherent _ Hpb).
  cbn [andb orb]. rewrite orb_true_r. reflexivity.
Qed.

End OneReview.

Lemma reachable_run {E : Engine} (l : list (route * request)) (d : db) :
  reachable d -> reachable (snd (run l d)).
Proof.
  revert d. induction l as [|[r rq] l IH]; intros d Hd; cbn [run].
  - exact Hd.
  - pose proof (reachable_step r rq Hd) as Hstep.
    destruct (handle r rq d) as [a d1]. cbn [snd] in Hstep.
    specialize (IH d1 Hstep). destruct (run l d1) as [rs d2]. exact IH.
Qed.


Lemma plain_engine_coherent : coherent plain_engine.
Proof.
  intros v z H. destruct v as [| b | z' | s]; simpl in *; try discriminate.
  inversion H. apply Z.eqb_refl.
Qed.



(** ** What requests leave alone *)

Ltac reads_nothing d :=
  apply (@keeps_unguarded (fun x => x = d));
  [repeat (keeps_body; cbv beta) | reflexivity].

(** X3: a GET never changes the store, whatever it answers, be it an
    unhandled exception; the two listings that call [conn.commit()] commit
    nothing. *)
Theorem reads_change_nothing {E : Engine} (r : route) (rq : request) (d : db) :
  reads_only r = true -> snd (handle r rq d) = d.
Proof.
  destruct r; try discriminate; intros _; cbn [handle].
  - reflexivity.
  - unfold get_business. reads_nothing d.
  - unfold get_businesses. reads_nothing d.
  - unfold get_bussiness_by_owner. reads_nothing d.
  - unfold get_review. reads_nothing d.
  - unfold get_review_by_user. reads_nothing d.
  - unfold get_reviews. reads_nothing d.
Qed.

Lemma reads_change_nothing_witness :
  snd (handle (E := plain_engine) GET_businesses (sample_request [] [])
              (one_business "ABCDE"))
  = one_business "ABCDE".
Proof. apply (@reads_change_nothing plain_engine). reflexivity. Defined.

(** *** Rows selected by a key *)

Lemma filter_all {A} (p : A -> bool) (l : list A) :
  (forall x, In x l -> p x = true) -> filter p l = l.
Proof.
  induction l as [|a l IH]; simpl; intros H; [reflexivity|].
  rewrite H by (left; reflexivity). f_equal. apply IH.
  intros x Hx. apply H. right. exact Hx.
Qed.

Lemma filter_not_key_twice {A} (key : A -> Z) (id : Z) (l : list A) :
  filter (fun x => key x =? id) (filter (fun x => negb (key x =? id)) l) = [].
Proof.
  apply filter_nil. intros x Hx. apply filter_In in Hx.
  destruct Hx as [_ Hx]. apply negb_true_iff in Hx. exact Hx.
Qed.

(** A key of the table selects no row or one row. *)
Lemma filter_key_cases {A} (key : A -> Z) (id : Z) (l : list A) :
  NoDup (map key l) ->
  filter (fun x => key x =? id) l = []
  \/ exists r, In r l /\ key r = id
               /\ filter (fun x => key x =? id) l = [r].
Proof.
  intros Hnd.
  destruct (filter (fun x => key x =? id) l) as [|r rest] eqn:Hf;
    [left; reflexivity | right].
  assert (Hr : In r (filter (fun x => key x =? id) l))
    by (rewrite Hf; left; reflexivity).
  apply filter_In in Hr. destruct Hr as [Hin Hk]. apply Z.eqb_eq in Hk.
  exists r. repeat split; try assumption.
  rewrite <- Hk in Hf. rewrite (filter_key key l r Hnd Hin) in Hf.
  inversion Hf. reflexivity.
Qed.

Lemma filter_none_keeps_all {A} (key : A -> Z) (id : Z) (l : list A) :
  filter (fun x => key x =? id) l = [] ->
  filter (fun x => negb (key x =? id)) l = l.
Proof.
  intros H. apply filter_all. intros x Hx.
  destruct (key x =? id) eqn:Hk; [|reflexivity].
  assert (Hin : In x (filter (fun x => key x =? id) l))
    by (apply filter_In; split; assumption).
  rewrite H in Hin. contradiction.
Qed.

Lemma delete_review_eq (id : Z) (d : db) :
  delete_review id d
  = ((if len (filter (fun r => r_id r =? id) (reviews d)) =? 1
      then Reply (JAtom (AStr "")) 204
      else Reply ERROR_REVIEW_NOT_FOUND 404),
     Db (businesses d)
        (filter (fun r => negb (r_id r =? id)) (reviews d))
        (businesses_seq d) (reviews_seq d)).
Proof.
  unfold delete_review, unguarded, with_connection, bind, DELETE_reviews,
    statement, commit.
  cbn.
  destruct (len (filter (fun r => r_id r =? id) (reviews d)) =? 1);
    reflexivity.
Qed.

Lemma db_eta (d : db) :
  Db (businesses d) (reviews d) (businesses_seq d) (reviews_seq d) = d.
Proof. destruct d; reflexivity. Qed.

(** X4: DELETE /reviews/{id} on a stored review answers 204, removes that
    review and no other row; the same request again answers 404
    review-not-found and changes nothing. *)
Theorem delete_review_twice (id : Z) (d : db) (r : review) :
  NoDup (map r_id (reviews d)) -> In r (reviews d) -> r_id r = id ->
  let d' := snd (delete_review id d) in
  fst (delete_review id d) = Reply (JAtom (AStr "")) 204
  /\ businesses d' = businesses d
  /\ ~ In r (reviews d')
  /\ (forall x, In x (reviews d) -> r_id x <> id -> In x (reviews d'))
  /\ (forall x, In x (reviews d') -> In x (reviews d))
  /\ delete_review id d' = (Reply ERROR_REVIEW_NOT_FOUND 404, d').
Proof.
  intros Hnd Hin Hid d'. subst d'. rewrite !delete_review_eq.
  cbn [fst snd businesses reviews businesses_seq reviews_seq].
  assert (Hf : filter (fun x => r_id x =? id) (reviews d) = [r])
    by (rewrite <- Hid; apply filter_key; assumption).
  rewrite Hf. split; [reflexivity|]. split; [reflexivity|].
  split; [|split; [|split]].
  - intros H. apply filter_In in H. destruct H as [_ H].
    rewrite Hid, Z.eqb_refl in H. discriminate.
  - intros x Hx Hne. apply filter_In. split; [exact Hx|].
    apply negb_true_iff, Z.eqb_neq, Hne.
  - intros x Hx. apply filter_In in Hx. apply Hx.
  - rewrite filter_not_key_twice. cbn [len List.length Z.of_nat Z.eqb].
    f_equal. f_equal.
    apply filter_all. intros x Hx. apply filter_In in Hx. apply Hx.
Qed.

Lemma delete_review_twice_witness :
  fst (delete_review 1 reviewed_business) = Reply (JAtom (AStr "")) 204
  /\ delete_review 1 (snd (delete_review 1 reviewed_business))
     = (Reply ERROR_REVIEW_NOT_FOUND 404, snd (delete_review 1 reviewed_business)).
Proof.
  assert (Hnd : NoDup (map r_id (reviews reviewed_business)))
    by (repeat constructor; simpl; tauto).
  assert (Hin : In (Review 1 5 1 (Some 3) (Some "Good"))
                   (reviews reviewed_business))
    by (left; reflexivity).
  destruct (@delete_review_twice 1 reviewed_business
              (Review 1 5 1 (Some 3) (Some "Good")) Hnd Hin eq_refl)
    as (H1 & _ & _ & _ & _ & H6).
  split; [exact H1 | exact H6].
Defined.

(** X5: after DELETE /businesses/{id} the business cannot be fetched and a
    second DELETE answers 404; the businesses with another id and the reviews
    of another business are all still there. *)
Theorem deleted_business_is_gone (rq : request) (id : Z) (d : db) :
  let d' := snd (delete_business id d) in
  get_business rq id d' = (Reply ERROR_NOT_FOUND 404, d')
  /\ delete_business id d' = (Reply ERROR_NOT_FOUND 404, d')
  /\ (forall b, In b (businesses d) -> b_id b <> id -> In b (businesses d'))
  /\ (forall r, In r (reviews d) -> business_id r <> id -> In r (reviews d')).
Proof.
  intros d'. subst d'. rewrite !delete_business_eq.
  cbn [fst snd businesses reviews businesses_seq reviews_seq].
  split; [|split; [|split]].
  - rewrite get_business_run. cbn [businesses].
    rewrite filter_not_key_twice. reflexivity.
  - rewrite filter_not_key_twice. cbn [len List.length Z.of_nat Z.eqb].
    f_equal. f_equal.
    + apply filter_all. intros x Hx. apply filter_In in Hx. apply Hx.
    + apply filter_all. intros x Hx. apply filter_In in Hx. apply Hx.
  - intros b Hb Hne. apply filter_In. split; [exact Hb|].
    apply negb_true_iff, Z.eqb_neq, Hne.
  - intros r Hr Hne. apply filter_In. split; [exact Hr|].
    apply negb_true_iff, Z.eqb_neq, Hne.
Qed.

(** ** Creating, replacing and fetching a business *)

(** X6: POST /businesses answers 400 and stores nothing when one of the six
    members is missing from the body; with all six it stores the row under
    the next id and answers 201 with the members as sent, that id and a self
    URL, unless the store rejects the row, which gives 500 and no row. *)
Theorem post_businesses_classification {E : Engine} (rq : request) (d : db) :
  let content := get_json rq in
  ((exists k,
       In k ["owner_id"; "name"; "street_address"; "city"; "state"; "zip_code"]
       /\ dict_get k content = None) ->
   post_businesses rq d = (Reply ERROR_BAD_REQUEST 400, d))
  /\ (forall o n s c st z,
      dict_get "owner_id" content = Some o ->
      dict_get "name" content = Some n ->
      dict_get "street_address" content = Some s ->
      dict_get "city" content = Some c ->
      dict_get "state" content = Some st ->
      dict_get "zip_code" content = Some z ->
      (forall b,
          business_row (businesses_seq d) o n s c st z = Some b ->
          post_businesses rq d
          = (Reply (obj [("id", AInt (businesses_seq d)); ("owner_id", o);
                         ("name", n); ("street_address", s); ("city", c);
                         ("state", st); ("zip_code", z);
                         ("self", AStr (base_url rq +++ "/"
                                        +++ str_of_Z (businesses_seq d)))])
                   201,
             Db (businesses d ++ [b]) (reviews d) (businesses_seq d + 1)
                (reviews_seq d)))
      /\ (business_row (businesses_seq d) o n s c st z = None ->
          post_businesses rq d
          = (Reply (obj [("Error", AStr "Unable to create business")]) 500, d))).
Proof.
  intros content. split.
  - intros (k & Hin & Hk). rewrite post_businesses_run. cbv zeta.
    fold content. cbn [In] in Hin.
    destruct Hin as [<- | [<- | [<- | [<- | [<- | [<- | []]]]]]];
      rewrite Hk;
      repeat match goal with
             | |- context [match dict_get ?k ?c with _ => _ end] =>
                 destruct (dict_get k c)
             end;
      reflexivity.
  - intros o n s c st z Ho Hn Hs Hc Hst Hz.
    rewrite post_businesses_run. cbv zeta. fold content.
    rewrite Ho, Hn, Hs, Hc, Hst, Hz. split.
    + intros b Hb. rewrite Hb. reflexivity.
    + intros Hb. rewrite Hb. reflexivity.
Qed.

Lemma post_businesses_classification_witness :
  post_businesses (E := plain_engine)
    (sample_request [] [("owner_id", AInt 7); ("name", AStr "Cafe")])
    (one_business "97330")
  = (Reply ERROR_BAD_REQUEST 400, one_business "97330").
Proof.
  apply (@post_businesses_classification plain_engine).
  exists "zip_code". split; [cbn; tauto | reflexivity].
Defined.

Lemma filter_key_appended {A} (key : A -> Z) (seq : Z) (l : list A) (r : A) :
  table_ok (map key l) seq -> key r = seq ->
  filter (fun x => key x =? seq) (l ++ [r]) = [r].
Proof.
  intros [_ Hlt] Hk. rewrite filter_app. cbn [filter].
  rewrite Hk, Z.eqb_refl. rewrite filter_nil; [reflexivity|].
  intros x Hx. apply Z.eqb_neq.
  rewrite Forall_forall in Hlt. specialize (Hlt (key x) (in_map key l x Hx)).
  lia.
Qed.

(** What a 201 from [post_businesses] means. *)
Lemma post_businesses_201 {E : Engine} (rq : request) (d : db) (body : json)
  (d' : db) :
  post_businesses rq d = (Reply body 201, d') ->
  exists o n s c st z b,
    dict_get "owner_id" (get_json rq) = Some o
    /\ dict_get "name" (get_json rq) = Some n
    /\ dict_get "street_address" (get_json rq) = Some s
    /\ dict_get "city" (get_json rq) = Some c
    /\ dict_get "state" (get_json rq) = Some st
    /\ dict_get "zip_code" (get_json rq) = Some z
    /\ business_row (businesses_seq d) o n s c st z = Some b
    /\ body = echoed_business_json (businesses_seq d) o n s c st z
                (base_url rq +++ "/" +++ str_of_Z (businesses_seq d))
    /\ d' = Db (businesses d ++ [b]) (reviews d) (businesses_seq d + 1)
               (reviews_seq d).
Proof.
  rewrite post_businesses_run. cbv zeta.
  destruct (dict_get "owner_id" (get_json rq)) as [o|]; [|discriminate].
  destruct (dict_get "name" (get_json rq)) as [n|]; [|discriminate].
  destruct (dict_get "street_address" (get_json rq)) as [s|]; [|discriminate].
  destruct (dict_get "city" (get_json rq)) as [c|]; [|discriminate].
  destruct (dict_get "state" (get_json rq)) as [st|]; [|discriminate].
  destruct (dict_get "zip_code" (get_json rq)) as [z|]; [|discriminate].
  destruct (business_row _ o n s c st z) as [b|] eqn:Hb; [|discriminate].
  intros H. inversion H. exists o, n, s, c, st, z, b.
  repeat split. exact Hb.
Qed.

(** X7: a business that POST /businesses created (201) is what
    GET /businesses/{id} returns for the id of the reply: the stored row
    with its zip code as an integer, or an unhandled ValueError when the zip
    code that was sent does not read as one. *)
Theorem created_business_is_fetched {E : Engine} (rq rq' : request) (d : db)
  (body : json) (d' : db) :
  primary_keys d ->
  post_businesses rq d = (Reply body 201, d') ->
  exists b,
    businesses d' = (businesses d ++ [b])%list
    /\ member "id" body = Some (JAtom (AInt (b_id b)))
    /\ member "self" body
       = Some (JAtom (AStr (base_url rq +++ "/" +++ str_of_Z (b_id b))))
    /\ (forall z, int_of_string (zip_code b) = Some z ->
        get_business rq' (b_id b) d'
        = (Reply (business_json rq' b (AInt z)) 200, d'))
    /\ (int_of_string (zip_code b) = None ->
        get_business rq' (b_id b) d' = (Unhandled ValueError, d')).
Proof.
  intros [Hpk _] H. apply post_businesses_201 in H.
  destruct H as (o & n & s & c & st & z & b & _ & _ & _ & _ & _ & _
                 & Hb & -> & ->).
  pose proof (business_row_id _ _ _ _ _ _ _ Hb) as Hid.
  exists b. cbn [businesses]. rewrite Hid.
  split; [reflexivity|]. split; [reflexivity|]. split; [reflexivity|].
  assert (Hf : filter (fun x => b_id x =? businesses_seq d)
                      (businesses d ++ [b]) = [b])
    by (apply filter_key_appended; assumption).
  split.
  - intros zz Hz. rewrite get_business_run. cbn [businesses].
    rewrite Hf, Hz. unfold business_json. rewrite Hid. reflexivity.
  - intros Hz. rewrite get_business_run. cbn [businesses].
    rewrite Hf, Hz. reflexivity.
Qed.

Lemma created_business_is_fetched_witness :
  exists b,
    businesses (one_business "97330") = ([] ++ [b])%list
    /\ member "id" (body_of (fst (post_businesses (E := plain_engine)
                                    string_zip_business empty_db)))
       = Some (JAtom (AInt (b_id b)))
    /\ member "self" (body_of (fst (post_businesses (E := plain_engine)
                                      string_zip_business empty_db)))
       = Some (JAtom (AStr (base_url string_zip_business +++ "/"
                            +++ str_of_Z (b_id b))))
    /\ (forall z, int_of_string (zip_code b) = Some z ->
        get_business (sample_request [] []) (b_id b) (one_business "97330")
        = (Reply (business_json (sample_request [] []) b (AInt z)) 200,
           one_business "97330"))
    /\ (int_of_string (zip_code b) = None ->
        get_business (sample_request [] []) (b_id b) (one_business "97330")
        = (Unhandled ValueError, one_business "97330")).
Proof.
  apply (@created_business_is_fetched plain_engine string_zip_business
           (sample_request [] []) empty_db).
  - repeat split; constructor.
  - reflexivity.
Defined.

(** X8: PUT /businesses/{id} on a stored business, with the six members in
    the body and a row the store accepts, replaces every column of that row
    and keeps its id, leaves the other businesses and all reviews as they
    were, and answers 200 with the members as sent; a GET /businesses/{id}
    afterwards returns the new columns, with the zip code as the integer the
    new stored string reads as, and raises ValueError when that string does
    not read as an integer. *)
Theorem put_business_replaces {E : Engine} (rq rq' : request) (id : Z)
  (d : db) (b0 : business) :
  NoDup (map b_id (businesses d)) -> In b0 (businesses d) -> b_id b0 = id ->
  forall o n s c st z b,
    dict_get "owner_id" (get_json rq) = Some o ->
    dict_get "name" (get_json rq) = Some n ->
    dict_get "street_address" (get_json rq) = Some s ->
    dict_get "city" (get_json rq) = Some c ->
    dict_get "state" (get_json rq) = Some st ->
    dict_get "zip_code" (get_json rq) = Some z ->
    business_row id o n s c st z = Some b ->
    let d' := Db (map (fun x => if b_id x =? id then b else x) (businesses d))
                 (reviews d) (businesses_seq d) (reviews_seq d) in
    put_business rq id d
    = (Reply (obj [("id", AInt id); ("owner_id", o); ("name", n);
                   ("street_address", s); ("city", c); ("state", st);
                   ("zip_code", z);
                   ("self", AStr (url_root rq +++ "businesses/"
                                  +++ str_of_Z id))]) 200, d')
    /\ b_id b = id
    /\ In b (businesses d')
    /\ (forall x, In x (businesses d) -> b_id x <> id -> In x (businesses d'))
    /\ (forall zz, int_of_string (zip_code b) = Some zz ->
        get_business rq' id d' = (Reply (business_json rq' b (AInt zz)) 200, d'))
    /\ (int_of_string (zip_code b) = None ->
        get_business rq' id d' = (Unhandled ValueError, d')).
Proof.
  intros Hnd Hin Hid o n s c st z b Ho Hn Hs Hc Hst Hz Hb d'.
  pose proof (business_row_id _ _ _ _ _ _ _ Hb) as Hbid.
  assert (Hf : filter (fun x => b_id x =? id) (businesses d) = [b0])
    by (rewrite <- Hid; apply filter_key; assumption).
  assert (Hf' : filter (fun x => b_id x =? id) (businesses d') = [b]).
  { cbn [businesses d'].
    rewrite (@filter_map_key _ b_id (fun x => if b_id x =? id then b else x))
      by (intros x; destruct (b_id x =? id) eqn:Hx;
          [apply Z.eqb_eq in Hx; congruence | reflexivity]).
    rewrite Hf. cbn [map]. rewrite Hid, Z.eqb_refl. reflexivity. }
  split; [|split; [exact Hbid | split; [|split; [|split]]]].
  - rewrite put_business_run. cbv zeta.
    rewrite Hf, Ho, Hn, Hs, Hc, Hst, Hz.
    rewrite (@update_where_total _ _ _ (fun _ => b)); [reflexivity|].
    intros x _ Hx. apply Z.eqb_eq in Hx. rewrite Hx. exact Hb.
  - cbn [businesses d']. apply in_map_iff. exists b0.
    rewrite Hid, Z.eqb_refl. auto.
  - intros x Hx Hne. cbn [businesses d']. apply in_map_iff. exists x.
    apply Z.eqb_neq in Hne. rewrite Hne. auto.
  - intros zz Hzz. rewrite get_business_run, Hf', Hzz.
    unfold business_json. rewrite Hbid. reflexivity.
  - intros Hzz. rewrite get_business_run, Hf', Hzz. reflexivity.
Qed.

Lemma put_business_replaces_witness :
  put_business (E := plain_engine)
    (sample_request [] (sample_business (AInt 97331))) 1 (one_business "97330")
  = (Reply (obj [("id", AInt 1); ("owner_id", AInt 7); ("name", AStr "Cafe");
                 ("street_address", AStr "1 Main St");
                 ("city", AStr "Corvallis"); ("state", AStr "OR");
                 ("zip_code", AInt 97331);
                 ("self", AStr "http://localhost:8080/businesses/1")]) 200,
     one_business "97331")
  /\ get_business (sample_request [] []) 1 (one_business "97331")
     = (Reply (business_json (sample_request [] [])
                 (Business 1 7 "Cafe" "1 Main St" "Corvallis" "OR" "97331")
                 (AInt 97331)) 200, one_business "97331").
Proof.
  assert (Hnd : NoDup (map b_id (businesses (one_business "97330"))))
    by (repeat constructor; simpl; tauto).
  assert (Hin : In (Business 1 7 "Cafe" "1 Main St" "Corvallis" "OR" "97330")
                   (businesses (one_business "97330")))
    by (left; reflexivity).
  destruct (@put_business_replaces plain_engine
              (sample_request [] (sample_business (AInt 97331)))
              (sample_request [] []) 1 (one_business "97330") _ Hnd Hin eq_refl
              (AInt 7) (AStr "Cafe") (AStr "1 Main St") (AStr "Corvallis")
              (AStr "OR") (AInt 97331)
              (Business 1 7 "Cafe" "1 Main St" "Corvallis" "OR" "97331")
              eq_refl eq_refl eq_refl eq_refl eq_refl eq_refl eq_refl)
    as (H & _ & _ & _ & Hg & _).
  split; [exact H | apply Hg; reflexivity].
Defined.

(** ** Creating, updating and fetching a review *)

(** X9: a review that POST /reviews created (201) is stored under the id of
    the reply, and GET /reviews/{id} returns it with its business URL. *)
Theorem created_review_is_fetched {E : Engine} (rq rq' : request) (d : db)
  (body : json) (d' : db) :
  primary_keys d ->
  post_review rq d = (Reply body 201, d') ->
  exists r,
    reviews d' = (reviews d ++ [r])%list
    /\ businesses d' = businesses d
    /\ member "id" body = Some (JAtom (AInt (r_id r)))
    /\ member "self" body
       = Some (JAtom (AStr (base_url rq +++ "/" +++ str_of_Z (r_id r))))
    /\ get_review rq' (r_id r) d' = (Reply (review_json rq' r) 200, d').
Proof.
  intros [_ Hpk] H.
  destruct (post_review_cases rq d) as [H400 | (u & b & s & _ & _ & _ & Hrun)].
  - rewrite H400 in H. discriminate.
  - rewrite Hrun in H.
    destruct (existsb _ (businesses d)); [|discriminate].
    destruct (existsb _ (reviews d)); [discriminate|].
    destruct (review_row _ u b s _) as [r|] eqn:Hrow; [|discriminate].
    inversion H; subst. exists r.
    apply review_row_Some in Hrow. destruct Hrow as (Hid & _).
    cbn [with_review reviews businesses]. rewrite Hid.
    repeat split.
    rewrite <- Hid at 1. apply get_review_found. cbn [reviews].
    rewrite Hid. apply filter_key_appended; assumption.
Qed.

Lemma created_review_is_fetched_witness :
  exists r,
    reviews reviewed_business = ([] ++ [r])%list
    /\ businesses reviewed_business = businesses (one_business "97330")
    /\ member "id"
         (body_of (fst (post_review (E := plain_engine)
                          (sample_request []
                             [("user_id", AInt 5); ("business_id", AInt 1);
                              ("stars", AInt 3); ("review_text", AStr "Good")])
                          (one_business "97330"))))
       = Some (JAtom (AInt (r_id r)))
    /\ member "self"
         (body_of (fst (post_review (E := plain_engine)
                          (sample_request []
                             [("user_id", AInt 5); ("business_id", AInt 1);
                              ("stars", AInt 3); ("review_text", AStr "Good")])
                          (one_business "97330"))))
       = Some (JAtom (AStr ("http://localhost:8080/businesses" +++ "/"
                            +++ str_of_Z (r_id r))))
    /\ get_review (sample_request [] []) (r_id r) reviewed_business
       = (Reply (review_json (sample_request [] []) r) 200, reviewed_business).
Proof.
  apply (@created_review_is_fetched plain_engine
           (sample_request []
              [("user_id", AInt 5); ("business_id", AInt 1);
               ("stars", AInt 3); ("review_text", AStr "Good")])
           (sample_request [] []) (one_business "97330")).
  - repeat split; repeat constructor; simpl; try tauto; lia.
  - reflexivity.
Defined.

Lemma update_fields_both (content : dict atom) (v t : atom) :
  dict_get "stars" content = Some v ->
  dict_get "review_text" content = Some t ->
  update_fields content
  = (["stars = :stars"; "review_text = :review_text"],
     [("stars", v); ("review_text", t)]).
Proof. intros Hv Ht. unfold update_fields. rewrite Hv, Ht. reflexivity. Qed.

(** X10: on a stored review, a PUT /reviews/{id} whose body has stars and
    review_text, both with values the columns accept, replaces the two and
    nothing else: id, user and business of the review stay, the other
    reviews and the businesses stay, and the reply shows the new stars and
    the new text. *)
Theorem put_review_stars_and_text {E : Engine} (rq : request) (id : Z)
  (d : db) (r : review) :
  NoDup (map r_id (reviews d)) -> In r (reviews d) -> r_id r = id ->
  forall v t s t',
    dict_get "stars" (get_json rq) = Some v ->
    dict_get "review_text" (get_json rq) = Some t ->
    int_param v = Some s -> stars_check s = true ->
    text_param 1000 t = Some t' ->
    let r' := Review id (user_id r) (business_id r) s t' in
    put_review rq id d
    = (Reply (review_json rq r') 200,
       Db (businesses d)
          (map (fun x => if r_id x =? id then set_stars_text s t' x else x)
               (reviews d))
          (businesses_seq d) (reviews_seq d))
    /\ In r' (map (fun x => if r_id x =? id then set_stars_text s t' x else x)
                  (reviews d))
    /\ (forall x, In x (reviews d) -> r_id x <> id ->
        In x (map (fun x => if r_id x =? id then set_stars_text s t' x else x)
                  (reviews d))).
Proof.
  intros Hnd Hin Hid v t s t' Hv Ht Hs Hc Htx r'.
  assert (Hmem : dict_mem "stars" (get_json rq) = true)
    by (unfold dict_mem; rewrite Hv; reflexivity).
  assert (Hex : existsb (fun x => r_id x =? id) (reviews d) = true).
  { apply existsb_exists. exists r. split; [assumption | apply Z.eqb_eq, Hid]. }
  assert (Hf : filter (fun x => r_id x =? id) (reviews d) = [r])
    by (rewrite <- Hid; apply filter_key; assumption).
  split; [|split].
  - rewrite (put_review_run rq id d Hmem).
    rewrite (update_fields_both _ Hv Ht). cbn [fst snd]. rewrite Hex.
    rewrite (@update_where_total _ _ _ (set_stars_text s t')).
    2:{ intros x _ _. cbn. rewrite Hs, Hc. cbn. rewrite Htx. reflexivity. }
    cbv zeta.
    rewrite (@filter_map_key _ r_id
               (fun x => if r_id x =? id then set_stars_text s t' x else x))
      by (intros x; destruct (r_id x =? id); reflexivity).
    rewrite Hf. cbn [map]. rewrite Hid, Z.eqb_refl.
    unfold updated_review_json, review_json, set_stars_text, r'.
    cbn [r_id user_id business_id stars review_text]. rewrite Hid.
    reflexivity.
  - apply in_map_iff. exists r. rewrite Hid, Z.eqb_refl.
    unfold set_stars_text, r'. rewrite Hid. auto.
  - intros x Hx Hne. apply in_map_iff. exists x.
    apply Z.eqb_neq in Hne. rewrite Hne. auto.
Qed.

Lemma put_review_stars_and_text_witness :
  put_review (E := plain_engine)
    (sample_request [] [("stars", AInt 1); ("review_text", AStr "Bad")]) 1
    reviewed_business
  = (Reply (review_json (sample_request [] [])
              (Review 1 5 1 (Some 1) (Some "Bad"))) 200,
     Db (businesses reviewed_business)
        [Review 1 5 1 (Some 1) (Some "Bad")] 2 2).
Proof.
  assert (Hnd : NoDup (map r_id (reviews reviewed_business)))
    by (repeat constructor; simpl; tauto).
  assert (Hin : In (Review 1 5 1 (Some 3) (Some "Good"))
                   (reviews reviewed_business))
    by (left; reflexivity).
  destruct (@put_review_stars_and_text plain_engine
              (sample_request [] [("stars", AInt 1); ("review_text", AStr "Bad")])
              1 reviewed_business _ Hnd Hin eq_refl
              (AInt 1) (AStr "Bad") (Some 1) (Some "Bad")
              eq_refl eq_refl eq_refl eq_refl eq_refl)
    as [H _].
  exact H.
Defined.

(** [put_review] answers 404 only to the first SELECT: the row the UPDATE
    wrote is there for the SELECT after it. *)
Lemma updated_row_is_selected {A} (key : A -> Z) (id : Z) (f : A -> option A)
  (l l' : list A) :
  (forall x y, f x = Some y -> key y = key x) ->
  update_where (fun x => key x =? id) f l = Some l' ->
  existsb (fun x => key x =? id) l = true ->
  filter (fun x => key x =? id) l' <> [].
Proof.
  intros Hf Hu Hex Hnil.
  apply existsb_exists in Hex. destruct Hex as (x & Hx & Hk).
  assert (Hkeys : map key l' = map key l)
    by (eapply update_where_keys; eauto).
  assert (Hin : In (key x) (map key l')) by (rewrite Hkeys; apply in_map, Hx).
  apply in_map_iff in Hin. destruct Hin as (y & Hy & Hin).
  assert (Hyf : In y (filter (fun x => key x =? id) l')).
  { apply filter_In. split; [exact Hin|]. rewrite Hy. exact Hk. }
  rewrite Hnil in Hyf. contradiction.
Qed.

(** X11: with stars in the body, PUT /reviews/{id} answers 404 exactly when
    no review has the id, with the review-not-found message and the store
    untouched; the not-found answer after the UPDATE is never given. *)
Theorem put_review_not_found {E : Engine} (rq : request) (id : Z) (d : db) :
  dict_mem "stars" (get_json rq) = true ->
  (status_of (fst (put_review rq id d)) = Some 404
   <-> forall r, In r (reviews d) -> r_id r <> id)
  /\ ((forall r, In r (reviews d) -> r_id r <> id) ->
      put_review rq id d = (Reply ERROR_REVIEW_NOT_FOUND 404, d)).
Proof.
  intros Hs.
  assert (Hno : (forall r, In r (reviews d) -> r_id r <> id) ->
                existsb (fun r => r_id r =? id) (reviews d) = false).
  { intros H. destruct (existsb _ (reviews d)) eqn:Hex; [|reflexivity].
    apply existsb_exists in Hex. destruct Hex as (r & Hr & Hk).
    apply Z.eqb_eq in Hk. exfalso. exact (H r Hr Hk). }
  split; [split|].
  - rewrite (put_review_run rq id d Hs).
    destruct (existsb _ (reviews d)) eqn:Hex.
    + destruct (update_where _ _ (reviews d)) as [rs|] eqn:Hu;
        [|discriminate].
      cbv zeta.
      destruct (filter (fun r => r_id r =? id) rs) as [|r [|r' l]] eqn:Hf;
        try discriminate.
      exfalso. revert Hf. eapply updated_row_is_selected; eauto.
      intros x y Hy. eapply assign_all_keys, Hy.
    + intros _ r Hr Hk.
      assert (existsb (fun r => r_id r =? id) (reviews d) = true)
        by (apply existsb_exists; exists r; split;
            [exact Hr | apply Z.eqb_eq, Hk]).
      congruence.
  - intros H. rewrite (put_review_run rq id d Hs), (Hno H). reflexivity.
  - intros H. rewrite (put_review_run rq id d Hs), (Hno H). reflexivity.
Qed.

Lemma put_review_not_found_witness :
  put_review (E := plain_engine) (sample_request [] [("stars", AInt 4)]) 9
             reviewed_business
  = (Reply ERROR_REVIEW_NOT_FOUND 404, reviewed_business).
Proof.
  apply (@put_review_not_found plain_engine).
  - reflexivity.
  - intros r [<- | []]. discriminate.
Defined.

(** X12: POST /reviews answers 400 exactly when user_id, business_id or
    stars is missing from the body; the KeyError handler of its [try] is
    never the one that answers. *)
Theorem post_review_bad_request {E : Engine} (rq : request) (d : db) :
  status_of (fst (post_review rq d)) = Some 400
  <-> (dict_mem "user_id" (get_json rq) = false
       \/ dict_mem "business_id" (get_json rq) = false
       \/ dict_mem "stars" (get_json rq) = false).
Proof.
  split.
  - destruct (dict_get "user_id" (get_json rq)) as [u|] eqn:Hu;
      [|intros _; left; unfold dict_mem; rewrite Hu; reflexivity].
    destruct (dict_get "business_id" (get_json rq)) as [b|] eqn:Hb;
      [|intros _; right; left; unfold dict_mem; rewrite Hb; reflexivity].
    destruct (dict_get "stars" (get_json rq)) as [s|] eqn:Hs;
      [|intros _; right; right; unfold dict_mem; rewrite Hs; reflexivity].
    rewrite (post_review_run rq d Hu Hb Hs).
    destruct (existsb _ (businesses d)); [|discriminate].
    destruct (existsb _ (reviews d)); [discriminate|].
    destruct (review_row _ u b s _); discriminate.
  - intros H. rewrite (post_review_missing rq d H). reflexivity.
Qed.

Lemma post_review_bad_request_witness :
  status_of (fst (post_review (E := plain_engine)
                    (sample_request [] [("user_id", AInt 5); ("stars", AInt 4)])
                    reviewed_business)) = Some 400.
Proof.
  apply (@post_review_bad_request plain_engine). right. left. reflexivity.
Defined.

(** ** Ids that are not in the store *)

(** X13: for an id no business has, GET and PUT /businesses/{id} answer 404
    with the business message and leave the store as it was; DELETE
    /businesses/{id} answers that 404 as well, leaves the businesses as they
    were and has deleted the reviews that refer to the id, so that the store
    is as it was when no review refers to the id.  For an id no review has,
    GET and DELETE /reviews/{id} answer 404 with the review message, which
    is another one, and leave the store as it was. *)
Theorem unknown_ids_are_not_found {E : Engine} (rq : request) (id : Z) (d : db) :
  ((forall b, In b (businesses d) -> b_id b <> id) ->
   get_business rq id d = (Reply ERROR_NOT_FOUND 404, d)
   /\ put_business rq id d = (Reply ERROR_NOT_FOUND 404, d)
   /\ delete_business id d
      = (Reply ERROR_NOT_FOUND 404,
         Db (businesses d)
            (filter (fun r => negb (business_id r =? id)) (reviews d))
            (businesses_seq d) (reviews_seq d))
   /\ ((forall r, In r (reviews d) -> business_id r <> id) ->
       delete_business id d = (Reply ERROR_NOT_FOUND 404, d)))
  /\ ((forall r, In r (reviews d) -> r_id r <> id) ->
      get_review rq id d = (Reply ERROR_REVIEW_NOT_FOUND 404, d)
      /\ delete_review id d = (Reply ERROR_REVIEW_NOT_FOUND 404, d))
  /\ ERROR_NOT_FOUND <> ERROR_REVIEW_NOT_FOUND.
Proof.
  split; [|split].
  - intros Hb.
    assert (Hf : filter (fun b => b_id b =? id) (businesses d) = []).
    { apply filter_nil. intros b Hin. apply Z.eqb_neq, Hb, Hin. }
    split; [|split; [|split]].
    + rewrite get_business_run, Hf. reflexivity.
    + apply put_business_missing, Hf.
    + rewrite delete_business_eq, Hf.
      rewrite (filter_none_keeps_all b_id id (businesses d) Hf).
      reflexivity.
    + intros Hr.
      assert (Hg : filter (fun r => business_id r =? id) (reviews d) = []).
      { apply filter_nil. intros r Hin. apply Z.eqb_neq, Hr, Hin. }
      rewrite delete_business_eq, Hf.
      rewrite (filter_none_keeps_all b_id id (businesses d) Hf).
      rewrite (filter_none_keeps_all business_id id (reviews d) Hg).
      rewrite db_eta. reflexivity.
  - intros Hr.
    assert (Hf : filter (fun r => r_id r =? id) (reviews d) = []).
    { apply filter_nil. intros r Hin. apply Z.eqb_neq, Hr, Hin. }
    split.
    + apply get_review_missing, Hf.
    + rewrite delete_review_eq, Hf.
      rewrite (filter_none_keeps_all r_id id (reviews d) Hf).
      rewrite db_eta. reflexivity.
  - discriminate.
Qed.

(** No business and no review of the sample store has the id 9, and no
    review of it refers to a business 9. *)
Lemma unknown_ids_are_not_found_witness :
  (get_business (sample_request [] []) 9 reviewed_business
   = (Reply ERROR_NOT_FOUND 404, reviewed_business)
   /\ put_business (E := plain_engine) (sample_request [] []) 9 reviewed_business
      = (Reply ERROR_NOT_FOUND 404, reviewed_business)
   /\ delete_business 9 reviewed_business
      = (Reply ERROR_NOT_FOUND 404, reviewed_business))
  /\ get_review (sample_request [] []) 9 reviewed_business
     = (Reply ERROR_REVIEW_NOT_FOUND 404, reviewed_business)
  /\ delete_review 9 reviewed_business
     = (Reply ERROR_REVIEW_NOT_FOUND 404, reviewed_business).
Proof.
  destruct (@unknown_ids_are_not_found plain_engine (sample_request [] []) 9
              reviewed_business) as (H1 & H2 & _).
  split.
  - destruct H1 as (Hg & Hp & _ & Hd);
      [intros x [<- | []]; discriminate|].
    split; [exact Hg | split; [exact Hp|]].
    apply Hd. intros x [<- | []]; discriminate.
  - apply H2; intros x [<- | []]; discriminate.
Defined.

(** ** The listings of an owner and of a user *)

(** X14: GET /users/{id}/reviews returns, with 200 and in the order of the
    store, exactly the reviews whose user_id is the id, each with a business
    URL in place of the business id and a self URL, both from the root URL;
    a user without reviews gets the empty list, not a 404. *)
Theorem get_review_by_user_lists (rq : request) (id : Z) (d : db) :
  get_review_by_user rq id d
  = (Reply (JList (map (user_review_json rq)
                       (filter (fun r => user_id r =? id) (reviews d))))
           200, d)
  /\ ((forall r, In r (reviews d) -> user_id r <> id) ->
      get_review_by_user rq id d = (Reply (JList []) 200, d)).
Proof.
  assert (H : get_review_by_user rq id d
              = (Reply (JList (map (user_review_json rq)
                          (filter (fun r => user_id r =? id) (reviews d))))
                       200, d)).
  { unfold get_review_by_user, unguarded, with_connection, bind,
      SELECT_reviews_by_user, query, commit.
    cbn [working committed last_insert_id].
    rewrite for_each_total
      with (g := fun r =>
                   [("id", AInt (r_id r)); ("user_id", AInt (user_id r));
                    ("business",
                     AStr (url_root rq +++ "businesses/"
                           +++ str_of_Z (business_id r)));
                    ("stars", nullable AInt (stars r));
                    ("review_text", nullable AStr (review_text r));
                    ("self", AStr (url_root rq +++ "reviews/"
                                   +++ str_of_Z (r_id r)))])
      by reflexivity.
    unfold ret. cbn [committed]. rewrite map_map. reflexivity. }
  split; [exact H|].
  intros Hno. rewrite H, filter_nil; [reflexivity|].
  intros r Hr. apply Z.eqb_neq, Hno, Hr.
Qed.

(** X15: GET /owners/{id}/businesses returns, with 200 and in the order of
    the store, exactly the businesses whose owner_id is the id, each with a
    self URL and its zip code as the stored string; it never raises on a zip
    code, and an owner without businesses gets the empty list. *)
Theorem get_bussiness_by_owner_lists (rq : request) (id : Z) (d : db) :
  get_bussiness_by_owner rq id d
  = (Reply (JList (map (fun b => business_json rq b (AStr (zip_code b)))
                       (filter (fun b => owner_id b =? id) (businesses d))))
           200, d)
  /\ ((forall b, In b (businesses d) -> owner_id b <> id) ->
      get_bussiness_by_owner rq id d = (Reply (JList []) 200, d)).
Proof.
  split; [apply get_bussiness_by_owner_run|].
  intros Hno. rewrite get_bussiness_by_owner_run, filter_nil; [reflexivity|].
  intros b Hb. apply Z.eqb_neq, Hno, Hb.
Qed.

(** ** A limit of zero *)

Lemma window_length {A} (limit offset : Z) (rows : list A) :
  0 <= limit ->
  (len (window (limit + 1) offset rows) >? limit)
  = (Z.to_nat limit <? List.length (skipn (Z.to_nat offset) rows))%nat.
Proof.
  intros Hl. unfold len, window. rewrite length_firstn, Z.gtb_ltb.
  destruct (Nat.ltb_spec (Z.to_nat limit)
              (List.length (skipn (Z.to_nat offset) rows))) as [H | H];
    [apply Z.ltb_lt | apply Z.ltb_ge]; lia.
Qed.

(** X16: with limit = 0 both listings return no entry, and as long as a row
    is left at the offset they add a next URL with the very same offset and
    limit: a client that follows it gets the same page again. *)
Theorem listing_limit_zero (rq : request) (d : db) :
  let offset := args_get_int (args rq) "offset" 0 in
  args_get_int (args rq) "limit" 3 = 0 ->
  0 <= offset ->
  let page (n : nat) : json :=
    JObj (("entries", JList [])
          :: (if offset <? Z.of_nat n
              then [("next", JAtom (AStr (base_url rq +++ "?offset="
                                          +++ str_of_Z offset +++ "&limit=0")))]
              else [])) in
  get_businesses rq d = (Reply (page (List.length (businesses d))) 200, d)
  /\ get_reviews rq d = (Reply (page (List.length (reviews d))) 200, d).
Proof.
  intros offset Hl Ho page.
  assert (Hnext : forall A (rows : list A),
             next_link rq offset 0 (len (window (0 + 1) offset rows))
             = if offset <? Z.of_nat (List.length rows)
               then [("next", JAtom (AStr (base_url rq +++ "?offset="
                                           +++ str_of_Z offset +++ "&limit=0")))]
               else []).
  { intros A rows. unfold next_link. rewrite window_length by lia.
    rewrite length_skipn.
    destruct (offset <? Z.of_nat (List.length rows)) eqn:Hlt.
    - apply Z.ltb_lt in Hlt.
      destruct (Nat.ltb_spec (Z.to_nat 0)
                  (List.length rows - Z.to_nat offset)); [|lia].
      unfold next_url. rewrite Z.add_0_r. reflexivity.
    - apply Z.ltb_ge in Hlt.
      destruct (Nat.ltb_spec (Z.to_nat 0)
                  (List.length rows - Z.to_nat offset)); [lia|reflexivity]. }
  split.
  - rewrite (@get_businesses_page rq d offset 0 eq_refl Hl Ho);
      [| lia | constructor].
    cbn [slice_to Z.leb Z.compare Z.to_nat firstn map].
    rewrite Hnext. reflexivity.
  - rewrite (@get_reviews_page rq d offset 0 eq_refl Hl Ho) by lia.
    cbn [slice_to Z.leb Z.compare Z.to_nat firstn map].
    rewrite Hnext. reflexivity.
Qed.

Lemma listing_limit_zero_witness :
  get_businesses (sample_request [("offset", "4"); ("limit", "0")] [])
                 five_businesses
  = (Reply (JObj [("entries", JList []);
                  ("next",
                   JAtom (AStr "http://localhost:8080/businesses?offset=4&limit=0"))])
           200, five_businesses).
Proof.
  apply (@listing_limit_zero
           (sample_request [("offset", "4"); ("limit", "0")] [])
           five_businesses).
  - reflexivity.
  - vm_compute; discriminate.
Defined.

(** ** Reviews and their businesses *)

Lemma update_where_In {A} (p : A -> bool) (f : A -> option A) (l l' : list A) :
  update_where p f l = Some l' ->
  forall y, In y l' -> exists x, In x l /\ (y = x \/ f x = Some y).
Proof.
  revert l'. induction l as [|a l IH]; simpl; intros l' H y Hy.
  - inversion H; subst. contradiction.
  - destruct (if p a then f a else Some a) as [a'|] eqn:Ea; [|discriminate].
    destruct (update_where p f l) as [rs|]; [|discriminate].
    inversion H; subst. destruct Hy as [<- | Hy].
    + exists a. split; [left; reflexivity|].
      destruct (p a); [right; exact Ea | left; congruence].
    + destruct (IH rs eq_refl y Hy) as (x & Hx & Hxy).
      exists x. split; [right; exact Hx | exact Hxy].
Qed.

Section References.
Context {E : Engine}.

Lemma refs_INSERT_businesses (o n s c st z : atom) :
  keeps (on_conn references_ok) (INSERT_businesses o n s c st z).
Proof.
  intros k [Hc Hw]. unfold INSERT_businesses.
  destruct (business_row _ o n s c st z) as [b|]; cbn [snd];
    (split; [exact Hc|]); [|exact Hw].
  intros r Hr. cbn [businesses working]. rewrite map_app.
  apply in_or_app. left. apply Hw, Hr.
Qed.

Lemma refs_UPDATE_businesses (o n s c st z : atom) (id : Z) :
  keeps (on_conn references_ok) (UPDATE_businesses o n s c st z id).
Proof.
  apply keeps_statement. intros w a w' H Hw.
  destruct (update_where _ _ (businesses w)) as [bs|] eqn:Eu; [|discriminate].
  inversion H; subst. intros r Hr. cbn [businesses reviews] in *.
  assert (Hk : map b_id bs = map b_id (businesses w)).
  { eapply update_where_keys; [|exact Eu].
    intros x y Hy. eapply business_row_id, Hy. }
  rewrite Hk. apply Hw, Hr.
Qed.

Lemma refs_UPDATE_reviews (parts : list string) (params : dict atom) :
  keeps (on_conn references_ok) (UPDATE_reviews parts params).
Proof.
  apply keeps_statement. intros w a w' H Hw.
  destruct parts as [|p ps]; [discriminate|].
  destruct (dict_get "id" params) as [[| |id|]|]; try discriminate.
  destruct (update_where _ _ (reviews w)) as [rs|] eqn:Eu; [|discriminate].
  inversion H; subst. intros r Hr. cbn [businesses reviews] in *.
  destruct (update_where_In _ _ _ Eu r Hr) as (x & Hx & [-> | Hxy]).
  - apply Hw, Hx.
  - apply assign_all_keys in Hxy. destruct Hxy as [_ Hp].
    unfold pair in Hp. injection Hp as _ Hb. rewrite Hb. apply Hw, Hx.
Qed.

Lemma refs_DELETE_reviews (id : Z) :
  keeps (on_conn references_ok) (DELETE_reviews id).
Proof.
  apply keeps_statement. intros w a w' H Hw. inversion H; subst.
  intros r Hr. cbn [businesses reviews] in *.
  apply filter_In in Hr. apply Hw, Hr.
Qed.

Lemma refs_delete_business (id : Z) (d : db) :
  references_ok d -> references_ok (snd (delete_business id d)).
Proof.
  intros H. rewrite delete_business_eq. cbn [snd]. intros r Hr.
  cbn [businesses reviews] in *. apply filter_In in Hr.
  destruct Hr as [Hr Hne]. apply negb_true_iff, Z.eqb_neq in Hne.
  specialize (H r Hr). apply in_map_iff in H. destruct H as (b & Hb & Hin).
  apply in_map_iff. exists b. split; [exact Hb|].
  apply filter_In. split; [exact Hin|].
  apply negb_true_iff, Z.eqb_neq. congruence.
Qed.

Lemma refs_post_review (rq : request) (d : db) :
  exact E -> references_ok d -> references_ok (snd (post_review rq d)).
Proof.
  intros Hex H.
  destruct (post_review_cases rq d) as [H400 | (u & b & s & _ & _ & _ & Hrun)].
  - rewrite H400. exact H.
  - rewrite Hrun.
    destruct (existsb _ (businesses d)) eqn:Hbe; [|exact H].
    destruct (existsb _ (reviews d)); [exact H|].
    destruct (review_row _ u b s _) as [r|] eqn:Hrow; [|exact H].
    apply review_row_Some in Hrow. destruct Hrow as (_ & _ & Hb & _).
    cbn [snd]. intros x Hx. cbn [with_review businesses reviews] in *.
    apply in_app_or in Hx. destruct Hx as [Hx | [<- | []]]; [apply H, Hx|].
    apply existsb_exists in Hbe. destruct Hbe as (y & Hy & Heq).
    apply in_map_iff. exists y. split; [|exact Hy].
    exact (Hex _ _ _ Hb Heq).
Qed.

End References.

#[local] Hint Resolve refs_INSERT_businesses refs_UPDATE_businesses
  refs_UPDATE_reviews refs_DELETE_reviews : statements.

Lemma refs_handle {E : Engine} (r : route) (rq : request) (d : db) :
  exact E -> references_ok d -> references_ok (snd (handle r rq d)).
Proof.
  intros Hex H. destruct r; cbn [handle].
  - exact H.
  - unfold post_businesses. handler_keeps.
  - unfold get_business. handler_keeps.
  - unfold put_business. handler_keeps.
  - apply refs_delete_business, H.
  - unfold get_businesses. handler_keeps.
  - unfold get_bussiness_by_owner. handler_keeps.
  - apply refs_post_review; assumption.
  - unfold get_review. handler_keeps.
  - unfold put_review. cbv zeta.
    destruct (negb _); [exact H|].
    destruct (update_fields _) as [[|p ps] params]; [exact H|].
    handler_keeps.
  - unfold delete_review. handler_keeps.
  - unfold get_review_by_user. handler_keeps.
  - unfold get_reviews. handler_keeps.
Qed.

(** X17: with a store that compares an INT column with a parameter as the
    value it would write for it, every request keeps each review attached to
    a business of the store, so this holds in every store a run of requests
    reaches from empty tables: [post_review] looks the business up,
    [delete_business] takes its reviews along. *)
Theorem reviews_reference_businesses {E : Engine} :
  exact E ->
  (forall d, reachable d -> references_ok d)
  /\ (forall r rq d,
      references_ok d -> references_ok (snd (handle r rq d))).
Proof.
  intros Hex. split.
  - induction 1 as [|r rq d _ IH].
    + intros r [].
    + apply refs_handle; assumption.
  - intros r rq d. apply refs_handle, Hex.
Qed.

Lemma plain_engine_exact : exact plain_engine.
Proof.
  intros v z z' H Heq. destruct v as [| b | x | s]; simpl in *;
    try discriminate.
  inversion H; subst. apply Z.eqb_eq, Heq.
Qed.

Lemma reviews_reference_businesses_witness :
  exact plain_engine
  /\ references_ok (snd (run (E := plain_engine) same_review_twice empty_db)).
Proof.
  split; [exact plain_engine_exact|].
  destruct (@reviews_reference_businesses plain_engine plain_engine_exact)
    as [H _].
  apply H. apply reachable_run. constructor.
Defined.

(** ** The constraints of the schema *)

Section Stars.
Context {E : Engine}.

Lemma assign_all_stars (params : dict atom) (parts : list string)
  (r r' : review) :
  assign_all params parts r = Some r' ->
  stars_check (stars r) = true -> stars_check (stars r') = true.
Proof.
  revert r. induction parts as [|p ps IH]; simpl; intros r H Hr.
  - inversion H; subst. exact Hr.
  - destruct (assign params p r) as [r1|] eqn:E1; [|discriminate].
    apply (IH r1 H). revert E1. unfold assign.
    destruct (String.eqb p "stars = :stars").
    + destruct (dict_get "stars" params) as [v|]; [|discriminate].
      destruct (int_param v) as [s|]; [|discriminate].
      destruct (stars_check s) eqn:Hc; [|discriminate].
      intros H1. inversion H1. exact Hc.
    + destruct (String.eqb p "review_text = :review_text"); [|discriminate].
      destruct (dict_get "review_text" params) as [v|]; [|discriminate].
      destruct (text_param 1000 v) as [t|]; [|discriminate].
      intros H1. inversion H1. exact Hr.
Qed.

Lemma stars_INSERT_businesses (o n s c st z : atom) :
  keeps (on_conn stars_ok) (INSERT_businesses o n s c st z).
Proof.
  intros k [Hc Hw]. unfold INSERT_businesses.
  destruct (business_row _ o n s c st z); cbn [snd]; split; assumption.
Qed.

Lemma stars_INSERT_reviews (u b s t : atom) :
  keeps (on_conn stars_ok) (INSERT_reviews u b s t).
Proof.
  intros k [Hc Hw]. unfold INSERT_reviews.
  destruct (review_row _ u b s t) as [r|] eqn:Er; cbn [snd];
    (split; [exact Hc|]); [|exact Hw].
  intros x Hx. cbn [reviews working] in Hx. apply in_app_or in Hx.
  destruct Hx as [Hx | [<- | []]]; [apply Hw, Hx|].
  apply (review_row_Some _ _ _ _ _ Er).
Qed.

Lemma stars_UPDATE_businesses (o n s c st z : atom) (id : Z) :
  keeps (on_conn stars_ok) (UPDATE_businesses o n s c st z id).
Proof.
  apply keeps_statement. intros w a w' H Hw.
  destruct (update_where _ _ (businesses w)); [|discriminate].
  inversion H; subst. exact Hw.
Qed.

Lemma stars_UPDATE_reviews (parts : list string) (params : dict atom) :
  keeps (on_conn stars_ok) (UPDATE_reviews parts params).
Proof.
  apply keeps_statement. intros w a w' H Hw.
  destruct parts as [|p ps]; [discriminate|].
  destruct (dict_get "id" params) as [[| |id|]|]; try discriminate.
  destruct (update_where _ _ (reviews w)) as [rs|] eqn:Eu; [|discriminate].
  inversion H; subst. intros r Hr. cbn [reviews] in Hr.
  destruct (update_where_In _ _ _ Eu r Hr) as (x & Hx & [-> | Hxy]).
  - apply Hw, Hx.
  - eapply assign_all_stars; [exact Hxy | apply Hw, Hx].
Qed.

Lemma stars_DELETE_reviews_of_business (id : Z) :
  keeps (on_conn stars_ok) (DELETE_reviews_of_business id).
Proof.
  apply keeps_statement. intros w a w' H Hw. inversion H; subst.
  intros r Hr. cbn [reviews] in Hr. apply filter_In in Hr. apply Hw, Hr.
Qed.

Lemma stars_DELETE_businesses (id : Z) :
  keeps (on_conn stars_ok) (DELETE_businesses id).
Proof.
  apply keeps_statement. intros w a w' H Hw. inversion H; subst. exact Hw.
Qed.

Lemma stars_DELETE_reviews (id : Z) :
  keeps (on_conn stars_ok) (DELETE_reviews id).
Proof.
  apply keeps_statement. intros w a w' H Hw. inversion H; subst.
  intros r Hr. cbn [reviews] in Hr. apply filter_In in Hr. apply Hw, Hr.
Qed.

End Stars.

#[local] Hint Resolve stars_INSERT_businesses stars_INSERT_reviews
  stars_UPDATE_businesses stars_UPDATE_reviews
  stars_DELETE_reviews_of_business stars_DELETE_businesses
  stars_DELETE_reviews : statements.

Lemma stars_handle {E : Engine} (r : route) (rq : request) (d : db) :
  stars_ok d -> stars_ok (snd (handle r rq d)).
Proof.
  intros H. destruct r; cbn [handle].
  - exact H.
  - unfold post_businesses. handler_keeps.
  - unfold get_business. handler_keeps.
  - unfold put_business. handler_keeps.
  - unfold delete_business. handler_keeps.
  - unfold get_businesses. handler_keeps.
  - unfold get_bussiness_by_owner. handler_keeps.
  - unfold post_review. cbv zeta.
    destruct (filter _ _); [|exact H]. handler_keeps.
  - unfold get_review. handler_keeps.
  - unfold put_review. cbv zeta.
    destruct (negb _); [exact H|].
    destruct (update_fields _) as [[|p ps] params]; [exact H|].
    handler_keeps.
  - unfold delete_review. handler_keeps.
  - unfold get_review_by_user. handler_keeps.
  - unfold get_reviews. handler_keeps.
Qed.

(** X18: in every store a run of requests reaches from empty tables the ids
    of each table are distinct and below the table's counter, and the stars
    of every review are NULL or within 0..5; whatever request comes next
    keeps both. *)
Theorem reachable_stores_are_well_formed {E : Engine} (d : db) :
  reachable d ->
  primary_keys d /\ stars_ok d
  /\ forall r rq,
      primary_keys (snd (handle r rq d)) /\ stars_ok (snd (handle r rq d)).
Proof.
  intros Hr.
  assert (Hs : stars_ok d).
  { induction Hr as [|r rq d _ IH]; [intros r [] | apply stars_handle, IH]. }
  pose proof (reachable_primary_keys Hr) as Hpk.
  split; [exact Hpk|]. split; [exact Hs|].
  intros r rq. split; [apply primary_keys_handle, Hpk | apply stars_handle, Hs].
Qed.

Lemma reachable_stores_are_well_formed_witness :
  primary_keys (snd (run (E := plain_engine) same_review_twice empty_db))
  /\ stars_ok (snd (run (E := plain_engine) same_review_twice empty_db)).
Proof.
  destruct (@reachable_stores_are_well_formed plain_engine
              (snd (run (E := plain_engine) same_review_twice empty_db)))
    as (H1 & H2 & _).
  - apply reachable_run. constructor.
  - split; assumption.
Defined.

(** ** Requests that fail *)

Lemma failed_lookup_keeps_rows {A} (key : A -> Z) (id : Z) (l : list A) :
  NoDup (map key l) ->
  (len (filter (fun x => key x =? id) l) =? 1) = false ->
  filter (fun x => key x =? id) l = []
  /\ filter (fun x => negb (key x =? id)) l = l.
Proof.
  intros Hnd Hlen.
  destruct (filter_key_cases key id l Hnd) as [Hf | (r & _ & _ & Hf)].
  - split; [exact Hf | apply filter_none_keeps_all, Hf].
  - rewrite Hf in Hlen. discriminate.
Qed.

(** X19: in a store whose ids are primary keys and whose reviews have their
    businesses, a request that does not answer with a 2xx status leaves the
    store exactly as it was, whichever route it takes: writes that fail,
    missing members, unknown ids, conflicts and unhandled exceptions store
    nothing. *)
Theorem failures_change_nothing {E : Engine} (r : route) (rq : request)
  (d : db) :
  primary_keys d -> references_ok d ->
  succeeded (fst (handle r rq d)) = false ->
  snd (handle r rq d) = d.
Proof.
  intros [[Hnb _] [Hnr _]] Href. destruct r; cbn [handle].
  - discriminate.
  - rewrite post_businesses_run. cbv zeta.
    repeat match goal with
           | |- context [match dict_get ?k ?c with _ => _ end] =>
               destruct (dict_get k c)
           end; try reflexivity.
    destruct (business_row _ _ _ _ _ _ _); [discriminate | reflexivity].
  - intros _. unfold get_business. reads_nothing d.
  - rewrite put_business_run. cbv zeta.
    destruct (filter _ (businesses d)) as [|b0 [|b1 l]]; try reflexivity.
    repeat match goal with
           | |- context [match dict_get ?k ?c with _ => _ end] =>
               destruct (dict_get k c)
           end; try reflexivity.
    destruct (update_where _ _ (businesses d)); [discriminate | reflexivity].
  - rewrite delete_business_eq. cbn [fst snd].
    destruct (len (filter (fun b => b_id b =? id) (businesses d)) =? 1)
      eqn:Hlen; [discriminate|].
    intros _.
    destruct (failed_lookup_keeps_rows b_id id (businesses d) Hnb Hlen)
      as [Hf Hkeep].
    rewrite Hkeep.
    rewrite filter_all; [apply db_eta|].
    intros x Hx. apply negb_true_iff, Z.eqb_neq. intros Hid.
    specialize (Href x Hx). apply in_map_iff in Href.
    destruct Href as (b & Hb & Hin).
    assert (Hbf : In b (filter (fun b => b_id b =? id) (businesses d))).
    { apply filter_In. split; [exact Hin|]. apply Z.eqb_eq. congruence. }
    rewrite Hf in Hbf. contradiction.
  - intros _. unfold get_businesses. reads_nothing d.
  - intros _. unfold get_bussiness_by_owner. reads_nothing d.
  - destruct (post_review_cases rq d) as [H400 | (u & b & s & _ & _ & _ & Hrun)].
    + rewrite H400. reflexivity.
    + rewrite Hrun.
      destruct (existsb _ (businesses d)); [|reflexivity].
      destruct (existsb _ (reviews d)); [reflexivity|].
      destruct (review_row _ u b s _); [discriminate | reflexivity].
  - intros _. unfold get_review. reads_nothing d.
  - destruct (dict_mem "stars" (get_json rq)) eqn:Hs.
    + rewrite (put_review_run rq id d Hs).
      destruct (existsb _ (reviews d)) eqn:Hex; [|reflexivity].
      destruct (update_where _ _ (reviews d)) as [rs|] eqn:Hu; [|reflexivity].
      cbv zeta.
      assert (Hkeys : map r_id rs = map r_id (reviews d)).
      { eapply update_where_keys; [|exact Hu].
        intros x y Hy. eapply assign_all_keys, Hy. }
      assert (Hnrs : NoDup (map r_id rs)) by (rewrite Hkeys; exact Hnr).
      destruct (filter_key_cases r_id id rs Hnrs) as [Hf | (x & _ & _ & Hf)].
      * exfalso. revert Hf. eapply updated_row_is_selected; eauto.
        intros x y Hy. eapply assign_all_keys, Hy.
      * rewrite Hf. discriminate.
    + unfold put_review. rewrite Hs. reflexivity.
  - rewrite delete_review_eq. cbn [fst snd].
    destruct (len (filter (fun r => r_id r =? id) (reviews d)) =? 1)
      eqn:Hlen; [discriminate|].
    intros _.
    destruct (failed_lookup_keeps_rows r_id id (reviews d) Hnr Hlen)
      as [_ Hkeep].
    rewrite Hkeep. apply db_eta.
  - intros _. unfold get_review_by_user. reads_nothing d.
  - intros _. unfold get_reviews. reads_nothing d.
Qed.

Lemma failures_change_nothing_witness :
  snd (handle (E := plain_engine) (PUT_review 1)
              (sample_request [] [("stars", AInt 9)]) reviewed_business)
  = reviewed_business.
Proof.
  apply (@failures_change_nothing plain_engine).
  - repeat split; repeat constructor; simpl; try tauto; lia.
  - intros r [<- | []]. left. reflexivity.
  - reflexivity.
Defined.

(** ** More answers of PUT /businesses/{id} *)

(** X20: on a stored business, PUT /businesses/{id} answers 400 when one of
    the six members is missing from the body and 500, with the message of
    the create handler, when the store rejects the new row; in both cases the
    business stays as it was. *)
Theorem put_business_failures {E : Engine} (rq : request) (id : Z) (d : db)
  (b0 : business) :
  NoDup (map b_id (businesses d)) -> In b0 (businesses d) -> b_id b0 = id ->
  ((exists k,
       In k ["owner_id"; "name"; "street_address"; "city"; "state"; "zip_code"]
       /\ dict_get k (get_json rq) = None) ->
   put_business rq id d = (Reply ERROR_BAD_REQUEST 400, d))
  /\ (forall o n s c st z,
      dict_get "owner_id" (get_json rq) = Some o ->
      dict_get "name" (get_json rq) = Some n ->
      dict_get "street_address" (get_json rq) = Some s ->
      dict_get "city" (get_json rq) = Some c ->
      dict_get "state" (get_json rq) = Some st ->
      dict_get "zip_code" (get_json rq) = Some z ->
      business_row id o n s c st z = None ->
      put_business rq id d
      = (Reply (obj [("Error", AStr "Unable to create business")]) 500, d)).
Proof.
  intros Hnd Hin Hid.
  assert (Hf : filter (fun x => b_id x =? id) (businesses d) = [b0])
    by (rewrite <- Hid; apply filter_key; assumption).
  split.
  - intros (k & Hk & Hnone). rewrite put_business_run. cbv zeta. rewrite Hf.
    cbn [In] in Hk.
    destruct Hk as [<- | [<- | [<- | [<- | [<- | [<- | []]]]]]];
      rewrite Hnone;
      repeat match goal with
             | |- context [match dict_get ?k ?c with _ => _ end] =>
                 destruct (dict_get k c)
             end;
      reflexivity.
  - intros o n s c st z Ho Hn Hs Hc Hst Hz Hrow.
    rewrite put_business_run. cbv zeta.
    rewrite Hf, Ho, Hn, Hs, Hc, Hst, Hz.
    rewrite (@update_where_rejected _ (fun b => b_id b =? id) _
               (businesses d) b0 Hin);
      [reflexivity | apply Z.eqb_eq, Hid | rewrite Hid; exact Hrow].
Qed.

Lemma put_business_failures_witness :
  put_business (E := plain_engine)
    (sample_request [] [("owner_id", AInt 7); ("name", AStr "Cafe")]) 1
    (one_business "97330")
  = (Reply ERROR_BAD_REQUEST 400, one_business "97330")
  /\ put_business (E := plain_engine)
       (sample_request [] (sample_business (AStr "973301"))) 1
       (one_business "97330")
     = (Reply (obj [("Error", AStr "Unable to create business")]) 500,
        one_business "97330").
Proof.
  assert (Hnd : NoDup (map b_id (businesses (one_business "97330"))))
    by (repeat constructor; simpl; tauto).
  assert (Hin : In (Business 1 7 "Cafe" "1 Main St" "Corvallis" "OR" "97330")
                   (businesses (one_business "97330")))
    by (left; reflexivity).
  split.
  - destruct (@put_business_failures plain_engine
                (sample_request [] [("owner_id", AInt 7); ("name", AStr "Cafe")])
                1 (one_business "97330") _ Hnd Hin eq_refl) as [H _].
    apply H. exists "zip_code". split; [cbn; tauto | reflexivity].
  - destruct (@put_business_failures plain_engine
                (sample_request [] (sample_business (AStr "973301"))) 1
                (one_business "97330") _ Hnd Hin eq_refl) as [_ H].
    apply (H (AInt 7) (AStr "Cafe") (AStr "1 Main St") (AStr "Corvallis")
             (AStr "OR") (AStr "973301"));
      reflexivity.
Defined.

(** ** A page past the last row *)

(** X21: for an offset at or past the number of rows, with any limit from 0
    on, both listings answer 200 with no entry and no next URL. *)
Theorem listing_past_the_end (rq : request) (d : db) :
  let offset := args_get_int (args rq) "offset" 0 in
  let limit := args_get_int (args rq) "limit" 3 in
  0 <= limit ->
  (len (businesses d) <= offset ->
   get_businesses rq d = (Reply (JObj [("entries", JList [])]) 200, d))
  /\ (len (reviews d) <= offset ->
      get_reviews rq d = (Reply (JObj [("entries", JList [])]) 200, d)).
Proof.
  intros offset limit Hl.
  assert (Hw : forall A (rows : list A),
             len rows <= offset -> window (limit + 1) offset rows = []).
  { intros A rows H. unfold window, len in *.
    rewrite skipn_all2 by lia. apply firstn_nil. }
  assert (Ho : forall A (rows : list A), len rows <= offset -> 0 <= offset)
    by (intros A rows H; unfold len in H; lia).
  assert (Hn : next_link rq offset limit (len (@nil json)) = []).
  { unfold next_link, len. cbn [List.length Z.of_nat].
    destruct (Z.gtb_spec 0 limit); [lia | reflexivity]. }
  split; intros H.
  - rewrite (@get_businesses_page rq d offset limit eq_refl eq_refl);
      [| eapply Ho; eauto | lia
       | rewrite Hw by exact H; rewrite slice_to_nonneg by lia;
         rewrite firstn_nil; constructor].
    rewrite Hw by exact H. rewrite slice_to_nonneg by lia.
    rewrite firstn_nil. cbn [map]. unfold len in *. cbn [List.length] in *.
    rewrite Hn. reflexivity.
  - rewrite (@get_reviews_page rq d offset limit eq_refl eq_refl);
      [| eapply Ho; eauto | lia].
    rewrite Hw by exact H. rewrite slice_to_nonneg by lia.
    rewrite firstn_nil. cbn [map]. unfold len in *. cbn [List.length] in *.
    rewrite Hn. reflexivity.
Qed.

Lemma listing_past_the_end_witness :
  get_businesses (sample_request [("offset", "5"); ("limit", "2")] [])
                 five_businesses
  = (Reply (JObj [("entries", JList [])]) 200, five_businesses).
Proof.
  apply (@listing_past_the_end
           (sample_request [("offset", "5"); ("limit", "2")] [])
           five_businesses);
    vm_compute; discriminate.
Defined.

(** ** Deleting a review to post a new one *)

(** X22: what the conflict message promises: once the review of a user for a
    business is deleted, a POST /reviews of that user for that business, with
    a row the store accepts, is no conflict any more and answers 201. *)
Theorem delete_then_post_again {E : Engine} (rq : request) (d : db)
  (r : review) :
  exact E ->
  one_review_per_pair d -> NoDup (map r_id (reviews d)) -> In r (reviews d) ->
  forall u b s r',
    dict_get "user_id" (get_json rq) = Some u ->
    dict_get "business_id" (get_json rq) = Some b ->
    dict_get "stars" (get_json rq) = Some s ->
    int_param u = Some (Some (user_id r)) ->
    int_param b = Some (Some (business_id r)) ->
    existsb (fun x => int_eq (b_id x) b) (businesses d) = true ->
    review_row (reviews_seq d) u b s
      (dict_get_default (get_json rq) "review_text" (AStr "")) = Some r' ->
    let d1 := snd (delete_review (r_id r) d) in
    fst (delete_review (r_id r) d) = Reply (JAtom (AStr "")) 204
    /\ fst (post_review rq d1)
       = Reply (created_review_json rq (reviews_seq d) u b s
                  (dict_get_default (get_json rq) "review_text" (AStr "")))
               201
    /\ reviews (snd (post_review rq d1)) = (reviews d1 ++ [r'])%list.
Proof.
  intros Hex Hpairs Hnd Hin u b s r' Hu Hb Hs Hpu Hpb Hbe Hrow d1. subst d1.
  rewrite !delete_review_eq. cbn [fst snd].
  rewrite (filter_key r_id _ _ Hnd Hin). split; [reflexivity|].
  rewrite (post_review_run rq _ Hu Hb Hs).
  cbn [businesses reviews reviews_seq]. rewrite Hbe.
  assert (Hnone : existsb (fun x => int_eq (user_id x) u
                                    && int_eq (business_id x) b)
                    (filter (fun x => negb (r_id x =? r_id r)) (reviews d))
                  = false).
  { destruct (existsb _ (filter _ (reviews d))) eqn:Hf; [|reflexivity].
    exfalso. apply existsb_exists in Hf. destruct Hf as (x & Hx & Hm).
    apply filter_In in Hx. destruct Hx as [Hx Hne].
    apply andb_true_iff in Hm. destruct Hm as [Hmu Hmb].
    pose proof (Hex _ _ _ Hpu Hmu) as Hxu.
    pose proof (Hex _ _ _ Hpb Hmb) as Hxb.
    assert (x = r).
    { eapply (NoDup_map_eq pair); eauto. unfold pair. congruence. }
    subst x. rewrite Z.eqb_refl in Hne. discriminate. }
  rewrite Hnone, Hrow. split; reflexivity.
Qed.

Lemma delete_then_post_again_witness :
  fst (post_review (E := plain_engine)
         (sample_request [] (sample_review (AInt 5) (AInt 1) (AInt 4)))
         (snd (delete_review 1 reviewed_business)))
  = Reply (created_review_json
             (sample_request [] (sample_review (AInt 5) (AInt 1) (AInt 4)))
             2 (AInt 5) (AInt 1) (AInt 4) (AStr "")) 201.
Proof.
  assert (Hp : one_review_per_pair reviewed_business)
    by (repeat constructor; simpl; tauto).
  assert (Hnd : NoDup (map r_id (reviews reviewed_business)))
    by (repeat constructor; simpl; tauto).
  assert (Hin : In (Review 1 5 1 (Some 3) (Some "Good"))
                   (reviews reviewed_business))
    by (left; reflexivity).
  destruct (@delete_then_post_again plain_engine
              (sample_request [] (sample_review (AInt 5) (AInt 1) (AInt 4)))
              reviewed_business _ plain_engine_exact Hp Hnd Hin
              (AInt 5) (AInt 1) (AInt 4) (Review 2 5 1 (Some 4) (Some ""))
              eq_refl eq_refl eq_refl eq_refl eq_refl eq_refl eq_refl)
    as (_ & H & _).
  exact H.
Defined.
